(** * Instrumented chat turns: conversation history, metrics and spans

    A shallow embedding of the four chatbot demos

      - demo/langfuse/chatbot-langfuse.py            (class [ObservableChatbot])
      - demo/opik/chatbot-opik.py                    (class [OpikObservableChatbot])
      - demo/langtrace/chatbot-langtrace.py          (functions [chat], [chat_stream])
      - demo/openllmetry/chatbot-openllmetry-ollama.py (functions [chat], [chat_stream])

    with the loops that drive them ([main], [run_demo]), the endpoint
    normalisation of [setup_opentelemetry] in the Opik demo, and the agent of

      - demo/openllmetry/chatbot-openllmetry-openai.py (class [LLMObservabilityAgent])

    Python statements become computations in a reader/state/exception monad
    [M].  The state ([World]) holds the Python list objects (a heap, because
    the conversation history is passed and mutated by reference), the spans
    created through the OpenTelemetry tracer, the samples handed to the meter
    and a log of the requests sent to the model backend.  The reader part
    ([Env]) holds what the program cannot control: the replies of the Ollama
    server, the wall clock and the version-dependent behaviour of the tracing
    library.  Generators ([chat_stream]) are state machines with one state per
    suspension point, driven by [next] and [close].

    Left out: logging and printing, the [options] passed to the backend, the
    set-up and the flushing of the exporters, and the decorators of the vendor
    SDKs ([@observe], [@track], [@workflow]), which wrap a function without
    changing what it returns, raises or yields. *)

From Stdlib Require Import ZArith Lia Ascii.
From stdpp Require Import base option list strings gmap.

Open Scope string_scope.
Open Scope Z_scope.
Open Scope list_scope.

(** ** Data model *)

Inductive Role := user | assistant.

(** A history entry, the dict [{"role": ..., "content": ...}]. *)
Record Message := mkMessage { role : Role; content : string }.

Definition History := list Message.

(** A Python exception of class [Exception]: [type(e).__name__] and [str(e)]. *)
Record Exn := mkExn { exn_type : string; exn_message : string }.

(** The reply of a non-streamed [ollama.chat] call.  The program reads it with
    [response["message"]["content"]] (a missing key raises [KeyError]) and
    with [response.get(key, 0)] (a missing key gives 0). *)
Record Response := mkResponse {
  resp_message_content : option string;
  resp_prompt_eval_count : option Z;
  resp_eval_count : option Z
}.

(** The reply of [ollama.chat(..., stream=True)]: the [content] of each chunk,
    in order, then either the end of the stream or an exception raised while
    iterating. *)
Record Stream := mkStream { deltas : list string; failure : option Exn }.

(** Python list objects live on a heap and are named by their address. *)
Abbreviation loc := nat (only parsing).

(** *** Spans (OpenTelemetry API) *)

Inductive StatusCode := UNSET | OK | ERROR.

Inductive AttrValue := AStr (s : string) | AInt (n : Z) | ABool (b : bool).

Record Span := mkSpan {
  span_name : string;
  attributes : gmap string AttrValue;
  status : StatusCode;
  recorded : list string;        (* class names of the recorded exceptions *)
  end_calls : nat                (* how many times [end()] was called *)
}.

(** *** Metric samples (OpenTelemetry API) *)

Inductive Instrument :=
  | llm_request_counter      (* "llm.requests.total"   *)
  | llm_token_counter        (* "llm.tokens.total"     *)
  | llm_latency_histogram    (* "llm.request.duration" *)
  | llm_error_counter.       (* "llm.errors.total"     *)

Record MetricSample := mkSample {
  instrument : Instrument;
  value : Z;
  labels : list (string * string)
}.

(** One request sent to the model backend. *)
Record BackendCall := mkCall {
  call_model : string;
  call_messages : History;
  call_stream : bool
}.

(** ** World and environment *)

Record World := mkWorld {
  heap : list History;
  spans : list Span;
  metrics : list MetricSample;
  backend_log : list BackendCall;
  clock_reads : nat
}.

(** The replies of the backend depend on the model, on the messages and on the
    state of the server, which is indexed here by the number of requests it
    has answered.  [time_time_at n] is the [n]-th reading of [time.time()];
    float arithmetic is not modelled, readings are integers.
    [use_span_records_base_exception] tells whether the tracing library's
    [use_span] records and flags exceptions that are not subclasses of
    [Exception] (such as [GeneratorExit]); releases of the library differ. *)
Record Env := mkEnv {
  ollama_chat_reply : nat -> string -> History -> Exn + Response;
  ollama_stream_reply : nat -> string -> History -> Exn + Stream;
  time_time_at : nat -> Z;
  use_span_records_base_exception : bool
}.

Definition set_heap (f : list History -> list History) (w : World) : World :=
  mkWorld (f (heap w)) (spans w) (metrics w) (backend_log w) (clock_reads w).
Definition set_spans (f : list Span -> list Span) (w : World) : World :=
  mkWorld (heap w) (f (spans w)) (metrics w) (backend_log w) (clock_reads w).
Definition set_metrics (f : list MetricSample -> list MetricSample) (w : World) : World :=
  mkWorld (heap w) (spans w) (f (metrics w)) (backend_log w) (clock_reads w).
Definition set_backend_log (f : list BackendCall -> list BackendCall) (w : World) : World :=
  mkWorld (heap w) (spans w) (metrics w) (f (backend_log w)) (clock_reads w).
Definition set_clock_reads (f : nat -> nat) (w : World) : World :=
  mkWorld (heap w) (spans w) (metrics w) (backend_log w) (f (clock_reads w)).

(** ** The monad of Python statements *)

Inductive Outcome (A : Type) :=
  | Return (a : A)
  | Raise (e : Exn).
Arguments Return {A} a.
Arguments Raise {A} e.

Definition M (A : Type) : Type := Env -> World -> Outcome A * World.

Definition ret {A} (a : A) : M A := fun _ w => (Return a, w).

Definition raise {A} (e : Exn) : M A := fun _ w => (Raise e, w).

Definition bind {A B} (m : M A) (k : A -> M B) : M B :=
  fun env w =>
    match m env w with
    | (Return a, w') => k a env w'
    | (Raise e, w') => (Raise e, w')
    end.

(** [try: body except Exception as e: handler e] *)
Definition try_except {A} (body : M A) (handler : Exn -> M A) : M A :=
  fun env w =>
    match body env w with
    | (Return a, w') => (Return a, w')
    | (Raise e, w') => handler e env w'
    end.

Declare Scope py_scope.
Delimit Scope py_scope with py.
Notation "'let*' x ':=' c1 'in' c2" := (bind c1 (fun x => c2))
  (at level 10, x name, c1 at level 100, c2 at level 200) : py_scope.
Notation "c1 '>>' c2" := (bind c1 (fun _ => c2))
  (at level 100, c2 at level 200, right associativity) : py_scope.
Open Scope py_scope.

(** ** Primitive statements *)

(** [[]]: a new empty list object. *)
Definition new_list : M loc :=
  fun _ w => (Return (length (heap w)), set_heap (fun h => h ++ [[]]) w).

(** [l.append(m)] *)
Definition list_append (l : loc) (m : Message) : M unit :=
  fun _ w => (Return tt, set_heap (alter (fun h => h ++ [m]) l) w).

(** The current elements of the list object [l]. *)
Definition list_read (l : loc) : M History :=
  fun _ w => (Return (default [] (heap w !! l)), w).

(** [time.time()] *)
Definition time_time : M Z :=
  fun env w => (Return (time_time_at env (clock_reads w)), set_clock_reads S w).

(** [ollama.chat(model=model, messages=messages, ...)]: the request carries
    the elements the list has when the call is made. *)
Definition ollama_chat (model : string) (messages : loc) : M Response :=
  let* msgs := list_read messages in
  fun env w =>
    let w' := set_backend_log (fun l => l ++ [mkCall model msgs false]) w in
    match ollama_chat_reply env (length (backend_log w)) model msgs with
    | inl e => (Raise e, w')
    | inr r => (Return r, w')
    end.

(** [ollama.chat(model=model, messages=messages, stream=True, ...)] *)
Definition ollama_chat_stream (model : string) (messages : loc) : M Stream :=
  let* msgs := list_read messages in
  fun env w =>
    let w' := set_backend_log (fun l => l ++ [mkCall model msgs true]) w in
    match ollama_stream_reply env (length (backend_log w)) model msgs with
    | inl e => (Raise e, w')
    | inr s => (Return s, w')
    end.

(** [response["message"]["content"]] *)
Definition getitem_message_content (response : Response) : M string :=
  match resp_message_content response with
  | Some c => ret c
  | None => raise (mkExn "KeyError" "'message'")
  end.

(** [response.get(key, 0)] on an optional count. *)
Definition get_or_0 (field : option Z) : Z := default 0 field.

(** [len(s)] *)
Definition len (s : string) : Z := Z.of_nat (String.length s).

(** [f"Error: {str(e)}"] *)
Definition error_text (e : Exn) : string := "Error: " +:+ exn_message e.

(** *** Meter *)

(** [counter.add(amount, labels)] and [histogram.record(amount, labels)] *)
Definition add (i : Instrument) (amount : Z) (lbls : list (string * string)) : M unit :=
  fun _ w => (Return tt, set_metrics (fun l => l ++ [mkSample i amount lbls]) w).

Definition record := add.

(** *** Tracer *)

Definition is_recording (sp : Span) : bool := Nat.eqb (end_calls sp) 0.

Definition update_span (f : Span -> Span) (sp : Span) : Span :=
  if is_recording sp then f sp else sp.

Definition start_span (name : string) : M nat :=
  fun _ w => (Return (length (spans w)),
              set_spans (fun l => l ++ [mkSpan name ∅ UNSET [] 0]) w).

(** [span.set_attribute(key, v)]; ignored once the span has ended. *)
Definition set_attribute (span : nat) (key : string) (v : AttrValue) : M unit :=
  fun _ w => (Return tt,
    set_spans (alter (update_span (fun sp =>
      mkSpan (span_name sp) (<[key := v]> (attributes sp)) (status sp)
             (recorded sp) (end_calls sp))) span) w).

(** [span.record_exception(e)], by the class name of [e]. *)
Definition record_exception_named (span : nat) (cls : string) : M unit :=
  fun _ w => (Return tt,
    set_spans (alter (update_span (fun sp =>
      mkSpan (span_name sp) (attributes sp) (status sp)
             (recorded sp ++ [cls]) (end_calls sp))) span) w).

Definition record_exception (span : nat) (e : Exn) : M unit :=
  record_exception_named span (exn_type e).

Definition set_status (span : nat) (s : StatusCode) : M unit :=
  fun _ w => (Return tt,
    set_spans (alter (update_span (fun sp =>
      mkSpan (span_name sp) (attributes sp) s (recorded sp) (end_calls sp))) span) w).

(** [span.end()] *)
Definition end_span (span : nat) : M unit :=
  fun _ w => (Return tt,
    set_spans (alter (fun sp =>
      mkSpan (span_name sp) (attributes sp) (status sp) (recorded sp)
             (S (end_calls sp))) span) w).

(** Leaving [with tracer.start_as_current_span(...)] because of an exception
    of class [Exception]: the exception is recorded, the status becomes
    [ERROR], the span ends. *)
Definition exit_span_exception (span : nat) (e : Exn) : M unit :=
  record_exception span e >>
  set_status span ERROR >>
  end_span span.

(** [with tracer.start_as_current_span(name) as span: body span] *)
Definition with_span {A} (name : string) (body : nat -> M A) : M A :=
  let* span := start_span name in
  try_except
    (let* a := body span in
     end_span span >>
     ret a)
    (fun e => exit_span_exception span e >> raise e).

(** Leaving the same block because [GeneratorExit] was thrown into the
    generator at a [yield]: the span ends; whether the exception is recorded
    and the status set depends on the library. *)
Definition exit_span_generator_exit (span : nat) : M unit :=
  fun env =>
    ((if use_span_records_base_exception env
      then record_exception_named span "GeneratorExit" >> set_status span ERROR
      else ret tt) >>
     end_span span) env.

(** ** Generators *)

Section Generators.
Context {G : Type}.
(** [next(g)]: [Some c] when the generator yields [c], [None] when it
    finishes ([StopIteration]). *)
Variable next : G -> M (option string * G).

(** A consumer that asks for at most [n] items:
    [for chunk in g: ...] stopped after [n] rounds. *)
Fixpoint pull (n : nat) (g : G) : M (list string * G) :=
  match n with
  | O => ret ([], g)
  | S n' =>
      let* r := next g in
      match fst r with
      | None => ret ([], snd r)
      | Some c =>
          let* rest := pull n' (snd r) in
          ret (c :: fst rest, snd rest)
      end
  end.
End Generators.

(** ** demo/langtrace/chatbot-langtrace.py *)

Module Langtrace.

(** The model name, written out in every call of the file. *)
Definition MODEL : string := "llama3.1:8b".

(** [def chat(message, conversation_history=None) -> str] *)
Definition chat (message : string) (conversation_history : option loc) : M string :=
  let* conversation_history :=
    match conversation_history with
    | None => new_list
    | Some l => ret l
    end in
  list_append conversation_history (mkMessage user message) >>
  try_except
    (let* response := ollama_chat MODEL conversation_history in
     let* assistant_message := getitem_message_content response in
     list_append conversation_history (mkMessage assistant assistant_message) >>
     ret assistant_message)
    (fun e => ret (error_text e)).

(** The generator object made by [chat_stream(message, conversation_history)].
    [Created]: the body has not started.  [Streaming]: suspended at
    [yield content] with the chunks the backend has still to deliver.
    [Reported]: suspended at [yield f"Error: ..."]. *)
Inductive Gen :=
  | Created (message : string) (conversation_history : option loc)
  | Streaming (conversation_history : loc) (full_response : string) (stream : Stream)
  | Reported
  | Finished.

(** [for chunk in stream:] up to the next [yield], and the statements after
    the loop when the stream is exhausted. *)
Definition loop (conversation_history : loc) (full_response : string)
    (stream : Stream) : M (option string * Gen) :=
  match deltas stream with
  | content :: rest =>
      let full_response := full_response +:+ content in
      ret (Some content,
           Streaming conversation_history full_response (mkStream rest (failure stream)))
  | [] =>
      match failure stream with
      | Some e => raise e
      | None =>
          list_append conversation_history (mkMessage assistant full_response) >>
          ret (None, Finished)
      end
  end.

(** [except Exception as e: yield f"Error: {str(e)}"] *)
Definition handler (e : Exn) : M (option string * Gen) :=
  ret (Some (error_text e), Reported).

Definition next (g : Gen) : M (option string * Gen) :=
  match g with
  | Created message conversation_history =>
      let* conversation_history :=
        match conversation_history with
        | None => new_list
        | Some l => ret l
        end in
      list_append conversation_history (mkMessage user message) >>
      try_except
        (let* stream := ollama_chat_stream MODEL conversation_history in
         loop conversation_history "" stream)
        handler
  | Streaming conversation_history full_response stream =>
      try_except (loop conversation_history full_response stream) handler
  | Reported => ret (None, Finished)
  | Finished => ret (None, Finished)
  end.

(** [g.close()]: [GeneratorExit] is thrown at the [yield] where the
    generator is suspended; [except Exception] does not catch it. *)
Definition close (g : Gen) : M Gen := ret Finished.

Definition chat_stream (message : string) (conversation_history : option loc) : Gen :=
  Created message conversation_history.

End Langtrace.

(** ** demo/openllmetry/chatbot-openllmetry-ollama.py *)

Module Openllmetry.

(** The model name, written out in every call of the file. *)
Definition MODEL : string := "llama3.1:8b".

(** [with track_llm_call(vendor=..., type=...) as span:] of the Traceloop
    SDK, as far as the file relies on it: a span that is ended when the
    block is left, whichever way. *)
Definition track_llm_call {A} (vendor type : string) (body : nat -> M A) : M A :=
  let* span := start_span (vendor +:+ "." +:+ type) in
  try_except
    (let* a := body span in
     end_span span >>
     ret a)
    (fun e => end_span span >> raise e).

(** [span.report_request(model=..., messages=[LLMMessage(role="user", content=...)])]:
    the request is written to the span as attributes (the key names stand
    for those of the SDK). *)
Definition report_request (span : nat) (model message : string) : M unit :=
  set_attribute span "llm.request.model" (AStr model) >>
  set_attribute span "llm.prompts.0.role" (AStr "user") >>
  set_attribute span "llm.prompts.0.content" (AStr message).

(** [def chat(message, conversation_history=None) -> str] *)
Definition chat (message : string) (conversation_history : option loc) : M string :=
  let* conversation_history :=
    match conversation_history with
    | None => new_list
    | Some l => ret l
    end in
  list_append conversation_history (mkMessage user message) >>
  try_except
    (track_llm_call "openai" "chat" (fun span =>
       report_request span "llama3.1:8b" message >>
       let* response := ollama_chat MODEL conversation_history in
       let* assistant_message := getitem_message_content response in
       list_append conversation_history (mkMessage assistant assistant_message) >>
       ret assistant_message))
    (fun e => ret (error_text e)).

(** The generator object made by [chat_stream]; [Streaming] also holds the
    span of the [with] block the generator is suspended in. *)
Inductive Gen :=
  | Created (message : string) (conversation_history : option loc)
  | Streaming (conversation_history : loc) (span : nat)
              (full_response : string) (stream : Stream)
  | Reported
  | Finished.

Definition loop (conversation_history : loc) (span : nat) (full_response : string)
    (stream : Stream) : M (option string * Gen) :=
  match deltas stream with
  | content :: rest =>
      let full_response := full_response +:+ content in
      ret (Some content,
           Streaming conversation_history span full_response
                     (mkStream rest (failure stream)))
  | [] =>
      match failure stream with
      | Some e => raise e
      | None =>
          set_attribute span "llm.response_length" (AInt (len full_response)) >>
          list_append conversation_history (mkMessage assistant full_response) >>
          ret (None, Finished)
      end
  end.

(** The part of [with tracer.start_as_current_span(...) as span:] that one
    resumption runs: a [yield] suspends inside the block and leaves the span
    open, the end of the block ends it, an exception ends it as
    [exit_span_exception] says. *)
Definition inside_span (span : nat) (body : M (option string * Gen))
    : M (option string * Gen) :=
  try_except
    (let* r := body in
     match fst r with
     | Some _ => ret r
     | None => end_span span >> ret r
     end)
    (fun e => exit_span_exception span e >> raise e).

Definition handler (e : Exn) : M (option string * Gen) :=
  ret (Some (error_text e), Reported).

Definition next (g : Gen) : M (option string * Gen) :=
  match g with
  | Created message conversation_history =>
      let* conversation_history :=
        match conversation_history with
        | None => new_list
        | Some l => ret l
        end in
      list_append conversation_history (mkMessage user message) >>
      try_except
        (let* span := start_span "ollama.chat.stream" in
         inside_span span
           (set_attribute span "llm.model" (AStr "llama3.1:8b") >>
            set_attribute span "llm.streaming" (ABool true) >>
            let* stream := ollama_chat_stream MODEL conversation_history in
            loop conversation_history span "" stream))
        handler
  | Streaming conversation_history span full_response stream =>
      try_except
        (inside_span span (loop conversation_history span full_response stream))
        handler
  | Reported => ret (None, Finished)
  | Finished => ret (None, Finished)
  end.

(** [g.close()], also run when an abandoned generator is finalised:
    [GeneratorExit] is thrown at the [yield]; inside the loop it leaves the
    [with] block and is not caught by [except Exception]. *)
Definition close (g : Gen) : M Gen :=
  match g with
  | Streaming _ span _ _ => exit_span_generator_exit span >> ret Finished
  | _ => ret Finished
  end.

Definition chat_stream (message : string) (conversation_history : option loc) : Gen :=
  Created message conversation_history.

End Openllmetry.

(** ** demo/langfuse/chatbot-langfuse.py *)

Module Langfuse.

(** [self]: the attribute [conversation_history] is bound to a list object. *)
Record ObservableChatbot := mkBot { model : string; conversation_history : loc }.

(** The dict returned by [_call_ollama], one field per key. *)
Record OllamaResult := mkResult {
  r_content : string;
  r_total_tokens : Z;
  r_prompt_eval_count : Z;
  r_eval_count : Z
}.

(** The dict returned by [chat]: ["response"] and the keys of ["metadata"]. *)
Record ChatResult := mkChatResult {
  response : string;
  metadata_model : string;
  metadata_duration_ms : Z;
  metadata_total_tokens : Z;
  metadata_prompt_tokens : Z;
  metadata_completion_tokens : Z;
  metadata_session_id : option string
}.

(** [ObservableChatbot(model)] *)
Definition __init__ (model : string) : M ObservableChatbot :=
  let* l := new_list in
  ret (mkBot model l).

(** [def _call_ollama(self, message)] *)
Definition _call_ollama (self : ObservableChatbot) (message : string) : M OllamaResult :=
  with_span "ollama_api" (fun span =>
    try_except
      (let* response := ollama_chat (model self) (conversation_history self) in
       let prompt_tokens := get_or_0 (resp_prompt_eval_count response) in
       let completion_tokens := get_or_0 (resp_eval_count response) in
       let total_tokens := prompt_tokens + completion_tokens in
       set_attribute span "llm.prompt_tokens" (AInt prompt_tokens) >>
       set_attribute span "llm.completion_tokens" (AInt completion_tokens) >>
       set_attribute span "llm.total_tokens" (AInt total_tokens) >>
       add llm_token_counter prompt_tokens
           [("model", model self); ("type", "prompt")] >>
       add llm_token_counter completion_tokens
           [("model", model self); ("type", "completion")] >>
       let* content := getitem_message_content response in
       ret (mkResult content total_tokens prompt_tokens completion_tokens))
      (fun e =>
         record_exception span e >>
         raise e)).

(** [if session_id:] *)
Definition truthy (session_id : option string) : bool :=
  match session_id with
  | Some s => negb (String.eqb s "")
  | None => false
  end.

(** [def chat(self, user_message, session_id=None)] *)
Definition chat (self : ObservableChatbot) (user_message : string)
    (session_id : option string) : M ChatResult :=
  let* start_time := time_time in
  with_span "llm_chat_request" (fun span =>
    set_attribute span "llm.model" (AStr (model self)) >>
    set_attribute span "llm.user_message_length" (AInt (len user_message)) >>
    (if truthy session_id
     then set_attribute span "session.id" (AStr (default "" session_id))
     else ret tt) >>
    try_except
      (list_append (conversation_history self) (mkMessage user user_message) >>
       let* response := _call_ollama self user_message in
       list_append (conversation_history self)
                   (mkMessage assistant (r_content response)) >>
       let* now := time_time in
       let duration_ms := (now - start_time) * 1000 in
       let total_tokens := r_total_tokens response in
       add llm_request_counter 1 [("model", model self); ("status", "success")] >>
       add llm_token_counter total_tokens [("model", model self); ("type", "total")] >>
       record llm_latency_histogram duration_ms [("model", model self)] >>
       set_attribute span "llm.response_length" (AInt (len (r_content response))) >>
       set_attribute span "llm.total_tokens" (AInt total_tokens) >>
       set_attribute span "llm.duration_ms" (AInt duration_ms) >>
       set_attribute span "llm.status" (AStr "success") >>
       ret (mkChatResult (r_content response) (model self) duration_ms total_tokens
              (r_prompt_eval_count response) (r_eval_count response) session_id))
      (fun e =>
         let* now := time_time in
         let duration_ms := (now - start_time) * 1000 in
         add llm_error_counter 1 [("model", model self); ("error_type", exn_type e)] >>
         add llm_request_counter 1 [("model", model self); ("status", "error")] >>
         set_attribute span "llm.status" (AStr "error") >>
         set_attribute span "error.type" (AStr (exn_type e)) >>
         set_attribute span "error.message" (AStr (exn_message e)) >>
         record_exception span e >>
         raise e)).

(** [def clear_history(self)]: the attribute is bound to a new list. *)
Definition clear_history (self : ObservableChatbot) : M ObservableChatbot :=
  let* l := new_list in
  ret (mkBot (model self) l).

(** [def get_history(self)]: the list object itself. *)
Definition get_history (self : ObservableChatbot) : M loc :=
  ret (conversation_history self).

End Langfuse.

(** ** demo/opik/chatbot-opik.py *)

Module Opik.

Record OpikObservableChatbot := mkBot { model : string; conversation_history : loc }.

(** The dict returned by [_call_ollama], one field per key. *)
Record OllamaResult := mkResult {
  r_content : string;
  r_total_tokens : Z;
  r_prompt_tokens : Z;
  r_completion_tokens : Z
}.

Record ChatResult := mkChatResult {
  response : string;
  metadata_model : string;
  metadata_duration_ms : Z;
  metadata_total_tokens : Z;
  metadata_prompt_tokens : Z;
  metadata_completion_tokens : Z;
  metadata_session_id : option string
}.

(** [OpikObservableChatbot(model)] *)
Definition __init__ (model : string) : M OpikObservableChatbot :=
  let* l := new_list in
  ret (mkBot model l).

(** [def _call_ollama(self, message)] *)
Definition _call_ollama (self : OpikObservableChatbot) (message : string)
    : M OllamaResult :=
  with_span "ollama_api" (fun span =>
    try_except
      (let* response := ollama_chat (model self) (conversation_history self) in
       let prompt_tokens := get_or_0 (resp_prompt_eval_count response) in
       let completion_tokens := get_or_0 (resp_eval_count response) in
       let total_tokens := prompt_tokens + completion_tokens in
       set_attribute span "llm.prompt_tokens" (AInt prompt_tokens) >>
       set_attribute span "llm.completion_tokens" (AInt completion_tokens) >>
       set_attribute span "llm.total_tokens" (AInt total_tokens) >>
       let* content := getitem_message_content response in
       ret (mkResult content total_tokens prompt_tokens completion_tokens))
      (fun e =>
         record_exception span e >>
         raise e)).

Definition truthy (session_id : option string) : bool :=
  match session_id with
  | Some s => negb (String.eqb s "")
  | None => false
  end.

(** [def chat(self, user_message, session_id=None)].  The call
    [opik_context.update_current_span(...)] writes to the Opik trace only
    and is left out. *)
Definition chat (self : OpikObservableChatbot) (user_message : string)
    (session_id : option string) : M ChatResult :=
  let* start_time := time_time in
  with_span "llm_chat_request" (fun span =>
    set_attribute span "llm.model" (AStr (model self)) >>
    set_attribute span "llm.user_message_length" (AInt (len user_message)) >>
    (if truthy session_id
     then set_attribute span "session.id" (AStr (default "" session_id))
     else ret tt) >>
    try_except
      (list_append (conversation_history self) (mkMessage user user_message) >>
       let* response := _call_ollama self user_message in
       list_append (conversation_history self)
                   (mkMessage assistant (r_content response)) >>
       let* now := time_time in
       let duration_ms := (now - start_time) * 1000 in
       let total_tokens := r_total_tokens response in
       let prompt_tokens := r_prompt_tokens response in
       let completion_tokens := r_completion_tokens response in
       add llm_request_counter 1 [("model", model self); ("status", "success")] >>
       add llm_token_counter total_tokens [("model", model self); ("type", "total")] >>
       add llm_token_counter prompt_tokens [("model", model self); ("type", "prompt")] >>
       add llm_token_counter completion_tokens
           [("model", model self); ("type", "completion")] >>
       record llm_latency_histogram duration_ms [("model", model self)] >>
       set_attribute span "llm.response_length" (AInt (len (r_content response))) >>
       set_attribute span "llm.total_tokens" (AInt total_tokens) >>
       set_attribute span "llm.prompt_tokens" (AInt prompt_tokens) >>
       set_attribute span "llm.completion_tokens" (AInt completion_tokens) >>
       set_attribute span "llm.duration_ms" (AInt duration_ms) >>
       set_attribute span "llm.status" (AStr "success") >>
       ret (mkChatResult (r_content response) (model self) duration_ms total_tokens
              prompt_tokens completion_tokens session_id))
      (fun e =>
         let* now := time_time in
         let duration_ms := (now - start_time) * 1000 in
         add llm_error_counter 1 [("model", model self); ("error_type", exn_type e)] >>
         add llm_request_counter 1 [("model", model self); ("status", "error")] >>
         set_attribute span "llm.status" (AStr "error") >>
         set_attribute span "error.type" (AStr (exn_type e)) >>
         set_attribute span "error.message" (AStr (exn_message e)) >>
         record_exception span e >>
         raise e)).

Definition clear_history (self : OpikObservableChatbot) : M OpikObservableChatbot :=
  let* l := new_list in
  ret (mkBot (model self) l).

Definition get_history (self : OpikObservableChatbot) : M loc :=
  ret (conversation_history self).

End Opik.

(** ** Observations used in the statements *)

(** ["".join(chunks)] *)
Definition join (chunks : list string) : string := foldr String.append "" chunks.

(** The elements of the list object [l] in the world [w]. *)
Definition history_at (w : World) (l : loc) : History := default [] (heap w !! l).

(** The samples handed to the meter between the worlds [w] and [w']. *)
Definition produced (w w' : World) : list MetricSample :=
  drop (length (metrics w)) (metrics w').

Definition label (key : string) (s : MetricSample) : option string :=
  snd <$> List.find (fun p => String.eqb (fst p) key) (labels s).

Definition has_label (key v : string) (s : MetricSample) : bool :=
  match label key s with
  | Some v' => String.eqb v' v
  | None => false
  end.

Definition instrument_eqb (i j : Instrument) : bool :=
  match i, j with
  | llm_request_counter, llm_request_counter
  | llm_token_counter, llm_token_counter
  | llm_latency_histogram, llm_latency_histogram
  | llm_error_counter, llm_error_counter => true
  | _, _ => false
  end.

Definition count (p : MetricSample -> bool) (l : list MetricSample) : nat :=
  length (List.filter p l).

Definition on (i : Instrument) (s : MetricSample) : bool :=
  instrument_eqb (instrument s) i.

Definition is_request (st : string) (s : MetricSample) : bool :=
  on llm_request_counter s && has_label "status" st s.

Definition is_token (ty : string) (s : MetricSample) : bool :=
  on llm_token_counter s && has_label "type" ty s.

(** [w'] differs from [w] in the backend log by the one request [c]. *)
Definition sends (w w' : World) (c : BackendCall) : Prop :=
  backend_log w' = backend_log w ++ [c].

(** Between [w] and [w'] one request was sent; it carries the elements [h]
    that the list [l] had in [w], followed by the user message [m].  In [w']
    the list holds that message right after [h], and no other list has
    changed. *)
Definition request_with_history (model : string) (stream : bool) (l : loc)
    (h : History) (m : string) (w w' : World) : Prop :=
  sends w w' (mkCall model (h ++ [mkMessage user m]) stream) /\
  exists rest, heap w' = <[l := h ++ mkMessage user m :: rest]> (heap w).

(** The samples of an answered turn: one request sample, with status
    "success"; one latency observation; three token samples, one of each
    type. *)
Definition answered_samples (new : list MetricSample) : Prop :=
  count (on llm_request_counter) new = 1%nat /\
  count (is_request "success") new = 1%nat /\
  count (on llm_latency_histogram) new = 1%nat /\
  count (on llm_token_counter) new = 3%nat /\
  count (is_token "prompt") new = 1%nat /\
  count (is_token "completion") new = 1%nat /\
  count (is_token "total") new = 1%nat.

(** The samples of a failed turn: one request sample, with status "error". *)
Definition failed_samples (new : list MetricSample) : Prop :=
  count (on llm_request_counter) new = 1%nat /\
  count (is_request "error") new = 1%nat.

(** The status of the [i]-th span of a world. *)
Definition span_status (w : World) (i : nat) : option StatusCode :=
  status <$> spans w !! i.

(** A consumer that takes [k] items from a generator of the OpenLLMetry demo
    and abandons it; the generator is then closed. *)
Definition cancel_after (k : nat) (g : Openllmetry.Gen) : M Openllmetry.Gen :=
  let* r := pull Openllmetry.next k g in
  Openllmetry.close (snd r).

(** ** A concrete session *)

Definition boom : Exn := mkExn "ConnectionError" "connection refused".

Definition hello : Response := mkResponse (Some "hello") (Some 3) (Some 1).

Definition hello_chunks : list string := ["he"; "l"; "lo"].

(** A server that answers "hello" (3 prompt tokens, 1 completion token), in
    three chunks when streaming. *)
Definition env_up (records_base_exception : bool) : Env :=
  mkEnv (fun _ _ _ => inr hello)
        (fun _ _ _ => inr (mkStream hello_chunks None))
        (fun n => Z.of_nat n)
        records_base_exception.

(** A server that refuses the request; its streams break after one chunk. *)
Definition env_down : Env :=
  mkEnv (fun _ _ _ => inl boom)
        (fun _ _ _ => inr (mkStream ["he"] (Some boom)))
        (fun n => Z.of_nat n)
        false.

(** One list object, empty: the history of a new session. *)
Definition new_session : World := mkWorld [[]] [] [] [] 0.

(** The address of that list. *)
Definition session_list : loc := 0%nat.

(** The same session after one answered turn. *)
Definition first_turn : History := [mkMessage user "hi"; mkMessage assistant "hello"].

Definition second_session : World := mkWorld [first_turn] [] [] [] 0.

(** The generator of a streamed turn of the OpenLLMetry demo. *)
Definition hi_stream : Openllmetry.Gen := Openllmetry.chat_stream "hi" (Some session_list).

Definition langfuse_bot : Langfuse.ObservableChatbot := Langfuse.mkBot "m1" session_list.

Definition opik_bot : Opik.OpikObservableChatbot := Opik.mkBot "m1" session_list.

(** ** demo/opik/chatbot-opik.py: the endpoint of [setup_opentelemetry] *)

(** Strings are compared and stripped byte by byte; "/" and the two schemes
    are ASCII, and no byte of a longer UTF-8 sequence is ASCII, so this is
    what Python does on the characters. *)
Module OpikSetup.

(** [s.startswith(prefix)] *)
Definition startswith (s prefix : string) : bool := String.prefix prefix s.

(** [s.rstrip('/')] *)
Fixpoint rstrip_slash (s : string) : string :=
  match s with
  | EmptyString => EmptyString
  | String c rest =>
      match rstrip_slash rest with
      | EmptyString => if Ascii.eqb c "/"%char then EmptyString else String c EmptyString
      | kept => String c kept
      end
  end.

(** [endpoint.startswith(('http://', 'https://'))] *)
Definition has_scheme (endpoint : string) : bool :=
  startswith endpoint "http://" || startswith endpoint "https://".

(** The value of [endpoint] after
    [if not endpoint.startswith(('http://', 'https://')): endpoint = f"http://{endpoint}"]
    and [endpoint = endpoint.rstrip('/')]. *)
Definition endpoint (OTEL_COLLECTOR_ENDPOINT : string) : string :=
  let endpoint := OTEL_COLLECTOR_ENDPOINT in
  let endpoint := if negb (has_scheme endpoint) then "http://" +:+ endpoint else endpoint in
  rstrip_slash endpoint.

(** [f"{endpoint}/v1/traces"] and [f"{endpoint}/v1/metrics"] *)
Definition traces_endpoint (OTEL_COLLECTOR_ENDPOINT : string) : string :=
  endpoint OTEL_COLLECTOR_ENDPOINT +:+ "/v1/traces".

Definition metrics_endpoint (OTEL_COLLECTOR_ENDPOINT : string) : string :=
  endpoint OTEL_COLLECTOR_ENDPOINT +:+ "/v1/metrics".

End OpikSetup.

(** [n] slashes. *)
Fixpoint slashes (n : nat) : string :=
  match n with
  | O => ""
  | S n => String "/"%char (slashes n)
  end.

(** ** [main] of demo/langtrace and of demo/openllmetry (Ollama)

    The two functions have the same loop.  What is printed is left out, and so
    are the calls that set up and flush the exporters
    ([init_langtrace_with_otlp], [initialize_openllmetry], [force_flush]).
    The lines are the values of [input("You: ").strip()]. *)

(** [s.lower()] on the bytes of [s]: the letters A to Z become a to z.  For
    the comparisons with "quit", "exit", "clear", "stream" and "history" this
    agrees with Python on every string: the only character outside ASCII that
    Python lowers to an ASCII letter is the Kelvin sign, to "k". *)
Definition lower_char (c : ascii) : ascii :=
  let n := nat_of_ascii c in
  if (65 <=? n)%nat && (n <=? 90)%nat then ascii_of_nat (n + 32) else c.

Fixpoint lower (s : string) : string :=
  match s with
  | EmptyString => EmptyString
  | String c rest => String (lower_char c) (lower rest)
  end.

(** What [input()] raises at the end of standard input. *)
Definition EOFError : Exn := mkExn "EOFError" "EOF when reading a line".

(** [user_input.lower() in ['quit', 'exit']] *)
Definition is_exit (user_input : string) : bool :=
  String.eqb (lower user_input) "quit" || String.eqb (lower user_input) "exit".

Section MainLoop.
Context {G : Type}.
Variable chat : string -> option loc -> M string.
Variable chat_stream : string -> option loc -> G.
Variable next : G -> M (option string * G).
(** A bound on the rounds a suspended generator still takes. *)
Variable rounds_left : G -> nat.

(** [for chunk in g: print(chunk, ...)]: the generator is run until it
    finishes. *)
Definition for_chunk (g : G) : M (list string * G) :=
  let* r := next g in
  match fst r with
  | None => ret ([], snd r)
  | Some c =>
      let* rest := pull next (rounds_left (snd r)) (snd r) in
      ret (c :: fst rest, snd rest)
  end.

(** The [while True:] loop of [main], on the lines [input("You: ").strip()]
    gives one after the other; the loop ends with the values of its two
    variables. *)
Fixpoint main_loop (inputs : list string) (conversation_history : loc)
    (use_streaming : bool) : M (loc * bool) :=
  match inputs with
  | [] => raise EOFError
  | user_input :: inputs =>
      if String.eqb user_input "" then
        main_loop inputs conversation_history use_streaming
      else if is_exit user_input then
        ret (conversation_history, use_streaming)
      else if String.eqb (lower user_input) "clear" then
        let* conversation_history := new_list in
        main_loop inputs conversation_history use_streaming
      else if String.eqb (lower user_input) "stream" then
        main_loop inputs conversation_history (negb use_streaming)
      else if use_streaming then
        for_chunk (chat_stream user_input (Some conversation_history)) >>
        main_loop inputs conversation_history use_streaming
      else
        chat user_input (Some conversation_history) >>
        main_loop inputs conversation_history use_streaming
  end.

(** [def main()] *)
Definition main (inputs : list string) : M (loc * bool) :=
  let* conversation_history := new_list in
  main_loop inputs conversation_history false.
End MainLoop.

Module LangtraceMain.
Definition rounds_left (g : Langtrace.Gen) : nat :=
  match g with
  | Langtrace.Streaming _ _ stream => (length (deltas stream) + 2)%nat
  | _ => 1%nat
  end.
Definition main_loop : list string -> loc -> bool -> M (loc * bool) :=
  main_loop Langtrace.chat Langtrace.chat_stream Langtrace.next rounds_left.
Definition main : list string -> M (loc * bool) :=
  main Langtrace.chat Langtrace.chat_stream Langtrace.next rounds_left.
End LangtraceMain.

Module OpenllmetryMain.
Definition rounds_left (g : Openllmetry.Gen) : nat :=
  match g with
  | Openllmetry.Streaming _ _ _ stream => (length (deltas stream) + 2)%nat
  | _ => 1%nat
  end.
Definition main_loop : list string -> loc -> bool -> M (loc * bool) :=
  main_loop Openllmetry.chat Openllmetry.chat_stream Openllmetry.next rounds_left.
Definition main : list string -> M (loc * bool) :=
  main Openllmetry.chat Openllmetry.chat_stream Openllmetry.next rounds_left.
End OpenllmetryMain.

(** The messages of [inputs] that reach the chatbot, each with the mode it
    is sent in, when the loop starts in the mode [use_streaming]. *)
Fixpoint spoken (use_streaming : bool) (inputs : list string) : list (string * bool) :=
  match inputs with
  | [] => []
  | user_input :: inputs =>
      if String.eqb user_input "" then spoken use_streaming inputs
      else if is_exit user_input then []
      else if String.eqb (lower user_input) "clear" then spoken use_streaming inputs
      else if String.eqb (lower user_input) "stream" then spoken (negb use_streaming) inputs
      else (user_input, use_streaming) :: spoken use_streaming inputs
  end.

(** A line that is neither blank nor a command. *)
Definition is_message (user_input : string) : bool :=
  negb (String.eqb user_input "") && negb (is_exit user_input) &&
  negb (String.eqb (lower user_input) "clear") &&
  negb (String.eqb (lower user_input) "stream").

(** A request of the model [model] that ends with the user message [said.1], sent
    in the mode [said.2]. *)
Definition request_of (model : string) (c : BackendCall) (said : string * bool) : Prop :=
  call_model c = model /\
  last (call_messages c) = Some (mkMessage user (fst said)) /\
  call_stream c = snd said.

(** One turn on the list [l]: the turn returns, the request it sends carries
    the elements of [l] followed by the user message, and [l] gains the user
    message and, when the turn is answered, an assistant message. *)
Definition turn_spec {A} (model : string) (stream : bool)
    (run : string -> loc -> M A) : Prop :=
  forall env w l h m,
    heap w !! l = Some h ->
    exists a h' w',
      run m l env w = (Return a, w') /\
      heap w' = <[l := h']> (heap w) /\
      backend_log w' =
        backend_log w ++ [mkCall model (h ++ [mkMessage user m]) stream] /\
      (h' = h ++ [mkMessage user m] \/
       exists c, h' = h ++ [mkMessage user m; mkMessage assistant c]).

(** ** [run_demo] of demo/langfuse and of demo/opik *)

(** What [input()] gives at the prompt of [run_demo]: a line (here after
    [strip()]) or Ctrl-C; the end of the list is the end of standard input. *)
Inductive Key := Line (text : string) | CtrlC.

Section DemoLoop.
Context {Bot Result : Type}.
Variable chat : Bot -> string -> option string -> M Result.
Variable clear_history : Bot -> M Bot.
Variable get_history : Bot -> M loc.

(** The [while True:] loop of [run_demo].  Its body is a [try] block:
    [KeyboardInterrupt] ends the loop, any [Exception], [EOFError] at the end
    of the input among them, is reported and the loop goes on.  The loop need
    not end: [fuel] bounds the number of rounds, and [None] says that the
    loop is still running when the rounds are used up. *)
Fixpoint demo_loop (fuel : nat) (inputs : list Key) (chatbot : Bot)
    (session_id : string) : M (option Bot) :=
  match fuel with
  | O => ret None
  | S fuel =>
      match inputs with
      | [] => demo_loop fuel [] chatbot session_id
      | CtrlC :: _ => ret (Some chatbot)
      | Line user_input :: inputs =>
          if String.eqb user_input "" then
            demo_loop fuel inputs chatbot session_id
          else if is_exit user_input then
            ret (Some chatbot)
          else if String.eqb (lower user_input) "clear" then
            let* chatbot :=
              try_except (clear_history chatbot) (fun e => ret chatbot) in
            demo_loop fuel inputs chatbot session_id
          else if String.eqb (lower user_input) "history" then
            try_except
              (let* history := get_history chatbot in
               list_read history >> ret tt)
              (fun e => ret tt) >>
            demo_loop fuel inputs chatbot session_id
          else
            try_except
              (chat chatbot user_input (Some session_id) >> ret tt)
              (fun e => ret tt) >>
            demo_loop fuel inputs chatbot session_id
      end
  end.
End DemoLoop.

Module LangfuseDemo.
(** [def run_demo()]: the dict it returns, when it returns.  [session_id]
    is the name made from the clock at the start. *)
Definition run_demo (fuel : nat) (inputs : list Key) (OLLAMA_MODEL session_id : string)
    : M (option (string * Z)) :=
  let* chatbot := Langfuse.__init__ OLLAMA_MODEL in
  let* ended :=
    demo_loop Langfuse.chat Langfuse.clear_history Langfuse.get_history
              fuel inputs chatbot session_id in
  match ended with
  | None => ret None
  | Some chatbot =>
      let* history := Langfuse.get_history chatbot in
      let* messages := list_read history in
      ret (Some (session_id, Z.of_nat (length messages)))
  end.
End LangfuseDemo.

Module OpikDemo.
(** [def run_demo()]; [opik_client.flush()] is left out.  The loop runs
    inside the span "chatbot_session". *)
Definition run_demo (fuel : nat) (inputs : list Key) (OLLAMA_MODEL session_id : string)
    : M (option unit) :=
  let* chatbot := Opik.__init__ OLLAMA_MODEL in
  with_span "chatbot_session" (fun session_span =>
    set_attribute session_span "session.id" (AStr session_id) >>
    let* ended :=
      demo_loop Opik.chat Opik.clear_history Opik.get_history
                fuel inputs chatbot session_id in
    match ended with
    | None => ret None
    | Some chatbot =>
        let* history := Opik.get_history chatbot in
        let* messages := list_read history in
        set_attribute session_span "session.total_messages"
                      (AInt (Z.of_nat (length messages))) >>
        ret (Some tt)
    end).
End OpikDemo.

(** An input that ends the loop of [run_demo]. *)
Definition ends_demo (k : Key) : bool :=
  match k with
  | CtrlC => true
  | Line text => is_exit text
  end.

(** The number of messages of [inputs] that reach the chatbot after the last
    "clear", counted from [n]. *)
Fixpoint said_since_clear (inputs : list Key) (n : nat) : nat :=
  match inputs with
  | [] => n
  | CtrlC :: _ => n
  | Line text :: inputs =>
      if String.eqb text "" then said_since_clear inputs n
      else if is_exit text then n
      else if String.eqb (lower text) "clear" then said_since_clear inputs 0
      else if String.eqb (lower text) "history" then said_since_clear inputs n
      else said_since_clear inputs (S n)
  end.

(** The backend answers every request of [env], with a content. *)
Definition answers (env : Env) : Prop :=
  forall n model messages,
    exists r c, ollama_chat_reply env n model messages = inr r /\
                resp_message_content r = Some c.

(** The backend refuses every request of [env]. *)
Definition refuses (env : Env) : Prop :=
  forall n model messages, exists e, ollama_chat_reply env n model messages = inl e.

(** ** demo/openllmetry/chatbot-openllmetry-openai.py *)

Module OpenaiAgent.

Definition DEFAULT_MODEL : string := "llama3.1:8b".

(** A [ChatCompletion] of the OpenAI client, as far as [chat] reads it: the
    model name, the choices, each with the content of its message (taken to
    be a string) and its finish reason, and [usage], an attribute that is
    always there and may be [None]. *)
Record Choice := mkChoice { choice_content : string; finish_reason : string }.

Record CompletionUsage := mkUsage {
  prompt_tokens : Z;
  completion_tokens : Z;
  total_tokens : Z
}.

Record ChatCompletion := mkCompletion {
  completion_model : string;
  choices : list Choice;
  usage : option CompletionUsage
}.

(** [self]: [client] is what [self.client.chat.completions.create] answers,
    during the call, to a model name and a list of messages (role, content). *)
Record LLMObservabilityAgent := mkAgent {
  service_name : string;
  client : string -> list (string * string) -> Exn + ChatCompletion
}.

(** The dict [chat] returns. *)
Record Reply := mkReply {
  content : string;
  duration : Z;
  tokens : Z;
  model : string
}.

(** [self.client.chat.completions.create(model=model, messages=messages, ...)] *)
Definition completions_create (self : LLMObservabilityAgent) (model : string)
    (messages : list (string * string)) : M ChatCompletion :=
  match client self model messages with
  | inl e => raise e
  | inr response => ret response
  end.

(** [response.choices[0]] *)
Definition first_choice (response : ChatCompletion) : M Choice :=
  match choices response with
  | choice :: _ => ret choice
  | [] => raise (mkExn "IndexError" "list index out of range")
  end.

(** [response.usage.total_tokens] *)
Definition usage_total_tokens (response : ChatCompletion) : M Z :=
  match usage response with
  | Some u => ret (total_tokens u)
  | None =>
      raise (mkExn "AttributeError"
                   "'NoneType' object has no attribute 'total_tokens'")
  end.

(** [span.report_response(model, completions)] and [span.report_usage(usage)]
    of the Traceloop SDK: the values are written to the span as attributes
    (the key names stand for those of the SDK). *)
Definition report_response (span : nat) (model : string) (completions : list string)
    : M unit :=
  set_attribute span "llm.response.model" (AStr model) >>
  set_attribute span "llm.completions" (AStr (join completions)).

Definition report_usage (span : nat) (u : CompletionUsage) (total : Z) : M unit :=
  set_attribute span "llm.usage.prompt_tokens" (AInt (prompt_tokens u)) >>
  set_attribute span "llm.usage.completion_tokens" (AInt (completion_tokens u)) >>
  set_attribute span "llm.usage.total_tokens" (AInt total).

(** [def chat(self, prompt, model=DEFAULT_MODEL, **kwargs)]; the result
    [None] is the [None] it returns after an error.  The request counter, the
    token counter and the latency histogram of the agent are those of
    [Instrument].  [hasattr(response, 'usage')] is true of every completion;
    [content[:100]] is taken on the bytes of the content. *)
Definition chat (self : LLMObservabilityAgent) (prompt : string) (model : string)
    : M (option Reply) :=
  Openllmetry.track_llm_call "ollama" "chat" (fun span =>
    Openllmetry.report_request span DEFAULT_MODEL prompt >>
    let* start_time := time_time in
    try_except
      (let* response :=
         completions_create self model
           [("system", "You are a helpful assistant."); ("user", prompt)] in
       let* now := time_time in
       let duration := now - start_time in
       let* choice := first_choice response in
       let content := choice_content choice in
       add llm_request_counter 1
           [("model", model); ("status", "success"); ("service", service_name self)] >>
       record llm_latency_histogram duration
           [("model", model); ("service", service_name self)] >>
       (match usage response with
        | Some u =>
            let total_tokens := total_tokens u in
            add llm_token_counter total_tokens
                [("model", model); ("type", "total"); ("service", service_name self)] >>
            report_response span (completion_model response)
                            (map choice_content (choices response)) >>
            report_usage span u total_tokens
        | None => ret tt
        end) >>
       set_attribute span "llm.response" (AStr (String.substring 0 100 content)) >>
       set_attribute span "llm.duration_ms" (AInt (duration * 1000)) >>
       let* choice := first_choice response in
       set_attribute span "llm.finish_reason" (AStr (finish_reason choice)) >>
       let* tokens := usage_total_tokens response in
       ret (Some (mkReply content duration tokens model)))
      (fun e =>
         set_attribute span "error" (ABool true) >>
         set_attribute span "error.message" (AStr (exn_message e)) >>
         add llm_request_counter 1
             [("model", model); ("status", "error"); ("service", service_name self)] >>
         ret None)).

End OpenaiAgent.

(** Completions for the examples: one choice with its usage, one without
    usage, one without choices; and an agent whose client gives the same
    reply to every request. *)
Definition one_choice : OpenaiAgent.ChatCompletion :=
  OpenaiAgent.mkCompletion "llama3.1:8b" [OpenaiAgent.mkChoice "hello" "stop"]
                           (Some (OpenaiAgent.mkUsage 3 1 4)).

Definition no_usage : OpenaiAgent.ChatCompletion :=
  OpenaiAgent.mkCompletion "llama3.1:8b" [OpenaiAgent.mkChoice "hello" "stop"] None.

Definition no_choice : OpenaiAgent.ChatCompletion :=
  OpenaiAgent.mkCompletion "llama3.1:8b" [] (Some (OpenaiAgent.mkUsage 3 0 3)).

Definition agent_of (reply : Exn + OpenaiAgent.ChatCompletion)
    : OpenaiAgent.LLMObservabilityAgent :=
  OpenaiAgent.mkAgent "ollama-demo-agent" (fun _ _ => reply).

(** ** More observations and examples *)

(** A reply without the key ["message"], with its token counts. *)
Definition no_message : Response := mkResponse None (Some 3) (Some 1).

(** A server whose replies lack the message. *)
Definition env_malformed : Env :=
  mkEnv (fun _ _ _ => inr no_message)
        (fun _ _ _ => inr (mkStream hello_chunks None))
        (fun n => Z.of_nat n)
        false.

(** The value of ["session.id"] on the span of a turn: [if session_id:]
    leaves out [None] and the empty string. *)
Definition session_attribute (session_id : option string) : option AttrValue :=
  match session_id with
  | Some s => if String.eqb s "" then None else Some (AStr s)
  | None => None
  end.

(** A span that was ended once with the status [ERROR] and holds the
    exception of class [cls] twice. *)
Definition failed_span (name cls : string) (sp : Span) : Prop :=
  span_name sp = name /\ status sp = ERROR /\ recorded sp = [cls; cls] /\
  end_calls sp = 1%nat.

(** ** Facts about lists and strings *)

Section ListFacts.
Context {A : Type}.
Implicit Types (l r : list A) (f : A -> A).

Lemma alter_at_length f l x r :
  alter f (length l) (l ++ x :: r) = l ++ f x :: r.
Proof. induction l as [|y l IH]; [reflexivity | simpl; by f_equal]. Qed.

Lemma alter_at_length_app f l x r r' :
  alter f (length l) ((l ++ x :: r) ++ r') = (l ++ f x :: r) ++ r'.
Proof. by rewrite <- !app_assoc, <- !app_comm_cons, alter_at_length. Qed.

Lemma alter_known f l i x : l !! i = Some x -> alter f i l = <[i := f x]> l.
Proof.
  revert i. induction l as [|y l IH]; intros [|i] H; simpl in *; try discriminate.
  - by inversion H.
  - f_equal. by apply IH.
Qed.

Lemma lookup_insert_known l i x y : l !! i = Some x -> <[i := y]> l !! i = Some y.
Proof. intros H. apply list_lookup_insert_eq. by eapply lookup_lt_Some. Qed.

Lemma alter_insert_known f l i x y :
  l !! i = Some x -> alter f i (<[i := y]> l) = <[i := f y]> l.
Proof.
  intros H. rewrite (alter_known f _ i y); [| by eapply lookup_insert_known].
  apply list_insert_insert_eq.
Qed.

Lemma lookup_at_length l x r : (l ++ x :: r) !! length l = Some x.
Proof. by apply list_lookup_middle. Qed.

Lemma insert_at_length l x y r : <[length l := y]> (l ++ x :: r) = l ++ y :: r.
Proof. induction l as [|z l IH]; [reflexivity | simpl; by f_equal]. Qed.
End ListFacts.

Lemma append_empty_r (s : string) : s +:+ "" = s.
Proof.
  induction s as [|c s IH]; [reflexivity |].
  change (String c (s +:+ "") = String c s). by f_equal.
Qed.

Lemma append_assoc (s t u : string) : (s +:+ t) +:+ u = s +:+ (t +:+ u).
Proof.
  induction s as [|c s IH]; [reflexivity |].
  change (String c ((s +:+ t) +:+ u) = String c (s +:+ (t +:+ u))). by f_equal.
Qed.

(** ** Symbolic execution *)

(** Unfolds the monad, the primitive statements and the record projections. *)
Ltac py_eval :=
  cbv [bind ret raise try_except new_list list_append list_read time_time
       ollama_chat ollama_chat_stream getitem_message_content
       add record start_span set_attribute record_exception record_exception_named
       set_status end_span exit_span_exception with_span exit_span_generator_exit
       update_span is_recording Nat.eqb
       set_heap set_spans set_metrics set_backend_log set_clock_reads
       heap spans metrics backend_log clock_reads
       span_name attributes status recorded end_calls
       history_at fst snd default from_option id].

(** Rewrites the accesses to the list objects and spans whose contents a
    hypothesis gives, and to the spans opened last. *)
Ltac py_mem :=
  repeat first
    [ match goal with
      | H : _ !! _ = Some _ |- _ =>
          first [ rewrite (alter_known _ _ _ _ H)
                | rewrite (alter_insert_known _ _ _ _ _ H)
                | rewrite (lookup_insert_known _ _ _ _ H)
                | rewrite H ]
      end
    | rewrite list_insert_insert_eq
    | rewrite alter_at_length
    | rewrite alter_at_length_app
    | rewrite insert_at_length ];
  cbn [app].

Ltac py_run := repeat (progress (py_eval; py_mem)).

Ltac py_done := py_run; rewrite <- ?app_assoc; cbn [app]; done.

(** *** demo/langtrace: runs of [chat] *)

Section LangtraceChat.
Variables (env : Env) (w : World) (l : loc) (h : History) (message : string).
Hypothesis Hh : heap w !! l = Some h.

Let sent := h ++ [mkMessage user message].
Let logged := set_backend_log (fun b => b ++ [mkCall Langtrace.MODEL sent false]).

Lemma langtrace_chat_ok r c :
  ollama_chat_reply env (length (backend_log w)) Langtrace.MODEL sent = inr r ->
  resp_message_content r = Some c ->
  Langtrace.chat message (Some l) env w =
    (Return c,
     logged (set_heap (insert l (h ++ [mkMessage user message; mkMessage assistant c])) w)).
Proof.
  subst sent logged. intros Hb Hc. destruct w as [hp sp me bl cr]; simpl in Hh, Hb.
  unfold Langtrace.chat. py_run. rewrite Hb. py_run. rewrite Hc. py_done.
Qed.

Lemma langtrace_chat_raise e :
  ollama_chat_reply env (length (backend_log w)) Langtrace.MODEL sent = inl e ->
  Langtrace.chat message (Some l) env w =
    (Return (error_text e), logged (set_heap (insert l sent) w)).
Proof.
  subst sent logged. intros Hb. destruct w as [hp sp me bl cr]; simpl in Hh, Hb.
  unfold Langtrace.chat. py_run. rewrite Hb. py_done.
Qed.

Lemma langtrace_chat_malformed r :
  ollama_chat_reply env (length (backend_log w)) Langtrace.MODEL sent = inr r ->
  resp_message_content r = None ->
  Langtrace.chat message (Some l) env w =
    (Return (error_text (mkExn "KeyError" "'message'")),
     logged (set_heap (insert l sent) w)).
Proof.
  subst sent logged. intros Hb Hc. destruct w as [hp sp me bl cr]; simpl in Hh, Hb.
  unfold Langtrace.chat. py_run. rewrite Hb. py_run. rewrite Hc. py_done.
Qed.
End LangtraceChat.

(** *** Calls without a history *)

(** [conversation_history=None]: the call runs on a new, empty list. *)
Lemma langtrace_chat_default message env w :
  Langtrace.chat message None env w =
    Langtrace.chat message (Some (length (heap w))) env
                   (set_heap (fun hp => hp ++ [[]]) w).
Proof. reflexivity. Qed.

Lemma openllmetry_chat_default message env w :
  Openllmetry.chat message None env w =
    Openllmetry.chat message (Some (length (heap w))) env
                     (set_heap (fun hp => hp ++ [[]]) w).
Proof. reflexivity. Qed.

Lemma langtrace_stream_default message env w :
  Langtrace.next (Langtrace.chat_stream message None) env w =
    Langtrace.next (Langtrace.chat_stream message (Some (length (heap w)))) env
                   (set_heap (fun hp => hp ++ [[]]) w).
Proof. reflexivity. Qed.

Lemma openllmetry_stream_default message env w :
  Openllmetry.next (Openllmetry.chat_stream message None) env w =
    Openllmetry.next (Openllmetry.chat_stream message (Some (length (heap w)))) env
                     (set_heap (fun hp => hp ++ [[]]) w).
Proof. reflexivity. Qed.

(** The chatbots of the concrete session are the ones their constructors make. *)
Lemma langfuse_init_new_session env :
  Langfuse.__init__ "m1" env (mkWorld [] [] [] [] 0) = (Return langfuse_bot, new_session).
Proof. reflexivity. Qed.

Lemma opik_init_new_session env :
  Opik.__init__ "m1" env (mkWorld [] [] [] [] 0) = (Return opik_bot, new_session).
Proof. reflexivity. Qed.

(** *** Generators: a consumer's first round *)

Lemma pull_first {G} (next : G -> M (option string * G)) n g g' env w w' :
  next g env w = next g' env w' ->
  pull next (S n) g env w = pull next (S n) g' env w'.
Proof. intros H. cbn [pull]. unfold bind. by rewrite H. Qed.

(** *** demo/langtrace: runs of [chat_stream] *)

Section LangtraceStream.
Variables (env : Env) (l : loc).

Lemma langtrace_pull_done ds : forall full n w h,
  heap w !! l = Some h ->
  (length ds < n)%nat ->
  pull Langtrace.next n (Langtrace.Streaming l full (mkStream ds None)) env w =
    (Return (ds, Langtrace.Finished),
     set_heap (insert l (h ++ [mkMessage assistant (full +:+ join ds)])) w).
Proof.
  induction ds as [|d ds IH]; intros full [|n] [hp sp me bl cr] h Hh Hn;
    simpl in Hh, Hn; try lia.
  - cbn [pull Langtrace.next]. unfold Langtrace.loop, Langtrace.handler.
    cbn [deltas failure join foldr]. rewrite append_empty_r. py_done.
  - cbn [pull Langtrace.next]. unfold Langtrace.loop, Langtrace.handler.
    cbn [deltas failure]. py_eval.
    rewrite (IH (full +:+ d) n (mkWorld hp sp me bl cr) h Hh) by lia.
    py_eval. cbn [join foldr]. by rewrite append_assoc.
Qed.

Lemma langtrace_pull_fail ds e : forall full n w,
  (length ds + 1 < n)%nat ->
  pull Langtrace.next n (Langtrace.Streaming l full (mkStream ds (Some e))) env w =
    (Return (ds ++ [error_text e], Langtrace.Finished), w).
Proof.
  induction ds as [|d ds IH]; intros full [|n] [hp sp me bl cr] Hn;
    simpl in Hn; try lia.
  - destruct n as [|n]; [lia |].
    cbn [pull Langtrace.next]. unfold Langtrace.loop, Langtrace.handler.
    cbn [deltas failure]. py_done.
  - cbn [pull Langtrace.next]. unfold Langtrace.loop, Langtrace.handler.
    cbn [deltas failure]. py_eval.
    rewrite (IH (full +:+ d) n) by lia. by py_eval.
Qed.

Variables (w : World) (h : History) (message : string).
Hypothesis Hh : heap w !! l = Some h.

Let sent := h ++ [mkMessage user message].
Let started :=
  set_backend_log (fun b => b ++ [mkCall Langtrace.MODEL sent true])
                  (set_heap (insert l sent) w).

Lemma langtrace_next_created s :
  ollama_stream_reply env (length (backend_log w)) Langtrace.MODEL sent = inr s ->
  Langtrace.next (Langtrace.chat_stream message (Some l)) env w =
    Langtrace.next (Langtrace.Streaming l "" s) env started.
Proof.
  subst sent started. intros Hb. destruct w as [hp sp me bl cr]; simpl in Hh, Hb.
  unfold Langtrace.chat_stream. cbn [Langtrace.next]. py_run. rewrite Hb. py_done.
Qed.

Lemma langtrace_next_created_raise e :
  ollama_stream_reply env (length (backend_log w)) Langtrace.MODEL sent = inl e ->
  Langtrace.next (Langtrace.chat_stream message (Some l)) env w =
    (Return (Some (error_text e), Langtrace.Reported), started).
Proof.
  subst sent started. intros Hb. destruct w as [hp sp me bl cr]; simpl in Hh, Hb.
  unfold Langtrace.chat_stream, Langtrace.handler. cbn [Langtrace.next].
  py_run. rewrite Hb. py_done.
Qed.

Lemma langtrace_started_heap : heap started !! l = Some sent.
Proof. subst started. cbn. by eapply lookup_insert_known. Qed.
End LangtraceStream.

(** *** demo/openllmetry: runs of [chat] *)

Section OpenllmetryChat.
Variables (env : Env) (w : World) (l : loc) (h : History) (message : string).
Hypothesis Hh : heap w !! l = Some h.

Let sent := h ++ [mkMessage user message].
Let logged := set_backend_log (fun b => b ++ [mkCall Openllmetry.MODEL sent false]).
Let llm_span :=
  mkSpan ("openai" +:+ "." +:+ "chat")
         (<["llm.prompts.0.content" := AStr message]>
            (<["llm.prompts.0.role" := AStr "user"]>
               (<["llm.request.model" := AStr "llama3.1:8b"]> ∅)))
         UNSET [] 1.
Let traced := set_spans (fun s => s ++ [llm_span]).

Lemma openllmetry_chat_ok r c :
  ollama_chat_reply env (length (backend_log w)) Openllmetry.MODEL sent = inr r ->
  resp_message_content r = Some c ->
  Openllmetry.chat message (Some l) env w =
    (Return c,
     traced (logged (set_heap
       (insert l (h ++ [mkMessage user message; mkMessage assistant c])) w))).
Proof.
  subst sent logged traced llm_span. intros Hb Hc.
  destruct w as [hp sp me bl cr]; simpl in Hh, Hb.
  unfold Openllmetry.chat, Openllmetry.track_llm_call, Openllmetry.report_request.
  py_run. rewrite Hb. py_run. rewrite Hc. py_done.
Qed.

Lemma openllmetry_chat_raise e :
  ollama_chat_reply env (length (backend_log w)) Openllmetry.MODEL sent = inl e ->
  Openllmetry.chat message (Some l) env w =
    (Return (error_text e), traced (logged (set_heap (insert l sent) w))).
Proof.
  subst sent logged traced llm_span. intros Hb.
  destruct w as [hp sp me bl cr]; simpl in Hh, Hb.
  unfold Openllmetry.chat, Openllmetry.track_llm_call, Openllmetry.report_request.
  py_run. rewrite Hb. py_done.
Qed.

Lemma openllmetry_chat_malformed r :
  ollama_chat_reply env (length (backend_log w)) Openllmetry.MODEL sent = inr r ->
  resp_message_content r = None ->
  Openllmetry.chat message (Some l) env w =
    (Return (error_text (mkExn "KeyError" "'message'")),
     traced (logged (set_heap (insert l sent) w))).
Proof.
  subst sent logged traced llm_span. intros Hb Hc.
  destruct w as [hp sp me bl cr]; simpl in Hh, Hb.
  unfold Openllmetry.chat, Openllmetry.track_llm_call, Openllmetry.report_request.
  py_run. rewrite Hb. py_run. rewrite Hc. py_done.
Qed.
End OpenllmetryChat.

(** *** demo/openllmetry: runs of [chat_stream] *)

Ltac openllmetry_next :=
  cbn [pull Openllmetry.next Openllmetry.close];
  unfold Openllmetry.loop, Openllmetry.handler, Openllmetry.inside_span;
  cbn [deltas failure].

Section OpenllmetryStream.
Variables (env : Env) (l : loc) (span : nat).

Lemma openllmetry_pull_done ds : forall full n w h sp,
  heap w !! l = Some h ->
  spans w !! span = Some sp ->
  end_calls sp = 0%nat ->
  (length ds < n)%nat ->
  pull Openllmetry.next n
       (Openllmetry.Streaming l span full (mkStream ds None)) env w =
    (Return (ds, Openllmetry.Finished),
     set_spans (insert span
         (mkSpan (span_name sp)
                 (<["llm.response_length" := AInt (len (full +:+ join ds))]>
                    (attributes sp))
                 (status sp) (recorded sp) 1))
       (set_heap (insert l (h ++ [mkMessage assistant (full +:+ join ds)])) w)).
Proof.
  induction ds as [|d ds IH];
    intros full [|n] [hp sps me bl cr] h [nm ats st rc ec] Hh Hs He Hn;
    simpl in Hh, Hs, He, Hn; try lia; subst ec.
  - openllmetry_next. cbn [join foldr]. rewrite append_empty_r. py_done.
  - openllmetry_next. py_eval.
    rewrite (IH (full +:+ d) n (mkWorld hp sps me bl cr) h _ Hh Hs eq_refl) by lia.
    py_eval. cbn [join foldr]. by rewrite append_assoc.
Qed.

Lemma openllmetry_pull_fail ds e : forall full n w sp,
  spans w !! span = Some sp ->
  end_calls sp = 0%nat ->
  (length ds + 1 < n)%nat ->
  pull Openllmetry.next n
       (Openllmetry.Streaming l span full (mkStream ds (Some e))) env w =
    (Return (ds ++ [error_text e], Openllmetry.Finished),
     set_spans (insert span
         (mkSpan (span_name sp) (attributes sp) ERROR
                 (recorded sp ++ [exn_type e]) 1)) w).
Proof.
  induction ds as [|d ds IH];
    intros full [|n] [hp sps me bl cr] [nm ats st rc ec] Hs He Hn;
    simpl in Hs, He, Hn; try lia; subst ec.
  - destruct n as [|n]; [lia |]. openllmetry_next. py_done.
  - openllmetry_next. py_eval.
    rewrite (IH (full +:+ d) n (mkWorld hp sps me bl cr) _ Hs eq_refl) by lia.
    by py_eval.
Qed.

(** A consumer that takes [k] chunks of a longer stream: nothing but the
    generator changes. *)
Lemma openllmetry_pull_some ds fl : forall k full w,
  (k <= length ds)%nat ->
  pull Openllmetry.next k
       (Openllmetry.Streaming l span full (mkStream ds fl)) env w =
    (Return (take k ds,
             Openllmetry.Streaming l span (full +:+ join (take k ds))
                                   (mkStream (drop k ds) fl)), w).
Proof.
  induction ds as [|d ds IH]; intros [|k] full [hp sps me bl cr] Hk;
    simpl in Hk; try lia.
  - cbn [pull take drop join foldr]. by rewrite append_empty_r.
  - cbn [pull take drop join foldr]. by rewrite append_empty_r.
  - openllmetry_next. py_eval.
    rewrite (IH k (full +:+ d) (mkWorld hp sps me bl cr)) by lia.
    py_eval. cbn [take drop join foldr]. by rewrite append_assoc.
Qed.

Lemma openllmetry_close_streaming full s w sp :
  spans w !! span = Some sp ->
  end_calls sp = 0%nat ->
  Openllmetry.close (Openllmetry.Streaming l span full s) env w =
    (Return Openllmetry.Finished,
     set_spans (insert span
         (if use_span_records_base_exception env
          then mkSpan (span_name sp) (attributes sp) ERROR
                      (recorded sp ++ ["GeneratorExit"]) 1
          else mkSpan (span_name sp) (attributes sp) (status sp)
                      (recorded sp) 1)) w).
Proof.
  destruct w as [hp sps me bl cr], sp as [nm ats st rc ec]; simpl.
  intros Hs ->. openllmetry_next. py_eval.
  destruct (use_span_records_base_exception env); py_done.
Qed.
End OpenllmetryStream.

Section OpenllmetryStart.
Variables (env : Env) (w : World) (l : loc) (h : History) (message : string).
Hypothesis Hh : heap w !! l = Some h.

Let sent := h ++ [mkMessage user message].
Let stream_span (st : StatusCode) (rc : list string) (n : nat) :=
  mkSpan "ollama.chat.stream"
         (<["llm.streaming" := ABool true]>
            (<["llm.model" := AStr "llama3.1:8b"]> ∅))
         st rc n.
Let started (sp : Span) :=
  set_backend_log (fun b => b ++ [mkCall Openllmetry.MODEL sent true])
    (set_spans (fun s => s ++ [sp]) (set_heap (insert l sent) w)).

Lemma openllmetry_next_created s :
  ollama_stream_reply env (length (backend_log w)) Openllmetry.MODEL sent = inr s ->
  Openllmetry.next (Openllmetry.chat_stream message (Some l)) env w =
    Openllmetry.next (Openllmetry.Streaming l (length (spans w)) "" s) env
                     (started (stream_span UNSET [] 0)).
Proof.
  subst sent started stream_span. intros Hb.
  destruct w as [hp sp me bl cr]; simpl in Hh, Hb.
  unfold Openllmetry.chat_stream. openllmetry_next. py_run. rewrite Hb.
  destruct s as [[|d ds] [e|]]; cbn [deltas failure]; py_done.
Qed.

Lemma openllmetry_next_created_raise e :
  ollama_stream_reply env (length (backend_log w)) Openllmetry.MODEL sent = inl e ->
  Openllmetry.next (Openllmetry.chat_stream message (Some l)) env w =
    (Return (Some (error_text e), Openllmetry.Reported),
     started (stream_span ERROR [exn_type e] 1)).
Proof.
  subst sent started stream_span. intros Hb.
  destruct w as [hp sp me bl cr]; simpl in Hh, Hb.
  unfold Openllmetry.chat_stream. openllmetry_next. py_run. rewrite Hb. py_done.
Qed.

Lemma openllmetry_started_heap sp : heap (started sp) !! l = Some sent.
Proof. subst started. cbn. by eapply lookup_insert_known. Qed.

Lemma openllmetry_started_span sp :
  spans (started sp) !! length (spans w) = Some sp.
Proof. subst started. cbn. apply lookup_at_length. Qed.
End OpenllmetryStart.

(** *** demo/langfuse: runs of [chat] *)

Section LangfuseChat.
Variables (env : Env) (w : World) (self : Langfuse.ObservableChatbot).
Variables (h : History) (user_message : string) (session_id : option string).
Hypothesis Hh : heap w !! Langfuse.conversation_history self = Some h.

Let model := Langfuse.model self.
Let sent := h ++ [mkMessage user user_message].
Let duration_ms :=
  (time_time_at env (S (clock_reads w)) - time_time_at env (clock_reads w)) * 1000.
Let opened : gmap string AttrValue :=
  (if Langfuse.truthy session_id
   then insert "session.id" (AStr (default "" session_id))
   else fun attrs => attrs)
    (<["llm.user_message_length" := AInt (len user_message)]>
       (<["llm.model" := AStr model]> ∅)).
Let token_attrs (p q : Z) : gmap string AttrValue :=
  <["llm.total_tokens" := AInt (p + q)]>
    (<["llm.completion_tokens" := AInt q]>
       (<["llm.prompt_tokens" := AInt p]> ∅)).
Let after (hist : History) (chat_span api_span : Span)
    (new : list MetricSample) : World :=
  mkWorld (<[Langfuse.conversation_history self := hist]> (heap w))
          (spans w ++ [chat_span; api_span])
          (metrics w ++ new)
          (backend_log w ++ [mkCall model sent false])
          (S (S (clock_reads w))).

Lemma langfuse_chat_ok r c :
  ollama_chat_reply env (length (backend_log w)) model sent = inr r ->
  resp_message_content r = Some c ->
  let p := get_or_0 (resp_prompt_eval_count r) in
  let q := get_or_0 (resp_eval_count r) in
  Langfuse.chat self user_message session_id env w =
    (Return (Langfuse.mkChatResult c model duration_ms (p + q) p q session_id),
     after (h ++ [mkMessage user user_message; mkMessage assistant c])
       (mkSpan "llm_chat_request"
          (<["llm.status" := AStr "success"]>
             (<["llm.duration_ms" := AInt duration_ms]>
                (<["llm.total_tokens" := AInt (p + q)]>
                   (<["llm.response_length" := AInt (len c)]> opened))))
          UNSET [] 1)
       (mkSpan "ollama_api" (token_attrs p q) UNSET [] 1)
       [mkSample llm_token_counter p [("model", model); ("type", "prompt")];
        mkSample llm_token_counter q [("model", model); ("type", "completion")];
        mkSample llm_request_counter 1 [("model", model); ("status", "success")];
        mkSample llm_token_counter (p + q) [("model", model); ("type", "total")];
        mkSample llm_latency_histogram duration_ms [("model", model)]]).
Proof.
  subst model sent duration_ms opened token_attrs after. intros Hb Hc p q.
  subst p q. destruct w as [hp sp me bl cr]; simpl in Hh, Hb.
  unfold Langfuse.chat, Langfuse._call_ollama.
  destruct (Langfuse.truthy session_id);
    py_run; rewrite Hb; py_run; rewrite Hc; py_done.
Qed.

Lemma langfuse_chat_raise e :
  ollama_chat_reply env (length (backend_log w)) model sent = inl e ->
  Langfuse.chat self user_message session_id env w =
    (Raise e,
     after sent
       (mkSpan "llm_chat_request"
          (<["error.message" := AStr (exn_message e)]>
             (<["error.type" := AStr (exn_type e)]>
                (<["llm.status" := AStr "error"]> opened)))
          ERROR [exn_type e; exn_type e] 1)
       (mkSpan "ollama_api" ∅ ERROR [exn_type e; exn_type e] 1)
       [mkSample llm_error_counter 1 [("model", model); ("error_type", exn_type e)];
        mkSample llm_request_counter 1 [("model", model); ("status", "error")]]).
Proof.
  subst model sent duration_ms opened token_attrs after. intros Hb.
  destruct w as [hp sp me bl cr]; simpl in Hh, Hb.
  unfold Langfuse.chat, Langfuse._call_ollama.
  destruct (Langfuse.truthy session_id);
    py_run; rewrite Hb; py_done.
Qed.

Lemma langfuse_chat_malformed r :
  ollama_chat_reply env (length (backend_log w)) model sent = inr r ->
  resp_message_content r = None ->
  let p := get_or_0 (resp_prompt_eval_count r) in
  let q := get_or_0 (resp_eval_count r) in
  let e := mkExn "KeyError" "'message'" in
  Langfuse.chat self user_message session_id env w =
    (Raise e,
     after sent
       (mkSpan "llm_chat_request"
          (<["error.message" := AStr (exn_message e)]>
             (<["error.type" := AStr (exn_type e)]>
                (<["llm.status" := AStr "error"]> opened)))
          ERROR [exn_type e; exn_type e] 1)
       (mkSpan "ollama_api" (token_attrs p q) ERROR [exn_type e; exn_type e] 1)
       [mkSample llm_token_counter p [("model", model); ("type", "prompt")];
        mkSample llm_token_counter q [("model", model); ("type", "completion")];
        mkSample llm_error_counter 1 [("model", model); ("error_type", exn_type e)];
        mkSample llm_request_counter 1 [("model", model); ("status", "error")]]).
Proof.
  subst model sent duration_ms opened token_attrs after. intros Hb Hc p q e.
  subst p q e. destruct w as [hp sp me bl cr]; simpl in Hh, Hb.
  unfold Langfuse.chat, Langfuse._call_ollama.
  destruct (Langfuse.truthy session_id);
    py_run; rewrite Hb; py_run; rewrite Hc; py_done.
Qed.
End LangfuseChat.

(** *** demo/opik: runs of [chat] *)

Section OpikChat.
Variables (env : Env) (w : World) (self : Opik.OpikObservableChatbot).
Variables (h : History) (user_message : string) (session_id : option string).
Hypothesis Hh : heap w !! Opik.conversation_history self = Some h.

Let model := Opik.model self.
Let sent := h ++ [mkMessage user user_message].
Let duration_ms :=
  (time_time_at env (S (clock_reads w)) - time_time_at env (clock_reads w)) * 1000.
Let opened : gmap string AttrValue :=
  (if Opik.truthy session_id
   then insert "session.id" (AStr (default "" session_id))
   else fun attrs => attrs)
    (<["llm.user_message_length" := AInt (len user_message)]>
       (<["llm.model" := AStr model]> ∅)).
Let token_attrs (p q : Z) : gmap string AttrValue :=
  <["llm.total_tokens" := AInt (p + q)]>
    (<["llm.completion_tokens" := AInt q]>
       (<["llm.prompt_tokens" := AInt p]> ∅)).
Let after (hist : History) (chat_span api_span : Span)
    (new : list MetricSample) : World :=
  mkWorld (<[Opik.conversation_history self := hist]> (heap w))
          (spans w ++ [chat_span; api_span])
          (metrics w ++ new)
          (backend_log w ++ [mkCall model sent false])
          (S (S (clock_reads w))).

Lemma opik_chat_ok r c :
  ollama_chat_reply env (length (backend_log w)) model sent = inr r ->
  resp_message_content r = Some c ->
  let p := get_or_0 (resp_prompt_eval_count r) in
  let q := get_or_0 (resp_eval_count r) in
  Opik.chat self user_message session_id env w =
    (Return (Opik.mkChatResult c model duration_ms (p + q) p q session_id),
     after (h ++ [mkMessage user user_message; mkMessage assistant c])
       (mkSpan "llm_chat_request"
          (<["llm.status" := AStr "success"]>
             (<["llm.duration_ms" := AInt duration_ms]>
                (<["llm.completion_tokens" := AInt q]>
                   (<["llm.prompt_tokens" := AInt p]>
                      (<["llm.total_tokens" := AInt (p + q)]>
                         (<["llm.response_length" := AInt (len c)]> opened))))))
          UNSET [] 1)
       (mkSpan "ollama_api" (token_attrs p q) UNSET [] 1)
       [mkSample llm_request_counter 1 [("model", model); ("status", "success")];
        mkSample llm_token_counter (p + q) [("model", model); ("type", "total")];
        mkSample llm_token_counter p [("model", model); ("type", "prompt")];
        mkSample llm_token_counter q [("model", model); ("type", "completion")];
        mkSample llm_latency_histogram duration_ms [("model", model)]]).
Proof.
  subst model sent duration_ms opened token_attrs after. intros Hb Hc p q.
  subst p q. destruct w as [hp sp me bl cr]; simpl in Hh, Hb.
  unfold Opik.chat, Opik._call_ollama.
  destruct (Opik.truthy session_id);
    py_run; rewrite Hb; py_run; rewrite Hc; py_done.
Qed.

Lemma opik_chat_raise e :
  ollama_chat_reply env (length (backend_log w)) model sent = inl e ->
  Opik.chat self user_message session_id env w =
    (Raise e,
     after sent
       (mkSpan "llm_chat_request"
          (<["error.message" := AStr (exn_message e)]>
             (<["error.type" := AStr (exn_type e)]>
                (<["llm.status" := AStr "error"]> opened)))
          ERROR [exn_type e; exn_type e] 1)
       (mkSpan "ollama_api" ∅ ERROR [exn_type e; exn_type e] 1)
       [mkSample llm_error_counter 1 [("model", model); ("error_type", exn_type e)];
        mkSample llm_request_counter 1 [("model", model); ("status", "error")]]).
Proof.
  subst model sent duration_ms opened token_attrs after. intros Hb.
  destruct w as [hp sp me bl cr]; simpl in Hh, Hb.
  unfold Opik.chat, Opik._call_ollama.
  destruct (Opik.truthy session_id);
    py_run; rewrite Hb; py_done.
Qed.

Lemma opik_chat_malformed r :
  ollama_chat_reply env (length (backend_log w)) model sent = inr r ->
  resp_message_content r = None ->
  let p := get_or_0 (resp_prompt_eval_count r) in
  let q := get_or_0 (resp_eval_count r) in
  let e := mkExn "KeyError" "'message'" in
  Opik.chat self user_message session_id env w =
    (Raise e,
     after sent
       (mkSpan "llm_chat_request"
          (<["error.message" := AStr (exn_message e)]>
             (<["error.type" := AStr (exn_type e)]>
                (<["llm.status" := AStr "error"]> opened)))
          ERROR [exn_type e; exn_type e] 1)
       (mkSpan "ollama_api" (token_attrs p q) ERROR [exn_type e; exn_type e] 1)
       [mkSample llm_error_counter 1 [("model", model); ("error_type", exn_type e)];
        mkSample llm_request_counter 1 [("model", model); ("status", "error")]]).
Proof.
  subst model sent duration_ms opened token_attrs after. intros Hb Hc p q e.
  subst p q e. destruct w as [hp sp me bl cr]; simpl in Hh, Hb.
  unfold Opik.chat, Opik._call_ollama.
  destruct (Opik.truthy session_id);
    py_run; rewrite Hb; py_run; rewrite Hc; py_done.
Qed.
End OpikChat.

(** ** Reading the worlds *)

Lemma produced_app w w' new : metrics w' = metrics w ++ new -> produced w w' = new.
Proof. unfold produced. intros ->. apply drop_app_length. Qed.

Lemma history_at_insert w l h x rest sp me bl cr :
  heap w !! l = Some h ->
  rest = <[l := x]> (heap w) ->
  history_at (mkWorld rest sp me bl cr) l = x.
Proof.
  intros Hh ->. unfold history_at. cbn [heap].
  by rewrite (lookup_insert_known _ _ _ _ Hh).
Qed.

(** * Failed turns *)

(** C1, as stated, fails: with the backend down, a turn on an empty history
    raises and leaves the user message in the history. *)
Lemma failed_turn_changes_history :
  ollama_chat_reply env_down 0 "m1" [mkMessage user "hi"] = inl boom /\
  fst (Langfuse.chat langfuse_bot "hi" None env_down new_session) = Raise boom /\
  history_at (snd (Langfuse.chat langfuse_bot "hi" None env_down new_session))
             session_list
    <> history_at new_session session_list.
Proof.
  split; [reflexivity |].
  rewrite (langfuse_chat_raise env_down new_session langfuse_bot [] "hi" None
             eq_refl boom eq_refl).
  split; [reflexivity | discriminate].
Qed.

(** C1 (amended): when the backend call of a turn raises, [chat] of the
    Langfuse and of the Opik chatbot raises the same exception, and the
    history is the one before the turn followed by the user message of the
    turn: one entry is added, no assistant message, and no other list object
    changes. *)
Theorem failed_turn_keeps_user_message :
  (forall env w (self : Langfuse.ObservableChatbot) h user_message session_id e,
     heap w !! Langfuse.conversation_history self = Some h ->
     ollama_chat_reply env (length (backend_log w)) (Langfuse.model self)
       (h ++ [mkMessage user user_message]) = inl e ->
     exists w',
       Langfuse.chat self user_message session_id env w = (Raise e, w') /\
       heap w' = <[Langfuse.conversation_history self :=
                     h ++ [mkMessage user user_message]]> (heap w) /\
       history_at w' (Langfuse.conversation_history self) =
         h ++ [mkMessage user user_message]) /\
  (forall env w (self : Opik.OpikObservableChatbot) h user_message session_id e,
     heap w !! Opik.conversation_history self = Some h ->
     ollama_chat_reply env (length (backend_log w)) (Opik.model self)
       (h ++ [mkMessage user user_message]) = inl e ->
     exists w',
       Opik.chat self user_message session_id env w = (Raise e, w') /\
       heap w' = <[Opik.conversation_history self :=
                     h ++ [mkMessage user user_message]]> (heap w) /\
       history_at w' (Opik.conversation_history self) =
         h ++ [mkMessage user user_message]).
Proof.
  split; intros env w self h user_message session_id e Hh Hb.
  - rewrite (langfuse_chat_raise env w self h user_message session_id Hh e Hb).
    eexists. split; [reflexivity |]. split; [reflexivity |].
    by eapply history_at_insert.
  - rewrite (opik_chat_raise env w self h user_message session_id Hh e Hb).
    eexists. split; [reflexivity |]. split; [reflexivity |].
    by eapply history_at_insert.
Qed.

Lemma failed_turn_keeps_user_message_witness :
  (exists w',
     Langfuse.chat langfuse_bot "again" (Some "s1") env_down
       (mkWorld [[mkMessage user "hi"; mkMessage assistant "hello"]] [] [] [] 0) =
       (Raise boom, w') /\
     history_at w' session_list =
       [mkMessage user "hi"; mkMessage assistant "hello"; mkMessage user "again"]) /\
  (exists w',
     Opik.chat opik_bot "hi" None env_down new_session = (Raise boom, w') /\
     history_at w' session_list = [mkMessage user "hi"]).
Proof.
  split.
  - destruct (proj1 failed_turn_keeps_user_message env_down
                (mkWorld [[mkMessage user "hi"; mkMessage assistant "hello"]] [] [] [] 0)
                langfuse_bot [mkMessage user "hi"; mkMessage assistant "hello"]
                "again" (Some "s1") boom eq_refl eq_refl) as (w' & Hrun & _ & Hhist).
    exists w'. split; [exact Hrun | exact Hhist].
  - destruct (proj2 failed_turn_keeps_user_message env_down new_session
                opik_bot [] "hi" None boom eq_refl eq_refl) as (w' & Hrun & _ & Hhist).
    exists w'. split; [exact Hrun | exact Hhist].
Defined.

(** C2, as stated, fails: with the backend down, [chat] of the Langtrace demo
    returns normally; its result is a string, as for an answered turn. *)
Lemma failed_turn_returns_text :
  ollama_chat_reply env_down 0 Langtrace.MODEL [mkMessage user "hi"] = inl boom /\
  fst (Langtrace.chat "hi" (Some session_list) env_down new_session) =
    Return "Error: connection refused" /\
  fst (Langtrace.chat "hi" (Some session_list) env_down new_session) <> Raise boom.
Proof.
  split; [reflexivity |].
  rewrite (langtrace_chat_raise env_down new_session session_list [] "hi" eq_refl boom eq_refl).
  split; [reflexivity | discriminate].
Qed.

(** C2 (amended): when the backend call of a non-streamed turn raises [e],
    [chat] of the Langfuse and of the Opik chatbot raises [e] to its caller
    after handing to the meter one error sample and one request sample with
    status "error", and its span ends with status [ERROR] and the exception
    recorded; [chat] of the Langtrace and of the OpenLLMetry demo does not
    raise: it returns the text "Error: " followed by the message of [e] as
    its result, and hands no sample to the meter. *)
Theorem failed_turn_outcome :
  (forall env w (self : Langfuse.ObservableChatbot) h user_message session_id e,
     heap w !! Langfuse.conversation_history self = Some h ->
     ollama_chat_reply env (length (backend_log w)) (Langfuse.model self)
       (h ++ [mkMessage user user_message]) = inl e ->
     exists w' sp,
       Langfuse.chat self user_message session_id env w = (Raise e, w') /\
       produced w w' =
         [mkSample llm_error_counter 1
            [("model", Langfuse.model self); ("error_type", exn_type e)];
          mkSample llm_request_counter 1
            [("model", Langfuse.model self); ("status", "error")]] /\
       spans w' !! length (spans w) = Some sp /\
       span_name sp = "llm_chat_request" /\ status sp = ERROR /\
       exn_type e ∈ recorded sp /\ end_calls sp = 1%nat) /\
  (forall env w (self : Opik.OpikObservableChatbot) h user_message session_id e,
     heap w !! Opik.conversation_history self = Some h ->
     ollama_chat_reply env (length (backend_log w)) (Opik.model self)
       (h ++ [mkMessage user user_message]) = inl e ->
     exists w' sp,
       Opik.chat self user_message session_id env w = (Raise e, w') /\
       produced w w' =
         [mkSample llm_error_counter 1
            [("model", Opik.model self); ("error_type", exn_type e)];
          mkSample llm_request_counter 1
            [("model", Opik.model self); ("status", "error")]] /\
       spans w' !! length (spans w) = Some sp /\
       span_name sp = "llm_chat_request" /\ status sp = ERROR /\
       exn_type e ∈ recorded sp /\ end_calls sp = 1%nat) /\
  (forall env w l h message e,
     heap w !! l = Some h ->
     ollama_chat_reply env (length (backend_log w)) Langtrace.MODEL
       (h ++ [mkMessage user message]) = inl e ->
     exists w',
       Langtrace.chat message (Some l) env w = (Return (error_text e), w') /\
       metrics w' = metrics w) /\
  (forall env w l h message e,
     heap w !! l = Some h ->
     ollama_chat_reply env (length (backend_log w)) Openllmetry.MODEL
       (h ++ [mkMessage user message]) = inl e ->
     exists w',
       Openllmetry.chat message (Some l) env w = (Return (error_text e), w') /\
       metrics w' = metrics w).
Proof.
  repeat split.
  - intros env w self h user_message session_id e Hh Hb.
    rewrite (langfuse_chat_raise env w self h user_message session_id Hh e Hb).
    do 2 eexists. split; [reflexivity |].
    split; [by apply produced_app |].
    split; [cbn [spans]; apply lookup_at_length |].
    cbn. repeat split; try done. set_solver.
  - intros env w self h user_message session_id e Hh Hb.
    rewrite (opik_chat_raise env w self h user_message session_id Hh e Hb).
    do 2 eexists. split; [reflexivity |].
    split; [by apply produced_app |].
    split; [cbn [spans]; apply lookup_at_length |].
    cbn. repeat split; try done. set_solver.
  - intros env w l h message e Hh Hb.
    rewrite (langtrace_chat_raise env w l h message Hh e Hb).
    eexists. split; reflexivity.
  - intros env w l h message e Hh Hb.
    rewrite (openllmetry_chat_raise env w l h message Hh e Hb).
    eexists. split; reflexivity.
Qed.

Lemma failed_turn_outcome_witness :
  (exists w', Langfuse.chat langfuse_bot "hi" None env_down new_session = (Raise boom, w')) /\
  (exists w', Opik.chat opik_bot "hi" None env_down new_session = (Raise boom, w')) /\
  (exists w', Langtrace.chat "hi" (Some session_list) env_down new_session =
                (Return "Error: connection refused", w')) /\
  (exists w', Openllmetry.chat "hi" (Some session_list) env_down new_session =
                (Return "Error: connection refused", w')).
Proof.
  destruct failed_turn_outcome as (Hlf & Hop & Hlt & Hol).
  repeat split.
  - destruct (Hlf env_down new_session langfuse_bot [] "hi" None boom eq_refl eq_refl)
      as (w' & sp & Hrun & _).
    exists w'. exact Hrun.
  - destruct (Hop env_down new_session opik_bot [] "hi" None boom eq_refl eq_refl)
      as (w' & sp & Hrun & _).
    exists w'. exact Hrun.
  - destruct (Hlt env_down new_session session_list [] "hi" boom eq_refl eq_refl)
      as (w' & Hrun & _).
    exists w'. exact Hrun.
  - destruct (Hol env_down new_session session_list [] "hi" boom eq_refl eq_refl)
      as (w' & Hrun & _).
    exists w'. exact Hrun.
Defined.

(** * Answered turns *)

(** C3: when the backend answers a non-streamed turn with the content [c],
    the history is the one before the turn followed by the user message with
    the user's text and an assistant message with content [c]; no other list
    object changes.  [chat] of the chatbots returns [c] as the response. *)
Theorem answered_turn_history :
  (forall env w (self : Langfuse.ObservableChatbot) h user_message session_id r c,
     heap w !! Langfuse.conversation_history self = Some h ->
     ollama_chat_reply env (length (backend_log w)) (Langfuse.model self)
       (h ++ [mkMessage user user_message]) = inr r ->
     resp_message_content r = Some c ->
     exists res w',
       Langfuse.chat self user_message session_id env w = (Return res, w') /\
       Langfuse.response res = c /\
       heap w' = <[Langfuse.conversation_history self :=
                     h ++ [mkMessage user user_message; mkMessage assistant c]]>
                   (heap w)) /\
  (forall env w (self : Opik.OpikObservableChatbot) h user_message session_id r c,
     heap w !! Opik.conversation_history self = Some h ->
     ollama_chat_reply env (length (backend_log w)) (Opik.model self)
       (h ++ [mkMessage user user_message]) = inr r ->
     resp_message_content r = Some c ->
     exists res w',
       Opik.chat self user_message session_id env w = (Return res, w') /\
       Opik.response res = c /\
       heap w' = <[Opik.conversation_history self :=
                     h ++ [mkMessage user user_message; mkMessage assistant c]]>
                   (heap w)) /\
  (forall env w l h message r c,
     heap w !! l = Some h ->
     ollama_chat_reply env (length (backend_log w)) Langtrace.MODEL
       (h ++ [mkMessage user message]) = inr r ->
     resp_message_content r = Some c ->
     exists w',
       Langtrace.chat message (Some l) env w = (Return c, w') /\
       heap w' = <[l := h ++ [mkMessage user message; mkMessage assistant c]]> (heap w)) /\
  (forall env w l h message r c,
     heap w !! l = Some h ->
     ollama_chat_reply env (length (backend_log w)) Openllmetry.MODEL
       (h ++ [mkMessage user message]) = inr r ->
     resp_message_content r = Some c ->
     exists w',
       Openllmetry.chat message (Some l) env w = (Return c, w') /\
       heap w' = <[l := h ++ [mkMessage user message; mkMessage assistant c]]> (heap w)).
Proof.
  repeat split.
  - intros env w self h user_message session_id r c Hh Hb Hc.
    rewrite (langfuse_chat_ok env w self h user_message session_id Hh r c Hb Hc).
    do 2 eexists. repeat split; reflexivity.
  - intros env w self h user_message session_id r c Hh Hb Hc.
    rewrite (opik_chat_ok env w self h user_message session_id Hh r c Hb Hc).
    do 2 eexists. repeat split; reflexivity.
  - intros env w l h message r c Hh Hb Hc.
    rewrite (langtrace_chat_ok env w l h message Hh r c Hb Hc).
    eexists. split; reflexivity.
  - intros env w l h message r c Hh Hb Hc.
    rewrite (openllmetry_chat_ok env w l h message Hh r c Hb Hc).
    eexists. split; reflexivity.
Qed.

Lemma answered_turn_history_witness :
  (exists res w',
     Langfuse.chat langfuse_bot "hi" None (env_up false) new_session = (Return res, w') /\
     Langfuse.response res = "hello" /\
     heap w' = [[mkMessage user "hi"; mkMessage assistant "hello"]]) /\
  (exists res w',
     Opik.chat opik_bot "hi" None (env_up false) new_session = (Return res, w') /\
     Opik.response res = "hello" /\
     heap w' = [[mkMessage user "hi"; mkMessage assistant "hello"]]) /\
  (exists w',
     Langtrace.chat "hi" (Some session_list) (env_up false) new_session = (Return "hello", w') /\
     heap w' = [[mkMessage user "hi"; mkMessage assistant "hello"]]) /\
  (exists w',
     Openllmetry.chat "hi" (Some session_list) (env_up false) new_session = (Return "hello", w') /\
     heap w' = [[mkMessage user "hi"; mkMessage assistant "hello"]]).
Proof.
  destruct answered_turn_history as (Hlf & Hop & Hlt & Hol).
  repeat split.
  - exact (Hlf (env_up false) new_session langfuse_bot [] "hi" None hello "hello"
               eq_refl eq_refl eq_refl).
  - exact (Hop (env_up false) new_session opik_bot [] "hi" None hello "hello"
               eq_refl eq_refl eq_refl).
  - exact (Hlt (env_up false) new_session session_list [] "hi" hello "hello"
               eq_refl eq_refl eq_refl).
  - exact (Hol (env_up false) new_session session_list [] "hi" hello "hello"
               eq_refl eq_refl eq_refl).
Defined.

(** * Metrics *)

(** C6: when the backend answers with a content, a turn of the Langfuse or
    of the Opik chatbot returns, and it has handed to the meter exactly one
    request sample, with status "success", exactly one latency observation
    and exactly three token samples, one each of type prompt, completion and
    total.  When the backend call raises, the turn raises and has handed to
    the meter exactly one request sample, with status "error".  Whatever the
    backend does, a turn that returns has handed over the samples of an
    answered turn, and a turn that raises those of a failed turn. *)
Theorem turn_samples :
  (forall env w (self : Langfuse.ObservableChatbot) h user_message session_id,
     heap w !! Langfuse.conversation_history self = Some h ->
     (forall r c,
        ollama_chat_reply env (length (backend_log w)) (Langfuse.model self)
          (h ++ [mkMessage user user_message]) = inr r ->
        resp_message_content r = Some c ->
        exists result w',
          Langfuse.chat self user_message session_id env w = (Return result, w') /\
          answered_samples (produced w w')) /\
     (forall e,
        ollama_chat_reply env (length (backend_log w)) (Langfuse.model self)
          (h ++ [mkMessage user user_message]) = inl e ->
        exists w',
          Langfuse.chat self user_message session_id env w = (Raise e, w') /\
          failed_samples (produced w w')) /\
     (forall o w',
        Langfuse.chat self user_message session_id env w = (o, w') ->
        match o with
        | Return _ => answered_samples (produced w w')
        | Raise _ => failed_samples (produced w w')
        end)) /\
  (forall env w (self : Opik.OpikObservableChatbot) h user_message session_id,
     heap w !! Opik.conversation_history self = Some h ->
     (forall r c,
        ollama_chat_reply env (length (backend_log w)) (Opik.model self)
          (h ++ [mkMessage user user_message]) = inr r ->
        resp_message_content r = Some c ->
        exists result w',
          Opik.chat self user_message session_id env w = (Return result, w') /\
          answered_samples (produced w w')) /\
     (forall e,
        ollama_chat_reply env (length (backend_log w)) (Opik.model self)
          (h ++ [mkMessage user user_message]) = inl e ->
        exists w',
          Opik.chat self user_message session_id env w = (Raise e, w') /\
          failed_samples (produced w w')) /\
     (forall o w',
        Opik.chat self user_message session_id env w = (o, w') ->
        match o with
        | Return _ => answered_samples (produced w w')
        | Raise _ => failed_samples (produced w w')
        end)).
Proof.
  split; intros env w self h user_message session_id Hh.
  - split; [| split].
    + intros r c Hb Hc.
      rewrite (langfuse_chat_ok env w self h user_message session_id Hh r c Hb Hc).
      do 2 eexists. split; [reflexivity |].
      erewrite produced_app by reflexivity. by repeat split.
    + intros e Hb.
      rewrite (langfuse_chat_raise env w self h user_message session_id Hh e Hb).
      eexists. split; [reflexivity |].
      erewrite produced_app by reflexivity. by repeat split.
    + intros o w'.
      destruct (ollama_chat_reply env (length (backend_log w)) (Langfuse.model self)
                  (h ++ [mkMessage user user_message])) as [e|r] eqn:Hb;
        [| destruct (resp_message_content r) as [c|] eqn:Hc].
      * rewrite (langfuse_chat_raise env w self h user_message session_id Hh e Hb).
        intros [= <- <-]. erewrite produced_app by reflexivity. by repeat split.
      * rewrite (langfuse_chat_ok env w self h user_message session_id Hh r c Hb Hc).
        intros [= <- <-]. erewrite produced_app by reflexivity. by repeat split.
      * rewrite (langfuse_chat_malformed env w self h user_message session_id Hh r Hb Hc).
        intros [= <- <-]. erewrite produced_app by reflexivity. by repeat split.
  - split; [| split].
    + intros r c Hb Hc.
      rewrite (opik_chat_ok env w self h user_message session_id Hh r c Hb Hc).
      do 2 eexists. split; [reflexivity |].
      erewrite produced_app by reflexivity. by repeat split.
    + intros e Hb.
      rewrite (opik_chat_raise env w self h user_message session_id Hh e Hb).
      eexists. split; [reflexivity |].
      erewrite produced_app by reflexivity. by repeat split.
    + intros o w'.
      destruct (ollama_chat_reply env (length (backend_log w)) (Opik.model self)
                  (h ++ [mkMessage user user_message])) as [e|r] eqn:Hb;
        [| destruct (resp_message_content r) as [c|] eqn:Hc].
      * rewrite (opik_chat_raise env w self h user_message session_id Hh e Hb).
        intros [= <- <-]. erewrite produced_app by reflexivity. by repeat split.
      * rewrite (opik_chat_ok env w self h user_message session_id Hh r c Hb Hc).
        intros [= <- <-]. erewrite produced_app by reflexivity. by repeat split.
      * rewrite (opik_chat_malformed env w self h user_message session_id Hh r Hb Hc).
        intros [= <- <-]. erewrite produced_app by reflexivity. by repeat split.
Qed.

Lemma turn_samples_witness :
  (exists result w',
     Langfuse.chat langfuse_bot "hi" None (env_up false) new_session =
       (Return result, w') /\
     answered_samples (produced new_session w')) /\
  (exists w',
     Langfuse.chat langfuse_bot "hi" None env_down new_session = (Raise boom, w') /\
     failed_samples (produced new_session w')) /\
  (exists result w',
     Opik.chat opik_bot "hi" None (env_up false) new_session = (Return result, w') /\
     answered_samples (produced new_session w')) /\
  (exists w',
     Opik.chat opik_bot "hi" None env_down new_session = (Raise boom, w') /\
     failed_samples (produced new_session w')).
Proof.
  destruct turn_samples as [Hlf Hop].
  destruct (Hlf (env_up false) new_session langfuse_bot [] "hi" None eq_refl)
    as (Hup & _ & _).
  destruct (Hlf env_down new_session langfuse_bot [] "hi" None eq_refl)
    as (_ & Hdown & _).
  destruct (Hop (env_up false) new_session opik_bot [] "hi" None eq_refl)
    as (Hup' & _ & Hany).
  destruct (Hop env_down new_session opik_bot [] "hi" None eq_refl)
    as (_ & Hdown' & _).
  split; [exact (Hup hello "hello" eq_refl eq_refl) |].
  split; [exact (Hdown boom eq_refl) |].
  split; [| exact (Hdown' boom eq_refl)].
  destruct (Hup' hello "hello" eq_refl eq_refl) as (result & w' & Hrun & _).
  exists result, w'. exact (conj Hrun (Hany (Return result) w' Hrun)).
Defined.

(** C10: for an answered turn of the Langfuse or of the Opik chatbot, the
    prompt and completion counts of the result are those of the backend's
    reply, zero for a count the reply omits, and the total count of the
    result, of the token sample of type "total" and of the span attribute
    "llm.total_tokens" is their sum. *)
Theorem total_tokens_is_sum :
  (forall env w (self : Langfuse.ObservableChatbot) h user_message session_id r c,
     heap w !! Langfuse.conversation_history self = Some h ->
     ollama_chat_reply env (length (backend_log w)) (Langfuse.model self)
       (h ++ [mkMessage user user_message]) = inr r ->
     resp_message_content r = Some c ->
     exists res w' sp,
       Langfuse.chat self user_message session_id env w = (Return res, w') /\
       Langfuse.metadata_prompt_tokens res = default 0 (resp_prompt_eval_count r) /\
       Langfuse.metadata_completion_tokens res = default 0 (resp_eval_count r) /\
       Langfuse.metadata_total_tokens res =
         Langfuse.metadata_prompt_tokens res + Langfuse.metadata_completion_tokens res /\
       value <$> List.filter (is_token "total") (produced w w') =
         [Langfuse.metadata_total_tokens res] /\
       spans w' !! length (spans w) = Some sp /\
       attributes sp !! "llm.total_tokens" =
         Some (AInt (Langfuse.metadata_total_tokens res))) /\
  (forall env w (self : Opik.OpikObservableChatbot) h user_message session_id r c,
     heap w !! Opik.conversation_history self = Some h ->
     ollama_chat_reply env (length (backend_log w)) (Opik.model self)
       (h ++ [mkMessage user user_message]) = inr r ->
     resp_message_content r = Some c ->
     exists res w' sp,
       Opik.chat self user_message session_id env w = (Return res, w') /\
       Opik.metadata_prompt_tokens res = default 0 (resp_prompt_eval_count r) /\
       Opik.metadata_completion_tokens res = default 0 (resp_eval_count r) /\
       Opik.metadata_total_tokens res =
         Opik.metadata_prompt_tokens res + Opik.metadata_completion_tokens res /\
       value <$> List.filter (is_token "total") (produced w w') =
         [Opik.metadata_total_tokens res] /\
       spans w' !! length (spans w) = Some sp /\
       attributes sp !! "llm.total_tokens" =
         Some (AInt (Opik.metadata_total_tokens res))).
Proof.
  split; intros env w self h user_message session_id r c Hh Hb Hc.
  - rewrite (langfuse_chat_ok env w self h user_message session_id Hh r c Hb Hc).
    do 3 eexists. split; [reflexivity |].
    erewrite produced_app by reflexivity.
    do 4 (split; [reflexivity |]).
    split; [cbn [spans]; apply lookup_at_length |].
    cbn [attributes]. repeat (rewrite lookup_insert_ne by done).
    apply lookup_insert_eq.
  - rewrite (opik_chat_ok env w self h user_message session_id Hh r c Hb Hc).
    do 3 eexists. split; [reflexivity |].
    erewrite produced_app by reflexivity.
    do 4 (split; [reflexivity |]).
    split; [cbn [spans]; apply lookup_at_length |].
    cbn [attributes]. repeat (rewrite lookup_insert_ne by done).
    apply lookup_insert_eq.
Qed.

Lemma total_tokens_is_sum_witness :
  (exists res w',
     Langfuse.chat langfuse_bot "hi" None (env_up false) new_session = (Return res, w') /\
     Langfuse.metadata_prompt_tokens res = 3 /\
     Langfuse.metadata_completion_tokens res = 1 /\
     Langfuse.metadata_total_tokens res = 4) /\
  (exists res w',
     Opik.chat opik_bot "hi" None (env_up false) new_session = (Return res, w') /\
     Opik.metadata_prompt_tokens res = 3 /\
     Opik.metadata_completion_tokens res = 1 /\
     Opik.metadata_total_tokens res = 4).
Proof.
  split.
  - destruct (proj1 total_tokens_is_sum (env_up false) new_session langfuse_bot []
                "hi" None hello "hello" eq_refl eq_refl eq_refl)
      as (res & w' & sp & Hrun & Hp & Hq & Ht & _).
    exists res, w'. rewrite Ht, Hp, Hq. by repeat split.
  - destruct (proj2 total_tokens_is_sum (env_up false) new_session opik_bot []
                "hi" None hello "hello" eq_refl eq_refl eq_refl)
      as (res & w' & sp & Hrun & Hp & Hq & Ht & _).
    exists res, w'. rewrite Ht, Hp, Hq. by repeat split.
Defined.

(** * What the backend receives *)

Lemma langfuse_chat_sends env w (self : Langfuse.ObservableChatbot) h user_message
    session_id :
  heap w !! Langfuse.conversation_history self = Some h ->
  exists o w',
    Langfuse.chat self user_message session_id env w = (o, w') /\
    sends w w' (mkCall (Langfuse.model self) (h ++ [mkMessage user user_message]) false).
Proof.
  intros Hh.
  destruct (ollama_chat_reply env (length (backend_log w)) (Langfuse.model self)
              (h ++ [mkMessage user user_message])) as [e|r] eqn:Hb.
  - rewrite (langfuse_chat_raise env w self h user_message session_id Hh e Hb).
    by do 2 eexists.
  - destruct (resp_message_content r) as [c|] eqn:Hc.
    + rewrite (langfuse_chat_ok env w self h user_message session_id Hh r c Hb Hc).
      by do 2 eexists.
    + rewrite (langfuse_chat_malformed env w self h user_message session_id Hh r Hb Hc).
      by do 2 eexists.
Qed.

Lemma opik_chat_sends env w (self : Opik.OpikObservableChatbot) h user_message
    session_id :
  heap w !! Opik.conversation_history self = Some h ->
  exists o w',
    Opik.chat self user_message session_id env w = (o, w') /\
    sends w w' (mkCall (Opik.model self) (h ++ [mkMessage user user_message]) false).
Proof.
  intros Hh.
  destruct (ollama_chat_reply env (length (backend_log w)) (Opik.model self)
              (h ++ [mkMessage user user_message])) as [e|r] eqn:Hb.
  - rewrite (opik_chat_raise env w self h user_message session_id Hh e Hb).
    by do 2 eexists.
  - destruct (resp_message_content r) as [c|] eqn:Hc.
    + rewrite (opik_chat_ok env w self h user_message session_id Hh r c Hb Hc).
      by do 2 eexists.
    + rewrite (opik_chat_malformed env w self h user_message session_id Hh r Hb Hc).
      by do 2 eexists.
Qed.

Lemma langtrace_chat_sends env w l h message :
  heap w !! l = Some h ->
  exists o w',
    Langtrace.chat message (Some l) env w = (o, w') /\
    sends w w' (mkCall Langtrace.MODEL (h ++ [mkMessage user message]) false).
Proof.
  intros Hh.
  destruct (ollama_chat_reply env (length (backend_log w)) Langtrace.MODEL
              (h ++ [mkMessage user message])) as [e|r] eqn:Hb.
  - rewrite (langtrace_chat_raise env w l h message Hh e Hb). by do 2 eexists.
  - destruct (resp_message_content r) as [c|] eqn:Hc.
    + rewrite (langtrace_chat_ok env w l h message Hh r c Hb Hc). by do 2 eexists.
    + rewrite (langtrace_chat_malformed env w l h message Hh r Hb Hc). by do 2 eexists.
Qed.

Lemma openllmetry_chat_sends env w l h message :
  heap w !! l = Some h ->
  exists o w',
    Openllmetry.chat message (Some l) env w = (o, w') /\
    sends w w' (mkCall Openllmetry.MODEL (h ++ [mkMessage user message]) false).
Proof.
  intros Hh.
  destruct (ollama_chat_reply env (length (backend_log w)) Openllmetry.MODEL
              (h ++ [mkMessage user message])) as [e|r] eqn:Hb.
  - rewrite (openllmetry_chat_raise env w l h message Hh e Hb). by do 2 eexists.
  - destruct (resp_message_content r) as [c|] eqn:Hc.
    + rewrite (openllmetry_chat_ok env w l h message Hh r c Hb Hc). by do 2 eexists.
    + rewrite (openllmetry_chat_malformed env w l h message Hh r Hb Hc).
      by do 2 eexists.
Qed.

(** Resuming a generator that is inside the loop sends nothing. *)
Lemma langtrace_next_streaming_log env w l full s :
  backend_log (snd (Langtrace.next (Langtrace.Streaming l full s) env w)) =
    backend_log w.
Proof.
  destruct w as [hp sp me bl cr], s as [[|d ds] [e|]];
    cbn [Langtrace.next]; unfold Langtrace.loop, Langtrace.handler;
    cbn [deltas failure]; by py_eval.
Qed.

Lemma openllmetry_next_streaming_log env w l span full s :
  backend_log (snd (Openllmetry.next (Openllmetry.Streaming l span full s) env w)) =
    backend_log w.
Proof.
  destruct w as [hp sp me bl cr], s as [[|d ds] [e|]];
    openllmetry_next; by py_eval.
Qed.

Lemma langtrace_stream_sends env w l h message :
  heap w !! l = Some h ->
  exists o w',
    Langtrace.next (Langtrace.chat_stream message (Some l)) env w = (o, w') /\
    sends w w' (mkCall Langtrace.MODEL (h ++ [mkMessage user message]) true).
Proof.
  intros Hh.
  destruct (ollama_stream_reply env (length (backend_log w)) Langtrace.MODEL
              (h ++ [mkMessage user message])) as [e|s] eqn:Hb.
  - rewrite (langtrace_next_created_raise env l w h message Hh e Hb). by do 2 eexists.
  - rewrite (langtrace_next_created env l w h message Hh s Hb).
    destruct (Langtrace.next _ _ _) as [o w'] eqn:Hn.
    exists o, w'. split; [reflexivity |].
    unfold sends. change w' with (snd (o, w')). rewrite <- Hn.
    by rewrite langtrace_next_streaming_log.
Qed.

Lemma openllmetry_stream_sends env w l h message :
  heap w !! l = Some h ->
  exists o w',
    Openllmetry.next (Openllmetry.chat_stream message (Some l)) env w = (o, w') /\
    sends w w' (mkCall Openllmetry.MODEL (h ++ [mkMessage user message]) true).
Proof.
  intros Hh.
  destruct (ollama_stream_reply env (length (backend_log w)) Openllmetry.MODEL
              (h ++ [mkMessage user message])) as [e|s] eqn:Hb.
  - rewrite (openllmetry_next_created_raise env w l h message Hh e Hb).
    by do 2 eexists.
  - rewrite (openllmetry_next_created env w l h message Hh s Hb).
    destruct (Openllmetry.next _ _ _) as [o w'] eqn:Hn.
    exists o, w'. split; [reflexivity |].
    unfold sends. change w' with (snd (o, w')). rewrite <- Hn.
    by rewrite openllmetry_next_streaming_log.
Qed.

(** * Clearing the history *)

(** C7: [clear_history] binds the history of the chatbot to an empty list,
    which [get_history] then returns, and leaves the samples and the spans
    recorded so far as they are; the request of the next turn carries the
    user message of that turn and nothing else. *)
Theorem clear_then_turn :
  (forall env w (self : Langfuse.ObservableChatbot),
     exists self' w1 l,
       Langfuse.clear_history self env w = (Return self', w1) /\
       Langfuse.get_history self' env w1 = (Return l, w1) /\
       history_at w1 l = [] /\
       metrics w1 = metrics w /\ spans w1 = spans w /\
       forall user_message session_id,
       exists o w2,
         Langfuse.chat self' user_message session_id env w1 = (o, w2) /\
         sends w1 w2 (mkCall (Langfuse.model self)
                             [mkMessage user user_message] false)) /\
  (forall env w (self : Opik.OpikObservableChatbot),
     exists self' w1 l,
       Opik.clear_history self env w = (Return self', w1) /\
       Opik.get_history self' env w1 = (Return l, w1) /\
       history_at w1 l = [] /\
       metrics w1 = metrics w /\ spans w1 = spans w /\
       forall user_message session_id,
       exists o w2,
         Opik.chat self' user_message session_id env w1 = (o, w2) /\
         sends w1 w2 (mkCall (Opik.model self)
                             [mkMessage user user_message] false)).
Proof.
  split; intros env w self.
  - exists (Langfuse.mkBot (Langfuse.model self) (length (heap w))),
      (set_heap (fun hp => hp ++ [[]]) w), (length (heap w)).
    assert (Hnew : heap (set_heap (fun hp => hp ++ [[]]) w) !! length (heap w)
                   = Some []) by apply lookup_at_length.
    repeat split; try reflexivity.
    + unfold history_at. by rewrite Hnew.
    + intros user_message session_id.
      exact (langfuse_chat_sends env _
               (Langfuse.mkBot (Langfuse.model self) (length (heap w))) []
               user_message session_id Hnew).
  - exists (Opik.mkBot (Opik.model self) (length (heap w))),
      (set_heap (fun hp => hp ++ [[]]) w), (length (heap w)).
    assert (Hnew : heap (set_heap (fun hp => hp ++ [[]]) w) !! length (heap w)
                   = Some []) by apply lookup_at_length.
    repeat split; try reflexivity.
    + unfold history_at. by rewrite Hnew.
    + intros user_message session_id.
      exact (opik_chat_sends env _
               (Opik.mkBot (Opik.model self) (length (heap w))) []
               user_message session_id Hnew).
Qed.


(** * Streamed turns *)

Section LangtraceStreamRuns.
Variables (env : Env) (w : World) (l : loc) (h : History) (message : string).
Hypothesis Hh : heap w !! l = Some h.

Let sent := h ++ [mkMessage user message].
Let logged := set_backend_log (fun b => b ++ [mkCall Langtrace.MODEL sent true]).

Lemma langtrace_stream_done ds n :
  ollama_stream_reply env (length (backend_log w)) Langtrace.MODEL sent =
    inr (mkStream ds None) ->
  (length ds < n)%nat ->
  pull Langtrace.next n (Langtrace.chat_stream message (Some l)) env w =
    (Return (ds, Langtrace.Finished),
     logged (set_heap
       (insert l (h ++ [mkMessage user message; mkMessage assistant (join ds)])) w)).
Proof.
  subst sent logged. intros Hb Hn. destruct n as [|n]; [lia |].
  rewrite (pull_first _ _ _ _ _ _ _
             (langtrace_next_created env l w h message Hh _ Hb)).
  rewrite (langtrace_pull_done env l ds "" (S n) _ _
             (langtrace_started_heap l w h message Hh) Hn).
  destruct w as [hp sp me bl cr]. py_eval.
  by rewrite list_insert_insert_eq, <- app_assoc.
Qed.

Lemma langtrace_stream_fail ds e n :
  ollama_stream_reply env (length (backend_log w)) Langtrace.MODEL sent =
    inr (mkStream ds (Some e)) ->
  (length ds + 1 < n)%nat ->
  pull Langtrace.next n (Langtrace.chat_stream message (Some l)) env w =
    (Return (ds ++ [error_text e], Langtrace.Finished),
     logged (set_heap (insert l sent) w)).
Proof.
  subst sent logged. intros Hb Hn. destruct n as [|n]; [lia |].
  rewrite (pull_first _ _ _ _ _ _ _
             (langtrace_next_created env l w h message Hh _ Hb)).
  by rewrite (langtrace_pull_fail env l ds e "" (S n) _ Hn).
Qed.
End LangtraceStreamRuns.

Section OpenllmetryStreamRuns.
Variables (env : Env) (w : World) (l : loc) (h : History) (message : string).
Hypothesis Hh : heap w !! l = Some h.

Let sent := h ++ [mkMessage user message].
Let stream_attrs : gmap string AttrValue :=
  <["llm.streaming" := ABool true]> (<["llm.model" := AStr "llama3.1:8b"]> ∅).
Let after (hist : History) (sp : Span) : World :=
  mkWorld (<[l := hist]> (heap w)) (spans w ++ [sp]) (metrics w)
          (backend_log w ++ [mkCall Openllmetry.MODEL sent true]) (clock_reads w).

Lemma openllmetry_stream_done ds n :
  ollama_stream_reply env (length (backend_log w)) Openllmetry.MODEL sent =
    inr (mkStream ds None) ->
  (length ds < n)%nat ->
  pull Openllmetry.next n (Openllmetry.chat_stream message (Some l)) env w =
    (Return (ds, Openllmetry.Finished),
     after (h ++ [mkMessage user message; mkMessage assistant (join ds)])
           (mkSpan "ollama.chat.stream"
                   (<["llm.response_length" := AInt (len (join ds))]> stream_attrs)
                   UNSET [] 1)).
Proof.
  subst sent stream_attrs after. intros Hb Hn. destruct n as [|n]; [lia |].
  rewrite (pull_first _ _ _ _ _ _ _
             (openllmetry_next_created env w l h message Hh _ Hb)).
  erewrite openllmetry_pull_done;
    [ | by apply openllmetry_started_heap | by apply openllmetry_started_span
      | reflexivity | exact Hn ].
  destruct w as [hp sp me bl cr]. py_eval.
  by rewrite list_insert_insert_eq, insert_at_length, <- app_assoc.
Qed.

Lemma openllmetry_stream_fail ds e n :
  ollama_stream_reply env (length (backend_log w)) Openllmetry.MODEL sent =
    inr (mkStream ds (Some e)) ->
  (length ds + 1 < n)%nat ->
  pull Openllmetry.next n (Openllmetry.chat_stream message (Some l)) env w =
    (Return (ds ++ [error_text e], Openllmetry.Finished),
     after sent (mkSpan "ollama.chat.stream" stream_attrs ERROR [exn_type e] 1)).
Proof.
  subst sent stream_attrs after. intros Hb Hn. destruct n as [|n]; [lia |].
  rewrite (pull_first _ _ _ _ _ _ _
             (openllmetry_next_created env w l h message Hh _ Hb)).
  erewrite openllmetry_pull_fail;
    [ | by apply openllmetry_started_span | reflexivity | exact Hn ].
  destruct w as [hp sp me bl cr]. py_eval.
  by rewrite insert_at_length.
Qed.

Lemma openllmetry_stream_some ds fl k :
  ollama_stream_reply env (length (backend_log w)) Openllmetry.MODEL sent =
    inr (mkStream ds fl) ->
  (1 <= k <= length ds)%nat ->
  pull Openllmetry.next k (Openllmetry.chat_stream message (Some l)) env w =
    (Return (take k ds,
             Openllmetry.Streaming l (length (spans w)) (join (take k ds))
                                   (mkStream (drop k ds) fl)),
     after sent (mkSpan "ollama.chat.stream" stream_attrs UNSET [] 0)).
Proof.
  subst sent stream_attrs after. intros Hb [Hk1 Hk2]. destruct k as [|k]; [lia |].
  rewrite (pull_first _ _ _ _ _ _ _
             (openllmetry_next_created env w l h message Hh _ Hb)).
  rewrite (openllmetry_pull_some env l (length (spans w)) ds fl (S k) "" _ Hk2).
  by destruct w as [hp sp me bl cr].
Qed.
End OpenllmetryStreamRuns.

(** * Requests and the history *)

Lemma request_with_history_intro model stream l h m w w' h' rest :
  backend_log w' = backend_log w ++ [mkCall model (h ++ [mkMessage user m]) stream] ->
  heap w' = <[l := h']> (heap w) ->
  h' = h ++ mkMessage user m :: rest ->
  request_with_history model stream l h m w w'.
Proof. intros Hlog Hheap ->. split; [exact Hlog | by exists rest]. Qed.

Lemma history_at_inserted w w' (l : nat) h h' :
  heap w !! l = Some h -> heap w' = <[l := h']> (heap w) -> history_at w' l = h'.
Proof.
  intros Hh Hw. unfold history_at. rewrite Hw.
  by rewrite (lookup_insert_known _ _ _ _ Hh).
Qed.

Section TurnRequests.
Variables (env : Env) (w : World) (h : History) (m : string).

Lemma langfuse_request (self : Langfuse.ObservableChatbot) session_id :
  heap w !! Langfuse.conversation_history self = Some h ->
  exists o w',
    Langfuse.chat self m session_id env w = (o, w') /\
    request_with_history (Langfuse.model self) false
      (Langfuse.conversation_history self) h m w w' /\
    forall e,
      ollama_chat_reply env (length (backend_log w)) (Langfuse.model self)
        (h ++ [mkMessage user m]) = inl e ->
      o = Raise e /\
      history_at w' (Langfuse.conversation_history self) = h ++ [mkMessage user m].
Proof.
  intros Hh.
  destruct (ollama_chat_reply env (length (backend_log w)) (Langfuse.model self)
              (h ++ [mkMessage user m])) as [e|r] eqn:Hb;
    [| destruct (resp_message_content r) as [c|] eqn:Hc].
  - rewrite (langfuse_chat_raise env w self h m session_id Hh e Hb).
    do 2 eexists. split; [reflexivity |]. split.
    + by eapply (request_with_history_intro _ _ _ _ _ _ _ _ []).
    + intros e' [= <-]. split; [reflexivity |]. by eapply history_at_inserted.
  - rewrite (langfuse_chat_ok env w self h m session_id Hh r c Hb Hc).
    do 2 eexists. split; [reflexivity |]. split; [| discriminate].
    by eapply (request_with_history_intro _ _ _ _ _ _ _ _ [mkMessage assistant c]).
  - rewrite (langfuse_chat_malformed env w self h m session_id Hh r Hb Hc).
    do 2 eexists. split; [reflexivity |]. split; [| discriminate].
    by eapply (request_with_history_intro _ _ _ _ _ _ _ _ []).
Qed.

Lemma opik_request (self : Opik.OpikObservableChatbot) session_id :
  heap w !! Opik.conversation_history self = Some h ->
  exists o w',
    Opik.chat self m session_id env w = (o, w') /\
    request_with_history (Opik.model self) false
      (Opik.conversation_history self) h m w w' /\
    forall e,
      ollama_chat_reply env (length (backend_log w)) (Opik.model self)
        (h ++ [mkMessage user m]) = inl e ->
      o = Raise e /\
      history_at w' (Opik.conversation_history self) = h ++ [mkMessage user m].
Proof.
  intros Hh.
  destruct (ollama_chat_reply env (length (backend_log w)) (Opik.model self)
              (h ++ [mkMessage user m])) as [e|r] eqn:Hb;
    [| destruct (resp_message_content r) as [c|] eqn:Hc].
  - rewrite (opik_chat_raise env w self h m session_id Hh e Hb).
    do 2 eexists. split; [reflexivity |]. split.
    + by eapply (request_with_history_intro _ _ _ _ _ _ _ _ []).
    + intros e' [= <-]. split; [reflexivity |]. by eapply history_at_inserted.
  - rewrite (opik_chat_ok env w self h m session_id Hh r c Hb Hc).
    do 2 eexists. split; [reflexivity |]. split; [| discriminate].
    by eapply (request_with_history_intro _ _ _ _ _ _ _ _ [mkMessage assistant c]).
  - rewrite (opik_chat_malformed env w self h m session_id Hh r Hb Hc).
    do 2 eexists. split; [reflexivity |]. split; [| discriminate].
    by eapply (request_with_history_intro _ _ _ _ _ _ _ _ []).
Qed.

Variable l : loc.
Hypothesis Hh : heap w !! l = Some h.

Lemma langtrace_request :
  exists o w',
    Langtrace.chat m (Some l) env w = (o, w') /\
    request_with_history Langtrace.MODEL false l h m w w' /\
    forall e,
      ollama_chat_reply env (length (backend_log w)) Langtrace.MODEL
        (h ++ [mkMessage user m]) = inl e ->
      history_at w' l = h ++ [mkMessage user m].
Proof.
  destruct (ollama_chat_reply env (length (backend_log w)) Langtrace.MODEL
              (h ++ [mkMessage user m])) as [e|r] eqn:Hb;
    [| destruct (resp_message_content r) as [c|] eqn:Hc].
  - rewrite (langtrace_chat_raise env w l h m Hh e Hb).
    do 2 eexists. split; [reflexivity |]. split.
    + by eapply (request_with_history_intro _ _ _ _ _ _ _ _ []).
    + intros _ _. by eapply history_at_inserted.
  - rewrite (langtrace_chat_ok env w l h m Hh r c Hb Hc).
    do 2 eexists. split; [reflexivity |]. split; [| discriminate].
    by eapply (request_with_history_intro _ _ _ _ _ _ _ _ [mkMessage assistant c]).
  - rewrite (langtrace_chat_malformed env w l h m Hh r Hb Hc).
    do 2 eexists. split; [reflexivity |]. split; [| discriminate].
    by eapply (request_with_history_intro _ _ _ _ _ _ _ _ []).
Qed.

Lemma openllmetry_request :
  exists o w',
    Openllmetry.chat m (Some l) env w = (o, w') /\
    request_with_history Openllmetry.MODEL false l h m w w' /\
    forall e,
      ollama_chat_reply env (length (backend_log w)) Openllmetry.MODEL
        (h ++ [mkMessage user m]) = inl e ->
      history_at w' l = h ++ [mkMessage user m].
Proof.
  destruct (ollama_chat_reply env (length (backend_log w)) Openllmetry.MODEL
              (h ++ [mkMessage user m])) as [e|r] eqn:Hb;
    [| destruct (resp_message_content r) as [c|] eqn:Hc].
  - rewrite (openllmetry_chat_raise env w l h m Hh e Hb).
    do 2 eexists. split; [reflexivity |]. split.
    + by eapply (request_with_history_intro _ _ _ _ _ _ _ _ []).
    + intros _ _. by eapply history_at_inserted.
  - rewrite (openllmetry_chat_ok env w l h m Hh r c Hb Hc).
    do 2 eexists. split; [reflexivity |]. split; [| discriminate].
    by eapply (request_with_history_intro _ _ _ _ _ _ _ _ [mkMessage assistant c]).
  - rewrite (openllmetry_chat_malformed env w l h m Hh r Hb Hc).
    do 2 eexists. split; [reflexivity |]. split; [| discriminate].
    by eapply (request_with_history_intro _ _ _ _ _ _ _ _ []).
Qed.

(** The consumer of a streamed turn holds the first chunk: the request is
    out and the list ends with the user message. *)
Lemma langtrace_first_chunk d ds fl :
  ollama_stream_reply env (length (backend_log w)) Langtrace.MODEL
    (h ++ [mkMessage user m]) = inr (mkStream (d :: ds) fl) ->
  exists g w1,
    pull Langtrace.next 1 (Langtrace.chat_stream m (Some l)) env w =
      (Return ([d], g), w1) /\
    sends w w1 (mkCall Langtrace.MODEL (h ++ [mkMessage user m]) true) /\
    heap w1 = <[l := h ++ [mkMessage user m]]> (heap w).
Proof.
  intros Hb.
  rewrite (pull_first _ _ _ _ _ _ _ (langtrace_next_created env l w h m Hh _ Hb)).
  destruct w as [hp sp me bl cr].
  cbn [pull Langtrace.next]. unfold Langtrace.loop, Langtrace.handler.
  cbn [deltas failure]. py_eval. by do 2 eexists.
Qed.

Lemma openllmetry_first_chunk d ds fl :
  ollama_stream_reply env (length (backend_log w)) Openllmetry.MODEL
    (h ++ [mkMessage user m]) = inr (mkStream (d :: ds) fl) ->
  exists g w1,
    pull Openllmetry.next 1 (Openllmetry.chat_stream m (Some l)) env w =
      (Return ([d], g), w1) /\
    sends w w1 (mkCall Openllmetry.MODEL (h ++ [mkMessage user m]) true) /\
    heap w1 = <[l := h ++ [mkMessage user m]]> (heap w).
Proof.
  intros Hb.
  rewrite (openllmetry_stream_some env w l h m Hh (d :: ds) fl 1 Hb)
    by (cbn; lia).
  by do 2 eexists.
Qed.

(** A streamed turn that the consumer runs to its end. *)
Lemma langtrace_stream_request n :
  (1 < n)%nat ->
  (forall s, ollama_stream_reply env (length (backend_log w)) Langtrace.MODEL
               (h ++ [mkMessage user m]) = inr s ->
             (length (deltas s) + 1 < n)%nat) ->
  exists chunks w',
    pull Langtrace.next n (Langtrace.chat_stream m (Some l)) env w =
      (Return (chunks, Langtrace.Finished), w') /\
    request_with_history Langtrace.MODEL true l h m w w'.
Proof.
  intros Hn Hfuel.
  destruct (ollama_stream_reply env (length (backend_log w)) Langtrace.MODEL
              (h ++ [mkMessage user m])) as [e|[ds [e|]]] eqn:Hb.
  - destruct n as [|[|n]]; [lia | lia |].
    cbn [pull]. unfold bind.
    rewrite (langtrace_next_created_raise env l w h m Hh e Hb).
    cbn. do 2 eexists. split; [reflexivity |].
    by eapply (request_with_history_intro _ _ _ _ _ _ _ _ []).
  - rewrite (langtrace_stream_fail env w l h m Hh ds e n Hb) by exact (Hfuel _ eq_refl).
    do 2 eexists. split; [reflexivity |].
    by eapply (request_with_history_intro _ _ _ _ _ _ _ _ []).
  - rewrite (langtrace_stream_done env w l h m Hh ds n Hb)
      by (specialize (Hfuel _ eq_refl); cbn in Hfuel; lia).
    do 2 eexists. split; [reflexivity |].
    by eapply (request_with_history_intro _ _ _ _ _ _ _ _
                 [mkMessage assistant (join ds)]).
Qed.

Lemma openllmetry_stream_request n :
  (1 < n)%nat ->
  (forall s, ollama_stream_reply env (length (backend_log w)) Openllmetry.MODEL
               (h ++ [mkMessage user m]) = inr s ->
             (length (deltas s) + 1 < n)%nat) ->
  exists chunks w',
    pull Openllmetry.next n (Openllmetry.chat_stream m (Some l)) env w =
      (Return (chunks, Openllmetry.Finished), w') /\
    request_with_history Openllmetry.MODEL true l h m w w'.
Proof.
  intros Hn Hfuel.
  destruct (ollama_stream_reply env (length (backend_log w)) Openllmetry.MODEL
              (h ++ [mkMessage user m])) as [e|[ds [e|]]] eqn:Hb.
  - destruct n as [|[|n]]; [lia | lia |].
    cbn [pull]. unfold bind.
    rewrite (openllmetry_next_created_raise env w l h m Hh e Hb).
    cbn. do 2 eexists. split; [reflexivity |].
    by eapply (request_with_history_intro _ _ _ _ _ _ _ _ []).
  - rewrite (openllmetry_stream_fail env w l h m Hh ds e n Hb) by exact (Hfuel _ eq_refl).
    do 2 eexists. split; [reflexivity |].
    by eapply (request_with_history_intro _ _ _ _ _ _ _ _ []).
  - rewrite (openllmetry_stream_done env w l h m Hh ds n Hb)
      by (specialize (Hfuel _ eq_refl); cbn in Hfuel; lia).
    do 2 eexists. split; [reflexivity |].
    by eapply (request_with_history_intro _ _ _ _ _ _ _ _
                 [mkMessage assistant (join ds)]).
Qed.
End TurnRequests.

(** C8: in every turn the user message is in the history when the backend
    is called, and the request carries the history before the turn, in order,
    followed by that message.  A turn of [chat], in each of the four demos,
    sends this one request and leaves the user message in the list, right
    after the elements the list had, and no other list changed; when the
    backend call raises, the list ends with the user message: it was appended
    before the call, not after an answer.  In a streamed turn, when the
    consumer holds the first chunk the request has been sent and the list is
    the old history followed by the user message; a consumer that runs the
    generator to its end has seen this one request and no other. *)
Theorem backend_receives_history :
  (forall env w (self : Langfuse.ObservableChatbot) h user_message session_id,
     heap w !! Langfuse.conversation_history self = Some h ->
     exists o w',
       Langfuse.chat self user_message session_id env w = (o, w') /\
       request_with_history (Langfuse.model self) false
         (Langfuse.conversation_history self) h user_message w w' /\
       forall e,
         ollama_chat_reply env (length (backend_log w)) (Langfuse.model self)
           (h ++ [mkMessage user user_message]) = inl e ->
         o = Raise e /\
         history_at w' (Langfuse.conversation_history self) =
           h ++ [mkMessage user user_message]) /\
  (forall env w (self : Opik.OpikObservableChatbot) h user_message session_id,
     heap w !! Opik.conversation_history self = Some h ->
     exists o w',
       Opik.chat self user_message session_id env w = (o, w') /\
       request_with_history (Opik.model self) false
         (Opik.conversation_history self) h user_message w w' /\
       forall e,
         ollama_chat_reply env (length (backend_log w)) (Opik.model self)
           (h ++ [mkMessage user user_message]) = inl e ->
         o = Raise e /\
         history_at w' (Opik.conversation_history self) =
           h ++ [mkMessage user user_message]) /\
  (forall env w l h message,
     heap w !! l = Some h ->
     (exists o w',
        Langtrace.chat message (Some l) env w = (o, w') /\
        request_with_history Langtrace.MODEL false l h message w w' /\
        forall e,
          ollama_chat_reply env (length (backend_log w)) Langtrace.MODEL
            (h ++ [mkMessage user message]) = inl e ->
          history_at w' l = h ++ [mkMessage user message]) /\
     (forall d ds fl,
        ollama_stream_reply env (length (backend_log w)) Langtrace.MODEL
          (h ++ [mkMessage user message]) = inr (mkStream (d :: ds) fl) ->
        exists g w1,
          pull Langtrace.next 1 (Langtrace.chat_stream message (Some l)) env w =
            (Return ([d], g), w1) /\
          sends w w1 (mkCall Langtrace.MODEL (h ++ [mkMessage user message]) true) /\
          heap w1 = <[l := h ++ [mkMessage user message]]> (heap w)) /\
     (forall n,
        (1 < n)%nat ->
        (forall s,
           ollama_stream_reply env (length (backend_log w)) Langtrace.MODEL
             (h ++ [mkMessage user message]) = inr s ->
           (length (deltas s) + 1 < n)%nat) ->
        exists chunks w',
          pull Langtrace.next n (Langtrace.chat_stream message (Some l)) env w =
            (Return (chunks, Langtrace.Finished), w') /\
          request_with_history Langtrace.MODEL true l h message w w')) /\
  (forall env w l h message,
     heap w !! l = Some h ->
     (exists o w',
        Openllmetry.chat message (Some l) env w = (o, w') /\
        request_with_history Openllmetry.MODEL false l h message w w' /\
        forall e,
          ollama_chat_reply env (length (backend_log w)) Openllmetry.MODEL
            (h ++ [mkMessage user message]) = inl e ->
          history_at w' l = h ++ [mkMessage user message]) /\
     (forall d ds fl,
        ollama_stream_reply env (length (backend_log w)) Openllmetry.MODEL
          (h ++ [mkMessage user message]) = inr (mkStream (d :: ds) fl) ->
        exists g w1,
          pull Openllmetry.next 1 (Openllmetry.chat_stream message (Some l)) env w =
            (Return ([d], g), w1) /\
          sends w w1 (mkCall Openllmetry.MODEL (h ++ [mkMessage user message]) true) /\
          heap w1 = <[l := h ++ [mkMessage user message]]> (heap w)) /\
     (forall n,
        (1 < n)%nat ->
        (forall s,
           ollama_stream_reply env (length (backend_log w)) Openllmetry.MODEL
             (h ++ [mkMessage user message]) = inr s ->
           (length (deltas s) + 1 < n)%nat) ->
        exists chunks w',
          pull Openllmetry.next n (Openllmetry.chat_stream message (Some l)) env w =
            (Return (chunks, Openllmetry.Finished), w') /\
          request_with_history Openllmetry.MODEL true l h message w w')).
Proof.
  split; [| split; [| split]].
  - intros env w self h user_message session_id. apply langfuse_request.
  - intros env w self h user_message session_id. apply opik_request.
  - intros env w l h message Hh. split; [| split].
    + by apply langtrace_request.
    + intros d ds fl. by apply langtrace_first_chunk.
    + intros n. by apply langtrace_stream_request.
  - intros env w l h message Hh. split; [| split].
    + by apply openllmetry_request.
    + intros d ds fl. by apply openllmetry_first_chunk.
    + intros n. by apply openllmetry_stream_request.
Qed.

Lemma backend_receives_history_witness :
  (exists w',
     Langfuse.chat langfuse_bot "more" None env_down second_session = (Raise boom, w') /\
     request_with_history "m1" false session_list first_turn "more" second_session w' /\
     history_at w' session_list = first_turn ++ [mkMessage user "more"]) /\
  (exists w',
     Opik.chat opik_bot "more" None env_down second_session = (Raise boom, w') /\
     request_with_history "m1" false session_list first_turn "more" second_session w' /\
     history_at w' session_list = first_turn ++ [mkMessage user "more"]) /\
  (exists o w',
     Langtrace.chat "more" (Some session_list) env_down second_session = (o, w') /\
     request_with_history Langtrace.MODEL false session_list first_turn "more"
       second_session w' /\
     history_at w' session_list = first_turn ++ [mkMessage user "more"]) /\
  (exists g w1,
     pull Langtrace.next 1 (Langtrace.chat_stream "more" (Some session_list))
          (env_up false) second_session = (Return (["he"], g), w1) /\
     backend_log w1 =
       [mkCall Langtrace.MODEL (first_turn ++ [mkMessage user "more"]) true] /\
     heap w1 = [first_turn ++ [mkMessage user "more"]]) /\
  (exists chunks w',
     pull Langtrace.next 5 (Langtrace.chat_stream "more" (Some session_list))
          (env_up false) second_session = (Return (chunks, Langtrace.Finished), w') /\
     request_with_history Langtrace.MODEL true session_list first_turn "more"
       second_session w') /\
  (exists o w',
     Openllmetry.chat "more" (Some session_list) env_down second_session = (o, w') /\
     request_with_history Openllmetry.MODEL false session_list first_turn "more"
       second_session w' /\
     history_at w' session_list = first_turn ++ [mkMessage user "more"]) /\
  (exists g w1,
     pull Openllmetry.next 1 (Openllmetry.chat_stream "more" (Some session_list))
          env_down second_session = (Return (["he"], g), w1) /\
     backend_log w1 =
       [mkCall Openllmetry.MODEL (first_turn ++ [mkMessage user "more"]) true] /\
     heap w1 = [first_turn ++ [mkMessage user "more"]]) /\
  (exists chunks w',
     pull Openllmetry.next 5 (Openllmetry.chat_stream "more" (Some session_list))
          env_down second_session = (Return (chunks, Openllmetry.Finished), w') /\
     request_with_history Openllmetry.MODEL true session_list first_turn "more"
       second_session w').
Proof.
  destruct backend_receives_history as (Hlf & Hop & Hlt & Hol).
  destruct (Hlt env_down second_session session_list first_turn "more" eq_refl)
    as (Hlt_chat & _ & _).
  destruct (Hlt (env_up false) second_session session_list first_turn "more" eq_refl)
    as (_ & Hlt_first & Hlt_run).
  destruct (Hol env_down second_session session_list first_turn "more" eq_refl)
    as (Hol_chat & Hol_first & Hol_run).
  repeat apply conj.
  - destruct (Hlf env_down second_session langfuse_bot first_turn "more" None eq_refl)
      as (o & w' & Hrun & Hreq & Hfail).
    destruct (Hfail boom eq_refl) as [-> Hhist]. by exists w'.
  - destruct (Hop env_down second_session opik_bot first_turn "more" None eq_refl)
      as (o & w' & Hrun & Hreq & Hfail).
    destruct (Hfail boom eq_refl) as [-> Hhist]. by exists w'.
  - destruct Hlt_chat as (o & w' & Hrun & Hreq & Hfail).
    exists o, w'. exact (conj Hrun (conj Hreq (Hfail boom eq_refl))).
  - exact (Hlt_first "he" ["l"; "lo"] None eq_refl).
  - apply (Hlt_run 5%nat); [lia |]. intros s [= <-]. cbn. lia.
  - destruct Hol_chat as (o & w' & Hrun & Hreq & Hfail).
    exists o, w'. exact (conj Hrun (conj Hreq (Hfail boom eq_refl))).
  - exact (Hol_first "he" [] (Some boom) eq_refl).
  - apply (Hol_run 5%nat); [lia |]. intros s [= <-]. cbn. lia.
Defined.

(** C4: when the backend completes a streamed turn, the chunks yielded to a
    consumer that runs the generator to its end are the chunks of the backend,
    in order; their concatenation is the content of the assistant message
    appended to the history at the end of the stream, and it is what [chat]
    returns for the same input when the server, in the same state, gives a
    non-streamed reply with the same content. *)
Theorem stream_content_equivalence :
  (forall env w l h message ds r n,
     heap w !! l = Some h ->
     ollama_stream_reply env (length (backend_log w)) Langtrace.MODEL
       (h ++ [mkMessage user message]) = inr (mkStream ds None) ->
     ollama_chat_reply env (length (backend_log w)) Langtrace.MODEL
       (h ++ [mkMessage user message]) = inr r ->
     resp_message_content r = Some (join ds) ->
     (length ds < n)%nat ->
     exists yielded w_stream w_chat,
       pull Langtrace.next n (Langtrace.chat_stream message (Some l)) env w =
         (Return (yielded, Langtrace.Finished), w_stream) /\
       Langtrace.chat message (Some l) env w = (Return (join yielded), w_chat) /\
       heap w_stream =
         <[l := h ++ [mkMessage user message; mkMessage assistant (join yielded)]]>
           (heap w) /\
       yielded = ds) /\
  (forall env w l h message ds r n,
     heap w !! l = Some h ->
     ollama_stream_reply env (length (backend_log w)) Openllmetry.MODEL
       (h ++ [mkMessage user message]) = inr (mkStream ds None) ->
     ollama_chat_reply env (length (backend_log w)) Openllmetry.MODEL
       (h ++ [mkMessage user message]) = inr r ->
     resp_message_content r = Some (join ds) ->
     (length ds < n)%nat ->
     exists yielded w_stream w_chat,
       pull Openllmetry.next n (Openllmetry.chat_stream message (Some l)) env w =
         (Return (yielded, Openllmetry.Finished), w_stream) /\
       Openllmetry.chat message (Some l) env w = (Return (join yielded), w_chat) /\
       heap w_stream =
         <[l := h ++ [mkMessage user message; mkMessage assistant (join yielded)]]>
           (heap w) /\
       yielded = ds).
Proof.
  split; intros env w l h message ds r n Hh Hs Hb Hc Hn.
  - rewrite (langtrace_stream_done env w l h message Hh ds n Hs Hn).
    rewrite (langtrace_chat_ok env w l h message Hh r (join ds) Hb Hc).
    do 3 eexists. by repeat split.
  - rewrite (openllmetry_stream_done env w l h message Hh ds n Hs Hn).
    rewrite (openllmetry_chat_ok env w l h message Hh r (join ds) Hb Hc).
    do 3 eexists. by repeat split.
Qed.

Lemma stream_content_equivalence_witness :
  (exists w_stream w_chat,
     pull Langtrace.next 4 (Langtrace.chat_stream "hi" (Some session_list))
          (env_up false) new_session =
       (Return (["he"; "l"; "lo"], Langtrace.Finished), w_stream) /\
     Langtrace.chat "hi" (Some session_list) (env_up false) new_session =
       (Return "hello", w_chat) /\
     heap w_stream = [[mkMessage user "hi"; mkMessage assistant "hello"]]) /\
  (exists w_stream w_chat,
     pull Openllmetry.next 4 (Openllmetry.chat_stream "hi" (Some session_list))
          (env_up false) new_session =
       (Return (["he"; "l"; "lo"], Openllmetry.Finished), w_stream) /\
     Openllmetry.chat "hi" (Some session_list) (env_up false) new_session =
       (Return "hello", w_chat) /\
     heap w_stream = [[mkMessage user "hi"; mkMessage assistant "hello"]]).
Proof.
  split.
  - destruct (proj1 stream_content_equivalence (env_up false) new_session
                session_list [] "hi" hello_chunks hello 4%nat
                eq_refl eq_refl eq_refl eq_refl (le_n 4))
      as (yielded & w_stream & w_chat & Hrun & Hchat & Hheap & ->).
    by exists w_stream, w_chat.
  - destruct (proj2 stream_content_equivalence (env_up false) new_session
                session_list [] "hi" hello_chunks hello 4%nat
                eq_refl eq_refl eq_refl eq_refl (le_n 4))
      as (yielded & w_stream & w_chat & Hrun & Hchat & Hheap & ->).
    by exists w_stream, w_chat.
Defined.

(** C5: when the backend raises [e] while a streamed turn is iterating, after
    the chunks [ds], a consumer that runs the generator to its end receives
    [ds] followed by one last item, the text "Error: " and the message of
    [e]; no assistant message is appended: the history is the one before the
    turn followed by the user message. *)
Theorem broken_stream :
  (forall env w l h message ds e n,
     heap w !! l = Some h ->
     ollama_stream_reply env (length (backend_log w)) Langtrace.MODEL
       (h ++ [mkMessage user message]) = inr (mkStream ds (Some e)) ->
     (length ds + 1 < n)%nat ->
     exists w',
       pull Langtrace.next n (Langtrace.chat_stream message (Some l)) env w =
         (Return (ds ++ [error_text e], Langtrace.Finished), w') /\
       heap w' = <[l := h ++ [mkMessage user message]]> (heap w)) /\
  (forall env w l h message ds e n,
     heap w !! l = Some h ->
     ollama_stream_reply env (length (backend_log w)) Openllmetry.MODEL
       (h ++ [mkMessage user message]) = inr (mkStream ds (Some e)) ->
     (length ds + 1 < n)%nat ->
     exists w',
       pull Openllmetry.next n (Openllmetry.chat_stream message (Some l)) env w =
         (Return (ds ++ [error_text e], Openllmetry.Finished), w') /\
       heap w' = <[l := h ++ [mkMessage user message]]> (heap w)).
Proof.
  split; intros env w l h message ds e n Hh Hs Hn.
  - rewrite (langtrace_stream_fail env w l h message Hh ds e n Hs Hn).
    by eexists.
  - rewrite (openllmetry_stream_fail env w l h message Hh ds e n Hs Hn).
    by eexists.
Qed.

Lemma broken_stream_witness :
  (exists w',
     pull Langtrace.next 3 (Langtrace.chat_stream "hi" (Some session_list))
          env_down new_session =
       (Return (["he"; "Error: connection refused"], Langtrace.Finished), w') /\
     heap w' = [[mkMessage user "hi"]]) /\
  (exists w',
     pull Openllmetry.next 3 (Openllmetry.chat_stream "hi" (Some session_list))
          env_down new_session =
       (Return (["he"; "Error: connection refused"], Openllmetry.Finished), w') /\
     heap w' = [[mkMessage user "hi"]]).
Proof.
  split.
  - exact (proj1 broken_stream env_down new_session session_list [] "hi" ["he"]
                 boom 3%nat eq_refl eq_refl (le_n 3)).
  - exact (proj2 broken_stream env_down new_session session_list [] "hi" ["he"]
                 boom 3%nat eq_refl eq_refl (le_n 3)).
Defined.

(** * Abandoned streams *)

(** C9, as stated, fails: the span of a stream abandoned after one chunk ends
    with the status of a stream that ran to its end ([UNSET]) or, when the
    tracing library records [GeneratorExit], with the status of a stream that
    broke ([ERROR]); no status tells a cancelled stream apart. *)
Lemma cancelled_status_not_distinguished :
  (span_status (snd (cancel_after 1 hi_stream (env_up false) new_session)) 0
     = Some UNSET /\
   span_status (snd (pull Openllmetry.next 4 hi_stream (env_up false) new_session)) 0
     = Some UNSET) /\
  (span_status (snd (cancel_after 1 hi_stream (env_up true) new_session)) 0
     = Some ERROR /\
   span_status (snd (pull Openllmetry.next 3 hi_stream env_down new_session)) 0
     = Some ERROR).
Proof. repeat split; vm_compute; reflexivity. Qed.

(** C9 (amended): when the consumer of a streamed turn of the OpenLLMetry
    demo has taken some but not all chunks, the span of the turn is open;
    when the generator is then closed, the span is ended, once, by the [with]
    block, and the generator is finished, so that no later call ends the span
    again.  The status of the span is not a status of its own: it is [UNSET],
    or [ERROR] when the tracing library records [GeneratorExit].  No
    assistant message is appended. *)
Theorem abandoned_stream_span :
  forall env w l h message ds fl k,
    heap w !! l = Some h ->
    ollama_stream_reply env (length (backend_log w)) Openllmetry.MODEL
      (h ++ [mkMessage user message]) = inr (mkStream ds fl) ->
    (1 <= k <= length ds)%nat ->
    exists g1 w1 sp1 w2 sp2,
      pull Openllmetry.next k (Openllmetry.chat_stream message (Some l)) env w =
        (Return (take k ds, g1), w1) /\
      spans w1 !! length (spans w) = Some sp1 /\ end_calls sp1 = 0%nat /\
      cancel_after k (Openllmetry.chat_stream message (Some l)) env w =
        (Return Openllmetry.Finished, w2) /\
      Openllmetry.close g1 env w1 = (Return Openllmetry.Finished, w2) /\
      spans w2 !! length (spans w) = Some sp2 /\ end_calls sp2 = 1%nat /\
      status sp2 = (if use_span_records_base_exception env then ERROR else UNSET) /\
      heap w2 = <[l := h ++ [mkMessage user message]]> (heap w) /\
      Openllmetry.close Openllmetry.Finished env w2 = (Return Openllmetry.Finished, w2) /\
      Openllmetry.next Openllmetry.Finished env w2 =
        (Return (None, Openllmetry.Finished), w2).
Proof.
  intros env w l h message ds fl k Hh Hs Hk.
  pose proof (openllmetry_stream_some env w l h message Hh ds fl k Hs Hk) as Hrun.
  cbv beta in Hrun.
  match type of Hrun with _ = (_, ?W) => set (w1 := W) in * end.
  epose proof (openllmetry_close_streaming env l (length (spans w)) _ _ w1 _
                 (lookup_at_length _ _ _) eq_refl) as Hclose.
  cbn [span_name attributes status recorded] in Hclose.
  eexists _, w1, _, _, _.
  split; [exact Hrun |].
  split; [apply lookup_at_length |].
  split; [reflexivity |].
  split; [unfold cancel_after, bind; rewrite Hrun; exact Hclose |].
  split; [exact Hclose |].
  subst w1. cbn [set_spans spans heap]. rewrite insert_at_length.
  split; [apply lookup_at_length |].
  destruct (use_span_records_base_exception env); by repeat split.
Qed.

Lemma abandoned_stream_span_witness :
  exists g1 w1 w2 sp2,
    pull Openllmetry.next 1 (Openllmetry.chat_stream "hi" (Some session_list))
         (env_up false) new_session = (Return (["he"], g1), w1) /\
    Openllmetry.close g1 (env_up false) w1 = (Return Openllmetry.Finished, w2) /\
    spans w2 !! 0%nat = Some sp2 /\ end_calls sp2 = 1%nat /\ status sp2 = UNSET.
Proof.
  destruct (abandoned_stream_span (env_up false) new_session session_list [] "hi"
              hello_chunks None 1%nat eq_refl eq_refl
              (conj (le_n 1) (le_S _ _ (le_S _ _ (le_n 1)))))
    as (g1 & w1 & sp1 & w2 & sp2 & Hrun & _ & _ & _ & Hclose & Hsp & Hend & Hst & _).
  exists g1, w1, w2, sp2. by repeat split.
Defined.

(** * The collector endpoint of the Opik demo *)

Lemma append_String c s t : String c s +:+ t = String c (s +:+ t).
Proof. reflexivity. Qed.

Lemma rstrip_no_slash s t : OpikSetup.rstrip_slash s <> t +:+ "/".
Proof.
  revert t. induction s as [|c s IH]; intros t.
  - destruct t; discriminate.
  - cbn [OpikSetup.rstrip_slash]. destruct (OpikSetup.rstrip_slash s) as [|k kept] eqn:E.
    + destruct (Ascii.eqb_spec c "/"%char) as [->|Hc].
      * destruct t; discriminate.
      * destruct t as [|a t]; rewrite ?append_String.
        -- intros [= H]. by apply Hc.
        -- intros [= _ H]; destruct t; discriminate.
    + destruct t as [|a t]; rewrite ?append_String.
      * intros [= _ H]; discriminate.
      * intros [= _ H]. by apply (IH t).
Qed.

Lemma rstrip_idem s :
  OpikSetup.rstrip_slash (OpikSetup.rstrip_slash s) = OpikSetup.rstrip_slash s.
Proof.
  induction s as [|c s IH]; [reflexivity |].
  cbn [OpikSetup.rstrip_slash]. destruct (OpikSetup.rstrip_slash s) as [|k kept] eqn:E.
  - destruct (Ascii.eqb_spec c "/"%char) as [->|Hc]; [reflexivity |].
    cbn [OpikSetup.rstrip_slash]. by destruct (Ascii.eqb_spec c "/"%char).
  - cbn [OpikSetup.rstrip_slash] in *. by rewrite IH.
Qed.

Lemma rstrip_append p s :
  OpikSetup.rstrip_slash s <> "" ->
  OpikSetup.rstrip_slash (p +:+ s) = p +:+ OpikSetup.rstrip_slash s.
Proof.
  intros Hs. induction p as [|c p IH]; [reflexivity |].
  rewrite !append_String. cbn [OpikSetup.rstrip_slash]. rewrite IH.
  destruct (p +:+ OpikSetup.rstrip_slash s) eqn:E; [| reflexivity].
  destruct p; [by cbn in E | discriminate].
Qed.

Lemma rstrip_slashes n : OpikSetup.rstrip_slash (slashes n) = "".
Proof.
  induction n as [|n IH]; [reflexivity |].
  cbn [slashes OpikSetup.rstrip_slash]. by rewrite IH.
Qed.

Lemma rstrip_append_slashes p n :
  OpikSetup.rstrip_slash (p +:+ slashes n) = OpikSetup.rstrip_slash p.
Proof.
  induction p as [|c p IH]; [apply rstrip_slashes |].
  rewrite append_String. cbn [OpikSetup.rstrip_slash]. by rewrite IH.
Qed.

Lemma list_of_append s t :
  String.list_ascii_of_string (s +:+ t) =
    String.list_ascii_of_string s ++ String.list_ascii_of_string t.
Proof. induction s as [|c s IH]; [reflexivity |]. cbn. by rewrite <- IH. Qed.

Lemma append_cancel_r s t u : s +:+ u = t +:+ u -> s = t.
Proof.
  intros H. apply (f_equal String.list_ascii_of_string) in H.
  rewrite !list_of_append in H. apply app_inv_tail in H.
  apply (f_equal String.string_of_list_ascii) in H.
  by rewrite !String.string_of_list_ascii_of_string in H.
Qed.

Lemma slashes_no_scheme n : OpikSetup.has_scheme (slashes n) = false.
Proof. by destruct n. Qed.

(** X1: whatever [OTEL_COLLECTOR_ENDPOINT] holds, the endpoint that
    [setup_opentelemetry] works with does not end in a slash, so the address
    of the trace exporter does not end in "//v1/traces" and that of the
    metric exporter does not end in "//v1/metrics": the path is joined to
    the endpoint by one slash. *)
Theorem endpoint_no_trailing_slash e t :
  OpikSetup.endpoint e <> t +:+ "/" /\
  OpikSetup.traces_endpoint e <> t +:+ "//v1/traces" /\
  OpikSetup.metrics_endpoint e <> t +:+ "//v1/metrics".
Proof.
  assert (H : OpikSetup.endpoint e <> t +:+ "/") by apply rstrip_no_slash.
  split; [exact H |]. split; intros E; apply H.
  - apply (append_cancel_r _ _ "/v1/traces"). unfold OpikSetup.traces_endpoint in E.
    rewrite E. by rewrite append_assoc.
  - apply (append_cancel_r _ _ "/v1/metrics"). unfold OpikSetup.metrics_endpoint in E.
    rewrite E. by rewrite append_assoc.
Qed.

Lemma prefix_append p rest : String.prefix p (p +:+ rest) = true.
Proof.
  induction p as [|c p IH]; [by destruct rest |].
  rewrite append_String. cbn [String.prefix].
  by destruct (ascii_dec c c).
Qed.

Lemma has_scheme_http rest : OpikSetup.has_scheme ("http://" +:+ rest) = true.
Proof. unfold OpikSetup.has_scheme, OpikSetup.startswith. by rewrite prefix_append. Qed.

Lemma has_scheme_https rest : OpikSetup.has_scheme ("https://" +:+ rest) = true.
Proof.
  unfold OpikSetup.has_scheme, OpikSetup.startswith. rewrite (prefix_append "https://").
  apply orb_true_r.
Qed.

(** X2: an endpoint given without a scheme gets "http://" in front, and one
    that starts with "http://" or "https://" keeps its scheme; what follows
    the scheme is the given text without its trailing slashes, as long as that
    text does not consist of slashes only. *)
Theorem endpoint_scheme :
  (forall e, OpikSetup.has_scheme e = false -> OpikSetup.rstrip_slash e <> "" ->
     OpikSetup.endpoint e = "http://" +:+ OpikSetup.rstrip_slash e) /\
  (forall rest, OpikSetup.rstrip_slash rest <> "" ->
     OpikSetup.endpoint ("http://" +:+ rest) = "http://" +:+ OpikSetup.rstrip_slash rest /\
     OpikSetup.endpoint ("https://" +:+ rest) = "https://" +:+ OpikSetup.rstrip_slash rest).
Proof.
  split.
  - intros e Hs He. unfold OpikSetup.endpoint. rewrite Hs. cbn [negb].
    by apply rstrip_append.
  - intros rest Hr. split; unfold OpikSetup.endpoint.
    + rewrite has_scheme_http.
      cbn [negb]. by apply rstrip_append.
    + rewrite has_scheme_https.
      cbn [negb]. by apply rstrip_append.
Qed.

Lemma endpoint_scheme_witness :
  OpikSetup.endpoint "localhost:4318/" = "http://localhost:4318" /\
  OpikSetup.endpoint "https://collector:4318//" = "https://collector:4318".
Proof.
  split.
  - exact (proj1 endpoint_scheme "localhost:4318/" eq_refl ltac:(discriminate)).
  - exact (proj2 (proj2 endpoint_scheme "collector:4318//" ltac:(discriminate))).
Defined.

(** X3: when the given text, after an optional scheme, consists of slashes
    only, [rstrip] also takes the two slashes of the scheme: the endpoint is
    "http:" or "https:", and the address of the trace exporter is
    "http:/v1/traces". *)
Theorem endpoint_only_slashes n :
  OpikSetup.endpoint (slashes n) = "http:" /\
  OpikSetup.endpoint ("http://" +:+ slashes n) = "http:" /\
  OpikSetup.endpoint ("https://" +:+ slashes n) = "https:" /\
  OpikSetup.traces_endpoint (slashes n) = "http:/v1/traces".
Proof.
  assert (H1 : OpikSetup.endpoint (slashes n) = "http:").
  { unfold OpikSetup.endpoint. rewrite slashes_no_scheme. cbn [negb].
    by rewrite rstrip_append_slashes. }
  split; [exact H1 |]. split; [| split].
  - unfold OpikSetup.endpoint. rewrite has_scheme_http.
    cbn [negb]. by rewrite rstrip_append_slashes.
  - unfold OpikSetup.endpoint. rewrite has_scheme_https.
    cbn [negb]. by rewrite rstrip_append_slashes.
  - unfold OpikSetup.traces_endpoint. by rewrite H1.
Qed.

(** X4: an endpoint that has been normalised and still has its scheme is
    left as it is when it is normalised again. *)
Theorem endpoint_idempotent e :
  OpikSetup.has_scheme (OpikSetup.endpoint e) = true ->
  OpikSetup.endpoint (OpikSetup.endpoint e) = OpikSetup.endpoint e.
Proof.
  intros H. unfold OpikSetup.endpoint at 1. rewrite H. cbn [negb].
  unfold OpikSetup.endpoint. apply rstrip_idem.
Qed.

Lemma endpoint_idempotent_witness :
  OpikSetup.endpoint (OpikSetup.endpoint "localhost:4318/") =
    OpikSetup.endpoint "localhost:4318/".
Proof. exact (endpoint_idempotent "localhost:4318/" eq_refl). Defined.

(** Without its scheme it is given the prefix again: the endpoint of the
    empty string is "http:", whose endpoint is "http://http:". *)
Example endpoint_not_idempotent :
  OpikSetup.endpoint (OpikSetup.endpoint "") <> OpikSetup.endpoint "".
Proof. discriminate. Qed.

(** * The loops of [main] *)

Lemma bind_run {A B} (m : M A) (k : A -> M B) env w a w1 :
  m env w = (Return a, w1) -> bind m k env w = k a env w1.
Proof. intros H. unfold bind. by rewrite H. Qed.

Lemma is_exit_not_blank x : is_exit x = true -> String.eqb x "" = false.
Proof. by destruct x. Qed.

Section MainLoopFacts.
Context {G : Type}.
Variable chat : string -> option loc -> M string.
Variable chat_stream : string -> option loc -> G.
Variable next : G -> M (option string * G).
Variable rounds_left : G -> nat.
Variable model : string.
Hypothesis Hchat : turn_spec model false (fun m l => chat m (Some l)).
Hypothesis Hstream :
  turn_spec model true (fun m l => for_chunk next rounds_left (chat_stream m (Some l))).

Let loop := main_loop chat chat_stream next rounds_left.

Lemma main_loop_runs inputs : forall ch us env w,
  is_Some (heap w !! ch) ->
  exists o w' calls,
    loop inputs ch us env w = (o, w') /\
    backend_log w' = backend_log w ++ calls /\
    Forall2 (request_of model) calls (spoken us inputs) /\
    (existsb is_exit inputs = true -> exists final, o = Return final) /\
    (existsb is_exit inputs = false -> o = Raise EOFError).
Proof.
  subst loop. induction inputs as [|x inputs IH]; intros ch us env w Hch.
  - exists (Raise EOFError), w, []. cbn. rewrite app_nil_r.
    repeat split; [constructor | discriminate].
  - cbn [main_loop spoken existsb].
    destruct (String.eqb x "") eqn:Hblank.
    { apply String.eqb_eq in Hblank. subst x. by apply IH. }
    destruct (is_exit x) eqn:Hexit.
    { exists (Return (ch, us)), w, []. cbn. rewrite app_nil_r.
      repeat split; [constructor | by eexists | discriminate]. }
    cbn [orb].
    destruct (String.eqb (lower x) "clear") eqn:Hclear.
    { rewrite (bind_run new_list _ env w (length (heap w))
                 (set_heap (fun hp => hp ++ [[]]) w) eq_refl).
      destruct (IH (length (heap w)) us env (set_heap (fun hp => hp ++ [[]]) w))
        as (o & w' & calls & Hloop & Hlog' & Hreq & Hout).
      { cbn [heap set_heap]. rewrite lookup_at_length. by eexists. }
      exists o, w', calls. split; [exact Hloop |]. split; [exact Hlog' |].
      split; [exact Hreq | exact Hout]. }
    destruct (String.eqb (lower x) "stream") eqn:Hmode.
    { by apply IH. }
    destruct Hch as [h Hh].
    destruct us.
    + destruct (Hstream env w ch h x Hh) as (a & h' & w1 & Hrun & Hheap & Hlog & _).
      cbn beta in Hrun. rewrite (bind_run _ _ env w a w1 Hrun).
      destruct (IH ch true env w1) as (o & w' & calls & Hloop & Hlog' & Hreq & Hout).
      { rewrite Hheap. rewrite (lookup_insert_known _ _ _ _ Hh). by eexists. }
      exists o, w', (mkCall model (h ++ [mkMessage user x]) true :: calls).
      split; [exact Hloop |]. split; [by rewrite Hlog', Hlog, <- app_assoc |].
      split; [| exact Hout].
      constructor; [| exact Hreq]. repeat split. cbn. apply last_snoc.
    + destruct (Hchat env w ch h x Hh) as (a & h' & w1 & Hrun & Hheap & Hlog & _).
      cbn beta in Hrun. rewrite (bind_run _ _ env w a w1 Hrun).
      destruct (IH ch false env w1) as (o & w' & calls & Hloop & Hlog' & Hreq & Hout).
      { rewrite Hheap. rewrite (lookup_insert_known _ _ _ _ Hh). by eexists. }
      exists o, w', (mkCall model (h ++ [mkMessage user x]) false :: calls).
      split; [exact Hloop |]. split; [by rewrite Hlog', Hlog, <- app_assoc |].
      split; [| exact Hout].
      constructor; [| exact Hreq]. repeat split. cbn. apply last_snoc.
Qed.

(** Nothing is read after the line that ends the loop. *)
Lemma main_loop_stops pre q post : forall ch us env w,
  is_exit q = true ->
  loop (pre ++ q :: post) ch us env w = loop (pre ++ [q]) ch us env w.
Proof.
  subst loop. induction pre as [|x pre IH]; intros ch us env w Hq.
  - cbn [app main_loop]. by rewrite (is_exit_not_blank q Hq), Hq.
  - cbn [app main_loop].
    destruct (String.eqb x ""); [by apply IH |].
    destruct (is_exit x); [reflexivity |].
    destruct (String.eqb (lower x) "clear").
    { unfold bind. destruct (new_list env w) as [[a|e] w1]; [by apply IH | reflexivity]. }
    destruct (String.eqb (lower x) "stream"); [by apply IH |].
    destruct us; unfold bind.
    + destruct (for_chunk _ _ _ env w) as [[a|e] w1]; [by apply IH | reflexivity].
    + destruct (chat _ _ env w) as [[a|e] w1]; [by apply IH | reflexivity].
Qed.
End MainLoopFacts.

(** The [for] loop is the consumer that runs the generator to its end. *)
Lemma for_chunk_pull {G} (next : G -> M (option string * G)) rounds_left g env w r w1 :
  next g env w = (Return r, w1) ->
  for_chunk next rounds_left g env w =
    pull next (S (rounds_left (snd r))) g env w.
Proof.
  intros H. unfold for_chunk. cbn [pull]. unfold bind. rewrite H.
  by destruct (fst r).
Qed.

Lemma langtrace_chat_turn :
  turn_spec Langtrace.MODEL false (fun m l => Langtrace.chat m (Some l)).
Proof.
  intros env w l h m Hh. cbn beta.
  destruct (ollama_chat_reply env (length (backend_log w)) Langtrace.MODEL
              (h ++ [mkMessage user m])) as [e|r] eqn:Hb.
  - rewrite (langtrace_chat_raise env w l h m Hh e Hb).
    do 3 eexists. repeat split. by left.
  - destruct (resp_message_content r) as [c|] eqn:Hc.
    + rewrite (langtrace_chat_ok env w l h m Hh r c Hb Hc).
      do 3 eexists. repeat split. right. by eexists.
    + rewrite (langtrace_chat_malformed env w l h m Hh r Hb Hc).
      do 3 eexists. repeat split. by left.
Qed.

Lemma langtrace_stream_turn :
  turn_spec Langtrace.MODEL true
    (fun m l => for_chunk Langtrace.next LangtraceMain.rounds_left
                          (Langtrace.chat_stream m (Some l))).
Proof.
  intros env w l h m Hh. cbn beta.
  destruct (ollama_stream_reply env (length (backend_log w)) Langtrace.MODEL
              (h ++ [mkMessage user m])) as [e|[ds fl]] eqn:Hb.
  - erewrite for_chunk_pull
      by exact (langtrace_next_created_raise env l w h m Hh e Hb).
    cbn [pull snd LangtraceMain.rounds_left]. unfold bind.
    rewrite (langtrace_next_created_raise env l w h m Hh e Hb).
    cbn. do 3 eexists. repeat split. by left.
  - pose proof (langtrace_next_created env l w h m Hh _ Hb) as Hfirst.
    destruct ds as [|d ds], fl as [e|].
    + erewrite for_chunk_pull; [| rewrite Hfirst; reflexivity].
      rewrite (langtrace_stream_fail env w l h m Hh [] e _ Hb) by (cbn; lia).
      do 3 eexists. repeat split. by left.
    + pose proof (langtrace_stream_done env w l h m Hh [] 1 Hb ltac:(cbn; lia)) as Hrun.
      unfold for_chunk, bind. cbn [pull] in Hrun. unfold bind in Hrun.
      destruct (Langtrace.next _ env w) as [[[[c|] g1]|e1] w1]; cbn in Hrun |- *;
        try discriminate.
      injection Hrun as Hg Hw. subst g1 w1. do 3 eexists. repeat split. right. by eexists.
    + erewrite for_chunk_pull; [| rewrite Hfirst; reflexivity].
      rewrite (langtrace_stream_fail env w l h m Hh (d :: ds) e _ Hb) by (cbn; lia).
      do 3 eexists. repeat split. by left.
    + erewrite for_chunk_pull; [| rewrite Hfirst; reflexivity].
      rewrite (langtrace_stream_done env w l h m Hh (d :: ds) _ Hb) by (cbn; lia).
      do 3 eexists. repeat split. right. by eexists.
Qed.

Lemma openllmetry_chat_turn :
  turn_spec Openllmetry.MODEL false (fun m l => Openllmetry.chat m (Some l)).
Proof.
  intros env w l h m Hh. cbn beta.
  destruct (ollama_chat_reply env (length (backend_log w)) Openllmetry.MODEL
              (h ++ [mkMessage user m])) as [e|r] eqn:Hb.
  - rewrite (openllmetry_chat_raise env w l h m Hh e Hb).
    do 3 eexists. repeat split. by left.
  - destruct (resp_message_content r) as [c|] eqn:Hc.
    + rewrite (openllmetry_chat_ok env w l h m Hh r c Hb Hc).
      do 3 eexists. repeat split. right. by eexists.
    + rewrite (openllmetry_chat_malformed env w l h m Hh r Hb Hc).
      do 3 eexists. repeat split. by left.
Qed.

Lemma openllmetry_stream_turn :
  turn_spec Openllmetry.MODEL true
    (fun m l => for_chunk Openllmetry.next OpenllmetryMain.rounds_left
                          (Openllmetry.chat_stream m (Some l))).
Proof.
  intros env w l h m Hh. cbn beta.
  destruct (ollama_stream_reply env (length (backend_log w)) Openllmetry.MODEL
              (h ++ [mkMessage user m])) as [e|[ds fl]] eqn:Hb.
  - erewrite for_chunk_pull
      by exact (openllmetry_next_created_raise env w l h m Hh e Hb).
    cbn [pull snd OpenllmetryMain.rounds_left]. unfold bind.
    rewrite (openllmetry_next_created_raise env w l h m Hh e Hb).
    cbn. do 3 eexists. repeat split. by left.
  - pose proof (openllmetry_next_created env w l h m Hh _ Hb) as Hfirst.
    destruct ds as [|d ds], fl as [e|].
    + erewrite for_chunk_pull; [| rewrite Hfirst; destruct w; reflexivity].
      rewrite (openllmetry_stream_fail env w l h m Hh [] e _ Hb) by (cbn; lia).
      do 3 eexists. repeat split. by left.
    + pose proof (openllmetry_stream_done env w l h m Hh [] 1 Hb ltac:(cbn; lia)) as Hrun.
      unfold for_chunk, bind. cbn [pull] in Hrun. unfold bind in Hrun.
      destruct (Openllmetry.next _ env w) as [[[[c|] g1]|e1] w1]; cbn in Hrun |- *;
        try discriminate.
      injection Hrun as Hg Hw. subst g1 w1. do 3 eexists. repeat split.
      right. by eexists.
    + erewrite for_chunk_pull; [| rewrite Hfirst; destruct w; reflexivity].
      rewrite (openllmetry_stream_fail env w l h m Hh (d :: ds) e _ Hb) by (cbn; lia).
      do 3 eexists. repeat split. by left.
    + erewrite for_chunk_pull; [| rewrite Hfirst; destruct w; reflexivity].
      rewrite (openllmetry_stream_done env w l h m Hh (d :: ds) _ Hb) by (cbn; lia).
      do 3 eexists. repeat split. right. by eexists.
Qed.

Lemma main_runs {G} chat chat_stream (next : G -> M (option string * G)) rounds_left
    model :
  turn_spec model false (fun m l => chat m (Some l)) ->
  turn_spec model true (fun m l => for_chunk next rounds_left (chat_stream m (Some l))) ->
  forall inputs env w,
  exists o w' calls,
    main chat chat_stream next rounds_left inputs env w = (o, w') /\
    backend_log w' = backend_log w ++ calls /\
    Forall2 (request_of model) calls (spoken false inputs) /\
    (existsb is_exit inputs = true -> exists final, o = Return final) /\
    (existsb is_exit inputs = false -> o = Raise EOFError).
Proof.
  intros Hchat Hstream inputs env w. unfold main.
  rewrite (bind_run new_list _ env w (length (heap w))
             (set_heap (fun hp => hp ++ [[]]) w) eq_refl).
  destruct (main_loop_runs chat chat_stream next rounds_left model Hchat Hstream
              inputs (length (heap w)) false env (set_heap (fun hp => hp ++ [[]]) w))
    as (o & w' & calls & Hloop & Hlog & Hreq & Hout).
  { cbn [heap set_heap]. rewrite lookup_at_length. by eexists. }
  exists o, w', calls. split; [exact Hloop |]. split; [exact Hlog |].
  split; [exact Hreq | exact Hout].
Qed.

(** X5: whatever is typed and whatever the backend does, [main] of the
    Langtrace and of the OpenLLMetry demo sends one request for each message
    line read before the first "quit" or "exit", in the order of the lines,
    and no other request: blank lines and the commands "clear" and "stream"
    send nothing.  Each request ends with the user message of its line and is
    streamed exactly when "stream" was typed an odd number of times before. *)
Theorem main_requests :
  (forall inputs env w,
     exists o w' calls,
       LangtraceMain.main inputs env w = (o, w') /\
       backend_log w' = backend_log w ++ calls /\
       Forall2 (request_of Langtrace.MODEL) calls (spoken false inputs)) /\
  (forall inputs env w,
     exists o w' calls,
       OpenllmetryMain.main inputs env w = (o, w') /\
       backend_log w' = backend_log w ++ calls /\
       Forall2 (request_of Openllmetry.MODEL) calls (spoken false inputs)).
Proof.
  split; intros inputs env w.
  - destruct (main_runs _ _ _ _ _ langtrace_chat_turn langtrace_stream_turn inputs env w)
      as (o & w' & calls & Hrun & Hlog & Hreq & _).
    by exists o, w', calls.
  - destruct (main_runs _ _ _ _ _ openllmetry_chat_turn openllmetry_stream_turn
                inputs env w) as (o & w' & calls & Hrun & Hlog & Hreq & _).
    by exists o, w', calls.
Qed.

(** X6: [main] returns when one of the lines is "quit" or "exit", in any
    letter case; otherwise it ends with the [EOFError] of [input] at the end
    of the input.  A failure of the backend never ends it. *)
Theorem main_ends :
  (forall inputs env w,
     (existsb is_exit inputs = true ->
      exists final w', LangtraceMain.main inputs env w = (Return final, w')) /\
     (existsb is_exit inputs = false ->
      exists w', LangtraceMain.main inputs env w = (Raise EOFError, w'))) /\
  (forall inputs env w,
     (existsb is_exit inputs = true ->
      exists final w', OpenllmetryMain.main inputs env w = (Return final, w')) /\
     (existsb is_exit inputs = false ->
      exists w', OpenllmetryMain.main inputs env w = (Raise EOFError, w'))).
Proof.
  split; intros inputs env w.
  - destruct (main_runs _ _ _ _ _ langtrace_chat_turn langtrace_stream_turn inputs env w)
      as (o & w' & calls & Hrun & _ & _ & Hret & Heof).
    split; intros H.
    + destruct (Hret H) as [final ->]. by exists final, w'.
    + rewrite (Heof H) in Hrun. by exists w'.
  - destruct (main_runs _ _ _ _ _ openllmetry_chat_turn openllmetry_stream_turn
                inputs env w) as (o & w' & calls & Hrun & _ & _ & Hret & Heof).
    split; intros H.
    + destruct (Hret H) as [final ->]. by exists final, w'.
    + rewrite (Heof H) in Hrun. by exists w'.
Qed.

Lemma main_ends_witness :
  (exists final w',
     LangtraceMain.main ["hi"; ""; "QUIT"; "more"] env_down (mkWorld [] [] [] [] 0)
       = (Return final, w')) /\
  (exists w',
     OpenllmetryMain.main ["hi"; "stream"; "more"] (env_up false) (mkWorld [] [] [] [] 0)
       = (Raise EOFError, w')).
Proof.
  split.
  - exact (proj1 (proj1 main_ends ["hi"; ""; "QUIT"; "more"] env_down
                        (mkWorld [] [] [] [] 0)) eq_refl).
  - exact (proj2 (proj2 main_ends ["hi"; "stream"; "more"] (env_up false)
                        (mkWorld [] [] [] [] 0)) eq_refl).
Defined.

(** X7: the lines after the first "quit" or "exit" are not read: they
    change neither the result nor the world [main] leaves. *)
Theorem main_stops_reading :
  (forall pre q post env w,
     is_exit q = true ->
     LangtraceMain.main (pre ++ q :: post) env w = LangtraceMain.main (pre ++ [q]) env w) /\
  (forall pre q post env w,
     is_exit q = true ->
     OpenllmetryMain.main (pre ++ q :: post) env w =
       OpenllmetryMain.main (pre ++ [q]) env w).
Proof.
  split; intros pre q post env w Hq.
  - unfold LangtraceMain.main, main, bind. cbn [new_list].
    by apply main_loop_stops.
  - unfold OpenllmetryMain.main, main, bind. cbn [new_list].
    by apply main_loop_stops.
Qed.

Lemma main_stops_reading_witness :
  LangtraceMain.main (["hi"] ++ "Exit" :: ["more"; "clear"]) env_down new_session =
    LangtraceMain.main (["hi"] ++ ["Exit"]) env_down new_session /\
  OpenllmetryMain.main (["hi"] ++ "quit" :: ["more"]) env_down new_session =
    OpenllmetryMain.main (["hi"] ++ ["quit"]) env_down new_session.
Proof.
  split.
  - exact (proj1 main_stops_reading ["hi"] "Exit" ["more"; "clear"] env_down
                 new_session eq_refl).
  - exact (proj2 main_stops_reading ["hi"] "quit" ["more"] env_down new_session eq_refl).
Defined.

Lemma loop_clear_then_message {G} chat chat_stream (next : G -> M (option string * G))
    rounds_left model :
  turn_spec model false (fun m l => chat m (Some l)) ->
  turn_spec model true (fun m l => for_chunk next rounds_left (chat_stream m (Some l))) ->
  forall c m rest ch us env w,
    String.eqb (lower c) "clear" = true ->
    is_message m = true ->
    exists o w' calls,
      main_loop chat chat_stream next rounds_left (c :: m :: rest) ch us env w = (o, w') /\
      backend_log w' = backend_log w ++ mkCall model [mkMessage user m] us :: calls.
Proof.
  intros Hchat Hstream c m rest ch us env w Hc Hm.
  unfold is_message in Hm. apply andb_prop in Hm as [Hm Hm4].
  apply andb_prop in Hm as [Hm Hm3]. apply andb_prop in Hm as [Hm1 Hm2].
  apply negb_true_iff in Hm1, Hm2, Hm3, Hm4.
  assert (Hc1 : String.eqb c "" = false) by (destruct c; [discriminate | reflexivity]).
  assert (Hc2 : is_exit c = false).
  { unfold is_exit. apply String.eqb_eq in Hc. by rewrite Hc. }
  cbn [main_loop]. rewrite Hc1, Hc2, Hc, Hm1, Hm2, Hm3, Hm4.
  rewrite (bind_run new_list _ env w (length (heap w))
             (set_heap (fun hp => hp ++ [[]]) w) eq_refl).
  set (w0 := set_heap (fun hp => hp ++ [[]]) w).
  assert (Hnew : heap w0 !! length (heap w) = Some []) by apply lookup_at_length.
  assert (Hturn : exists a h' w1,
             (if us then for_chunk next rounds_left (chat_stream m (Some (length (heap w))))
                          >> ret tt
              else chat m (Some (length (heap w))) >> ret tt) env w0 = (Return a, w1) /\
             heap w1 = <[length (heap w) := h']> (heap w0) /\
             backend_log w1 =
               backend_log w0 ++ [mkCall model ([] ++ [mkMessage user m]) us]).
  { destruct us.
    - destruct (Hstream env w0 _ [] m Hnew) as (a & h' & w1 & Hrun & Hheap & Hlog & _).
      cbn beta in Hrun. exists tt, h', w1. by rewrite (bind_run _ _ _ _ _ _ Hrun).
    - destruct (Hchat env w0 _ [] m Hnew) as (a & h' & w1 & Hrun & Hheap & Hlog & _).
      cbn beta in Hrun. exists tt, h', w1. by rewrite (bind_run _ _ _ _ _ _ Hrun). }
  destruct Hturn as (a & h' & w1 & Hrun & Hheap & Hlog).
  destruct (main_loop_runs chat chat_stream next rounds_left model Hchat Hstream rest
              (length (heap w)) us env w1) as (o & w' & calls & Hloop & Hlog' & _).
  { rewrite Hheap, (lookup_insert_known _ _ _ _ Hnew). by eexists. }
  exists o, w', calls. split.
  - destruct us; unfold bind in Hrun |- *.
    + destruct (for_chunk _ _ _ env w0) as [[x|e] wx]; cbn in Hrun; [| discriminate].
      injection Hrun as _ ->. exact Hloop.
    + destruct (chat _ _ env w0) as [[x|e] wx]; cbn in Hrun; [| discriminate].
      injection Hrun as _ ->. exact Hloop.
  - rewrite Hlog', Hlog. cbn. by rewrite <- app_assoc.
Qed.

(** X8: after the command "clear", in any letter case, the request of the
    next message carries that message and nothing of the conversation before,
    in the mode the loop is in. *)
Theorem main_clear_then_message :
  (forall c m rest ch us env w,
     String.eqb (lower c) "clear" = true ->
     is_message m = true ->
     exists o w' calls,
       LangtraceMain.main_loop (c :: m :: rest) ch us env w = (o, w') /\
       backend_log w' =
         backend_log w ++ mkCall Langtrace.MODEL [mkMessage user m] us :: calls) /\
  (forall c m rest ch us env w,
     String.eqb (lower c) "clear" = true ->
     is_message m = true ->
     exists o w' calls,
       OpenllmetryMain.main_loop (c :: m :: rest) ch us env w = (o, w') /\
       backend_log w' =
         backend_log w ++ mkCall Openllmetry.MODEL [mkMessage user m] us :: calls).
Proof.
  split.
  - exact (loop_clear_then_message _ _ _ _ _ langtrace_chat_turn langtrace_stream_turn).
  - exact (loop_clear_then_message _ _ _ _ _ openllmetry_chat_turn openllmetry_stream_turn).
Qed.

Lemma main_clear_then_message_witness :
  (exists o w' calls,
     LangtraceMain.main_loop ["CLEAR"; "again"; "quit"] session_list true (env_up false)
       second_session = (o, w') /\
     backend_log w' = mkCall Langtrace.MODEL [mkMessage user "again"] true :: calls) /\
  (exists o w' calls,
     OpenllmetryMain.main_loop ["Clear"; "again"] session_list false env_down
       second_session = (o, w') /\
     backend_log w' = mkCall Openllmetry.MODEL [mkMessage user "again"] false :: calls).
Proof.
  split.
  - exact (proj1 main_clear_then_message "CLEAR" "again" ["quit"] session_list true
                 (env_up false) second_session eq_refl eq_refl).
  - exact (proj2 main_clear_then_message "Clear" "again" [] session_list false
                 env_down second_session eq_refl eq_refl).
Defined.

(** * The loops of [run_demo] *)

Lemma try_except_returns {A} (body : M A) (a0 : A) env w :
  exists a w', try_except body (fun _ => ret a0) env w = (Return a, w').
Proof.
  unfold try_except. destruct (body env w) as [[a|e] w']; by do 2 eexists.
Qed.

Section DemoLoopFacts.
Context {Bot Result : Type}.
Variable chat : Bot -> string -> option string -> M Result.
Variable clear_history : Bot -> M Bot.
Variable get_history : Bot -> M loc.

Let loop := demo_loop chat clear_history get_history.

(** The loop never raises. *)
Lemma demo_loop_returns fuel : forall inputs bot sid env w,
  exists r w', loop fuel inputs bot sid env w = (Return r, w').
Proof.
  subst loop. induction fuel as [|fuel IH]; intros inputs bot sid env w.
  - by do 2 eexists.
  - cbn [demo_loop]. destruct inputs as [|[text|] inputs]; [apply IH | | by do 2 eexists].
    destruct (String.eqb text ""); [apply IH |].
    destruct (is_exit text); [by do 2 eexists |].
    destruct (String.eqb (lower text) "clear").
    { destruct (try_except_returns (clear_history bot) bot env w) as (b & w1 & H).
      rewrite (bind_run _ _ _ _ _ _ H). apply IH. }
    destruct (String.eqb (lower text) "history").
    { destruct (try_except_returns
                  (let* history := get_history bot in list_read history >> ret tt)
                  tt env w) as (b & w1 & H).
      rewrite (bind_run _ _ _ _ _ _ H). apply IH. }
    destruct (try_except_returns (chat bot text (Some sid) >> ret tt) tt env w)
      as (b & w1 & H).
    rewrite (bind_run _ _ _ _ _ _ H). apply IH.
Qed.

(** Without a line that ends it and without Ctrl-C, the loop is still
    running after any number of rounds. *)
Lemma demo_loop_never_ends fuel : forall inputs bot sid env w,
  forallb (fun k => negb (ends_demo k)) inputs = true ->
  exists w', loop fuel inputs bot sid env w = (Return None, w').
Proof.
  subst loop. induction fuel as [|fuel IH]; intros inputs bot sid env w Hin.
  - by eexists.
  - cbn [demo_loop]. destruct inputs as [|[text|] inputs]; [by apply IH | | discriminate].
    cbn [forallb ends_demo] in Hin. apply andb_prop in Hin as [Hk Hin].
    apply negb_true_iff in Hk.
    destruct (String.eqb text ""); [by apply IH |]. rewrite Hk.
    destruct (String.eqb (lower text) "clear").
    { destruct (try_except_returns (clear_history bot) bot env w) as (b & w1 & H).
      rewrite (bind_run _ _ _ _ _ _ H). by apply IH. }
    destruct (String.eqb (lower text) "history").
    { destruct (try_except_returns
                  (let* history := get_history bot in list_read history >> ret tt)
                  tt env w) as (b & w1 & H).
      rewrite (bind_run _ _ _ _ _ _ H). by apply IH. }
    destruct (try_except_returns (chat bot text (Some sid) >> ret tt) tt env w)
      as (b & w1 & H).
    rewrite (bind_run _ _ _ _ _ _ H). by apply IH.
Qed.

(** With an input that ends the loop, the loop ends as soon as the rounds
    reach it; neither more rounds nor the inputs after it change anything. *)
Lemma demo_loop_ends pre : forall x post fuel bot sid env w,
  forallb (fun k => negb (ends_demo k)) pre = true ->
  ends_demo x = true ->
  (length pre < fuel)%nat ->
  loop fuel (pre ++ x :: post) bot sid env w =
    loop (S (length pre)) (pre ++ [x]) bot sid env w /\
  exists bot' w', loop fuel (pre ++ x :: post) bot sid env w = (Return (Some bot'), w').
Proof.
  subst loop. induction pre as [|k pre IH]; intros x post fuel bot sid env w Hpre Hx Hf;
    (destruct fuel as [|fuel]; [cbn in Hf; lia |]).
  - cbn [app demo_loop length]. destruct x as [text|]; [| split; [done | by do 2 eexists]].
    cbn [ends_demo] in Hx. rewrite (is_exit_not_blank _ Hx), Hx.
    split; [done | by do 2 eexists].
  - cbn [forallb] in Hpre. apply andb_prop in Hpre as [Hk Hpre].
    apply negb_true_iff in Hk. destruct k as [text|]; [| discriminate].
    cbn [ends_demo] in Hk. cbn [length] in Hf.
    assert (Hf' : (length pre < fuel)%nat) by lia.
    cbn [app demo_loop length].
    destruct (String.eqb text ""); [by apply IH |]. rewrite Hk.
    destruct (String.eqb (lower text) "clear").
    { destruct (try_except_returns (clear_history bot) bot env w) as (b & w1 & H).
      rewrite !(bind_run _ _ _ _ _ _ H). by apply IH. }
    destruct (String.eqb (lower text) "history").
    { destruct (try_except_returns
                  (let* history := get_history bot in list_read history >> ret tt)
                  tt env w) as (b & w1 & H).
      rewrite !(bind_run _ _ _ _ _ _ H). by apply IH. }
    destruct (try_except_returns (chat bot text (Some sid) >> ret tt) tt env w)
      as (b & w1 & H).
    rewrite !(bind_run _ _ _ _ _ _ H). by apply IH.
Qed.
End DemoLoopFacts.

Section DemoHistory.
Context {Bot Result : Type}.
Variable chat : Bot -> string -> option string -> M Result.
Variable clear_history : Bot -> M Bot.
Variable get_history : Bot -> M loc.
Variable hist : Bot -> loc.
Variable env : Env.
(** Every turn adds at least [lo] and at most [hi] entries. *)
Variables lo hi : nat.
Hypothesis Hchat : forall bot m sid w h,
  heap w !! hist bot = Some h ->
  exists o w' h' extra,
    chat bot m sid env w = (o, w') /\
    heap w' = <[hist bot := h']> (heap w) /\
    (length h + lo <= length h' <= length h + hi)%nat /\
    spans w' = spans w ++ extra.
Hypothesis Hclear : forall bot w,
  exists bot' w',
    clear_history bot env w = (Return bot', w') /\
    heap w' !! hist bot' = Some [] /\ spans w' = spans w.
Hypothesis Hget : forall bot, get_history bot = ret (hist bot).

Let loop := demo_loop chat clear_history get_history.

Lemma demo_loop_history fuel : forall inputs bot sid w h n bot' w',
  heap w !! hist bot = Some h ->
  (lo * n <= length h <= hi * n)%nat ->
  loop fuel inputs bot sid env w = (Return (Some bot'), w') ->
  exists h' extra,
    heap w' !! hist bot' = Some h' /\
    (lo * said_since_clear inputs n <= length h' <= hi * said_since_clear inputs n)%nat /\
    spans w' = spans w ++ extra.
Proof.
  subst loop.
  induction fuel as [|fuel IH]; intros inputs bot sid w h n bot' w' Hh Hn Hrun;
    [discriminate |].
  cbn [demo_loop] in Hrun. destruct inputs as [|[text|] inputs].
  - destruct (IH [] bot sid w h n bot' w' Hh Hn Hrun) as (h' & extra & ? & ? & ?).
    by exists h', extra.
  - cbn [said_since_clear]. destruct (String.eqb text "").
    { by eapply IH. }
    destruct (is_exit text).
    { injection Hrun as <- <-. exists h, []. by rewrite app_nil_r. }
    destruct (String.eqb (lower text) "clear").
    { destruct (Hclear bot w) as (b & w1 & Hc & Hh1 & Hs1).
      unfold bind, try_except in Hrun. rewrite Hc in Hrun.
      destruct (IH inputs b sid w1 [] 0%nat bot' w' Hh1 ltac:(cbn; lia) Hrun)
        as (h' & extra & ? & ? & Hs).
      exists h', extra. by rewrite Hs, Hs1. }
    destruct (String.eqb (lower text) "history").
    { unfold bind, try_except in Hrun. rewrite Hget in Hrun. cbn in Hrun.
      by eapply IH. }
    destruct (Hchat bot text (Some sid) w h Hh)
      as (o & w1 & h1 & extra1 & Hc & Hh1 & Hlen & Hs1).
    unfold bind, try_except in Hrun. rewrite Hc in Hrun.
    assert (Hh1' : heap w1 !! hist bot = Some h1).
    { rewrite Hh1. by eapply lookup_insert_known. }
    assert (Hrun' : demo_loop chat clear_history get_history fuel inputs bot sid env w1
                    = (Return (Some bot'), w')) by (by destruct o).
    destruct (IH inputs bot sid w1 h1 (S n) bot' w' Hh1' ltac:(lia) Hrun')
      as (h' & extra & ? & ? & Hs).
    exists h', (extra1 ++ extra). by rewrite Hs, Hs1, app_assoc.
  - injection Hrun as <- <-. exists h, []. by rewrite app_nil_r.
Qed.
End DemoHistory.

Lemma langfuse_demo_turn env (bot : Langfuse.ObservableChatbot) m sid w h :
  heap w !! Langfuse.conversation_history bot = Some h ->
  exists o w' h' extra,
    Langfuse.chat bot m sid env w = (o, w') /\
    heap w' = <[Langfuse.conversation_history bot := h']> (heap w) /\
    (length h + 1 <= length h' <= length h + 2)%nat /\
    spans w' = spans w ++ extra.
Proof.
  intros Hh.
  destruct (ollama_chat_reply env (length (backend_log w)) (Langfuse.model bot)
              (h ++ [mkMessage user m])) as [e|r] eqn:Hb.
  - rewrite (langfuse_chat_raise env w bot h m sid Hh e Hb).
    do 4 eexists. repeat split; rewrite ?length_app; cbn; lia.
  - destruct (resp_message_content r) as [c|] eqn:Hc.
    + rewrite (langfuse_chat_ok env w bot h m sid Hh r c Hb Hc).
      do 4 eexists. repeat split; rewrite ?length_app; cbn; lia.
    + rewrite (langfuse_chat_malformed env w bot h m sid Hh r Hb Hc).
      do 4 eexists. repeat split; rewrite ?length_app; cbn; lia.
Qed.

Lemma langfuse_demo_turn_answered env (bot : Langfuse.ObservableChatbot) m sid w h :
  answers env ->
  heap w !! Langfuse.conversation_history bot = Some h ->
  exists o w' h' extra,
    Langfuse.chat bot m sid env w = (o, w') /\
    heap w' = <[Langfuse.conversation_history bot := h']> (heap w) /\
    (length h + 2 <= length h' <= length h + 2)%nat /\
    spans w' = spans w ++ extra.
Proof.
  intros Henv Hh.
  destruct (Henv (length (backend_log w)) (Langfuse.model bot)
              (h ++ [mkMessage user m])) as (r & c & Hb & Hc).
  rewrite (langfuse_chat_ok env w bot h m sid Hh r c Hb Hc).
  do 4 eexists. repeat split; rewrite ?length_app; cbn; lia.
Qed.

Lemma langfuse_demo_turn_refused env (bot : Langfuse.ObservableChatbot) m sid w h :
  refuses env ->
  heap w !! Langfuse.conversation_history bot = Some h ->
  exists o w' h' extra,
    Langfuse.chat bot m sid env w = (o, w') /\
    heap w' = <[Langfuse.conversation_history bot := h']> (heap w) /\
    (length h + 1 <= length h' <= length h + 1)%nat /\
    spans w' = spans w ++ extra.
Proof.
  intros Henv Hh.
  destruct (Henv (length (backend_log w)) (Langfuse.model bot)
              (h ++ [mkMessage user m])) as (e & Hb).
  rewrite (langfuse_chat_raise env w bot h m sid Hh e Hb).
  do 4 eexists. repeat split; rewrite ?length_app; cbn; lia.
Qed.

Lemma opik_demo_turn env (bot : Opik.OpikObservableChatbot) m sid w h :
  heap w !! Opik.conversation_history bot = Some h ->
  exists o w' h' extra,
    Opik.chat bot m sid env w = (o, w') /\
    heap w' = <[Opik.conversation_history bot := h']> (heap w) /\
    (length h + 1 <= length h' <= length h + 2)%nat /\
    spans w' = spans w ++ extra.
Proof.
  intros Hh.
  destruct (ollama_chat_reply env (length (backend_log w)) (Opik.model bot)
              (h ++ [mkMessage user m])) as [e|r] eqn:Hb.
  - rewrite (opik_chat_raise env w bot h m sid Hh e Hb).
    do 4 eexists. repeat split; rewrite ?length_app; cbn; lia.
  - destruct (resp_message_content r) as [c|] eqn:Hc.
    + rewrite (opik_chat_ok env w bot h m sid Hh r c Hb Hc).
      do 4 eexists. repeat split; rewrite ?length_app; cbn; lia.
    + rewrite (opik_chat_malformed env w bot h m sid Hh r Hb Hc).
      do 4 eexists. repeat split; rewrite ?length_app; cbn; lia.
Qed.

Lemma langfuse_demo_clear env (bot : Langfuse.ObservableChatbot) w :
  exists bot' w',
    Langfuse.clear_history bot env w = (Return bot', w') /\
    heap w' !! Langfuse.conversation_history bot' = Some [] /\ spans w' = spans w.
Proof.
  do 2 eexists. split; [reflexivity |]. split; [apply lookup_at_length | reflexivity].
Qed.

Lemma opik_demo_clear env (bot : Opik.OpikObservableChatbot) w :
  exists bot' w',
    Opik.clear_history bot env w = (Return bot', w') /\
    heap w' !! Opik.conversation_history bot' = Some [] /\ spans w' = spans w.
Proof.
  do 2 eexists. split; [reflexivity |]. split; [apply lookup_at_length | reflexivity].
Qed.

Lemma with_span_run {A} name (body : nat -> M A) env w :
  with_span name body env w =
    match body (length (spans w)) env
               (set_spans (fun l => l ++ [mkSpan name ∅ UNSET [] 0]) w) with
    | (Return a, w2) => (Return a, snd (end_span (length (spans w)) env w2))
    | (Raise e, w2) =>
        (Raise e, snd (exit_span_exception (length (spans w)) e env w2))
    end.
Proof.
  unfold with_span, bind, try_except. cbn [start_span].
  by destruct (body _ env _) as [[a|e] w2].
Qed.

(** X9: when no input is "quit", "exit" or Ctrl-C, [run_demo] of the
    Langfuse and of the Opik demo does not return: the [EOFError] that [input]
    raises at the end of the input is caught by the [except Exception] of the
    loop, which then asks again; after any number of rounds the loop is still
    running. *)
Theorem run_demo_end_of_input :
  (forall fuel inputs model sid env w,
     forallb (fun k => negb (ends_demo k)) inputs = true ->
     exists w', LangfuseDemo.run_demo fuel inputs model sid env w = (Return None, w')) /\
  (forall fuel inputs model sid env w,
     forallb (fun k => negb (ends_demo k)) inputs = true ->
     exists w', OpikDemo.run_demo fuel inputs model sid env w = (Return None, w')).
Proof.
  split; intros fuel inputs model sid env w Hin.
  - unfold LangfuseDemo.run_demo.
    rewrite (bind_run (Langfuse.__init__ model) _ env w
               (Langfuse.mkBot model (length (heap w)))
               (set_heap (fun h => h ++ [[]]) w) eq_refl).
    destruct (demo_loop_never_ends Langfuse.chat Langfuse.clear_history
                Langfuse.get_history fuel inputs
                (Langfuse.mkBot model (length (heap w))) sid env
                (set_heap (fun h => h ++ [[]]) w) Hin) as (w' & Hloop).
    rewrite (bind_run _ _ _ _ _ _ Hloop). by eexists.
  - unfold OpikDemo.run_demo.
    rewrite (bind_run (Opik.__init__ model) _ env w
               (Opik.mkBot model (length (heap w)))
               (set_heap (fun h => h ++ [[]]) w) eq_refl).
    rewrite with_span_run.
    rewrite (bind_run (set_attribute _ _ _) _ env _ _ _ eq_refl).
    match goal with |- context [bind (demo_loop _ _ _ fuel inputs ?b sid) _ env ?w0] =>
      destruct (demo_loop_never_ends Opik.chat Opik.clear_history Opik.get_history
                  fuel inputs b sid env w0 Hin) as (w' & Hloop) end.
    rewrite (bind_run _ _ _ _ _ _ Hloop). by eexists.
Qed.

Lemma run_demo_end_of_input_witness :
  (exists w', LangfuseDemo.run_demo 1000 [Line "hi"; Line "history"] "m1" "s1"
                env_down (mkWorld [] [] [] [] 0) = (Return None, w')) /\
  (exists w', OpikDemo.run_demo 1000 [] "m1" "s1" (env_up false)
                (mkWorld [] [] [] [] 0) = (Return None, w')).
Proof.
  split.
  - exact (proj1 run_demo_end_of_input 1000%nat [Line "hi"; Line "history"] "m1" "s1"
                 env_down (mkWorld [] [] [] [] 0) eq_refl).
  - exact (proj2 run_demo_end_of_input 1000%nat [] "m1" "s1" (env_up false)
                 (mkWorld [] [] [] [] 0) eq_refl).
Defined.

(** X10: [run_demo] ends at the first input that is "quit", "exit" or
    Ctrl-C, as soon as the rounds reach it: neither more rounds nor the inputs
    after it change the result or the world it leaves. *)
Theorem run_demo_exit :
  (forall pre x post fuel model sid env w,
     forallb (fun k => negb (ends_demo k)) pre = true ->
     ends_demo x = true ->
     (length pre < fuel)%nat ->
     LangfuseDemo.run_demo fuel (pre ++ x :: post) model sid env w =
       LangfuseDemo.run_demo (S (length pre)) (pre ++ [x]) model sid env w) /\
  (forall pre x post fuel model sid env w,
     forallb (fun k => negb (ends_demo k)) pre = true ->
     ends_demo x = true ->
     (length pre < fuel)%nat ->
     OpikDemo.run_demo fuel (pre ++ x :: post) model sid env w =
       OpikDemo.run_demo (S (length pre)) (pre ++ [x]) model sid env w).
Proof.
  split; intros pre x post fuel model sid env w Hpre Hx Hf.
  - unfold LangfuseDemo.run_demo.
    rewrite !(bind_run (Langfuse.__init__ model) _ env w
                (Langfuse.mkBot model (length (heap w)))
                (set_heap (fun h => h ++ [[]]) w) eq_refl).
    unfold bind at 1 3.
    by rewrite (proj1 (demo_loop_ends Langfuse.chat Langfuse.clear_history
                         Langfuse.get_history pre x post fuel _ sid env _ Hpre Hx Hf)).
  - unfold OpikDemo.run_demo.
    rewrite !(bind_run (Opik.__init__ model) _ env w
                (Opik.mkBot model (length (heap w)))
                (set_heap (fun h => h ++ [[]]) w) eq_refl).
    rewrite !with_span_run.
    rewrite !(bind_run (set_attribute _ _ _) _ env _ _ _ eq_refl).
    unfold bind at 1 4.
    by rewrite (proj1 (demo_loop_ends Opik.chat Opik.clear_history
                         Opik.get_history pre x post fuel _ sid env _ Hpre Hx Hf)).
Qed.

Lemma run_demo_exit_witness :
  LangfuseDemo.run_demo 7 ([Line "hi"] ++ Line "Quit" :: [Line "more"]) "m1" "s1"
                        env_down new_session =
    LangfuseDemo.run_demo 2 ([Line "hi"] ++ [Line "Quit"]) "m1" "s1" env_down new_session /\
  OpikDemo.run_demo 7 ([Line "hi"] ++ CtrlC :: [Line "more"]) "m1" "s1"
                    env_down new_session =
    OpikDemo.run_demo 2 ([Line "hi"] ++ [CtrlC]) "m1" "s1" env_down new_session.
Proof.
  split.
  - exact (proj1 run_demo_exit [Line "hi"] (Line "Quit") [Line "more"] 7%nat "m1" "s1"
                 env_down new_session eq_refl eq_refl
                 (le_S _ _ (le_S _ _ (le_S _ _ (le_S _ _ (le_S _ _ (le_n 2))))))).
  - exact (proj2 run_demo_exit [Line "hi"] CtrlC [Line "more"] 7%nat "m1" "s1"
                 env_down new_session eq_refl eq_refl
                 (le_S _ _ (le_S _ _ (le_S _ _ (le_S _ _ (le_S _ _ (le_n 2))))))).
Defined.

(** X11: a [run_demo] that is ended by "quit", "exit" or Ctrl-C returns,
    whatever the backend did, and the number of messages it reports lies
    between [n] and [2 * n], where [n] is the number of messages typed since
    the last "clear": every turn leaves at least its user message in the
    history.  The Langfuse demo reports it in the dict it returns, the Opik
    demo as the attribute "session.total_messages" of the span
    "chatbot_session", which also holds "session.id" and is ended once. *)
Theorem run_demo_total_messages :
  (forall pre x post fuel model sid env w,
     forallb (fun k => negb (ends_demo k)) pre = true ->
     ends_demo x = true ->
     (length pre < fuel)%nat ->
     exists total w',
       LangfuseDemo.run_demo fuel (pre ++ x :: post) model sid env w =
         (Return (Some (sid, total)), w') /\
       Z.of_nat (said_since_clear (pre ++ x :: post) 0) <= total
         <= 2 * Z.of_nat (said_since_clear (pre ++ x :: post) 0)) /\
  (forall pre x post fuel model sid env w,
     forallb (fun k => negb (ends_demo k)) pre = true ->
     ends_demo x = true ->
     (length pre < fuel)%nat ->
     exists total w' sp,
       OpikDemo.run_demo fuel (pre ++ x :: post) model sid env w = (Return (Some tt), w') /\
       spans w' !! length (spans w) = Some sp /\
       span_name sp = "chatbot_session" /\ end_calls sp = 1%nat /\
       attributes sp !! "session.id" = Some (AStr sid) /\
       attributes sp !! "session.total_messages" = Some (AInt total) /\
       Z.of_nat (said_since_clear (pre ++ x :: post) 0) <= total
         <= 2 * Z.of_nat (said_since_clear (pre ++ x :: post) 0)).
Proof.
  split; intros pre x post fuel model sid env w Hpre Hx Hf.
  - unfold LangfuseDemo.run_demo.
    rewrite (bind_run (Langfuse.__init__ model) _ env w
               (Langfuse.mkBot model (length (heap w)))
               (set_heap (fun h => h ++ [[]]) w) eq_refl).
    set (bot := Langfuse.mkBot model (length (heap w))).
    set (w0 := set_heap (fun h => h ++ [[]]) w).
    destruct (proj2 (demo_loop_ends Langfuse.chat Langfuse.clear_history
                Langfuse.get_history pre x post fuel bot sid env w0 Hpre Hx Hf))
      as (bot' & w1 & Hloop).
    destruct (demo_loop_history Langfuse.chat Langfuse.clear_history Langfuse.get_history
                Langfuse.conversation_history env 1 2 (langfuse_demo_turn env)
                (langfuse_demo_clear env)
                (fun _ => eq_refl) fuel (pre ++ x :: post) bot sid w0 [] 0%nat
                bot' w1 (lookup_at_length _ _ _) ltac:(cbn; lia) Hloop)
      as (h' & extra & Hh' & Hn & _).
    rewrite (bind_run _ _ _ _ _ _ Hloop).
    exists (Z.of_nat (length h')), w1. split; [| lia].
    unfold Langfuse.get_history, bind, ret, list_read. by rewrite Hh'.
  - unfold OpikDemo.run_demo.
    rewrite (bind_run (Opik.__init__ model) _ env w
               (Opik.mkBot model (length (heap w)))
               (set_heap (fun h => h ++ [[]]) w) eq_refl).
    set (bot := Opik.mkBot model (length (heap w))).
    rewrite with_span_run.
    set (sess := mkSpan "chatbot_session" (<["session.id" := AStr sid]> ∅) UNSET [] 0).
    set (w0 := mkWorld (heap w ++ [[]]) (spans w ++ [sess]) (metrics w)
                       (backend_log w) (clock_reads w)).
    rewrite (bind_run (set_attribute _ _ _) _ env _ tt w0).
    2:{ destruct w as [hp sp me bl cr]. subst w0 sess. py_eval.
        by rewrite alter_at_length. }
    destruct (proj2 (demo_loop_ends Opik.chat Opik.clear_history
                Opik.get_history pre x post fuel bot sid env w0 Hpre Hx Hf))
      as (bot' & w1 & Hloop).
    destruct (demo_loop_history Opik.chat Opik.clear_history Opik.get_history
                Opik.conversation_history env 1 2 (opik_demo_turn env)
                (opik_demo_clear env)
                (fun _ => eq_refl) fuel (pre ++ x :: post) bot sid w0 [] 0%nat
                bot' w1 (lookup_at_length _ _ _) ltac:(cbn; lia) Hloop)
      as (h' & extra & Hh' & Hn & Hs).
    rewrite (bind_run _ _ _ _ _ _ Hloop).
    destruct w1 as [hp1 sp1 me1 bl1 cr1]. cbn [heap spans] in Hh', Hs. subst sp1.
    unfold Opik.get_history. py_eval. rewrite Hh'. py_eval. subst w0 sess. cbn [spans].
    rewrite !alter_at_length_app. py_eval.
    exists (Z.of_nat (length h')). do 2 eexists. split; [reflexivity |].
    split; [cbn [spans]; rewrite lookup_app_l, lookup_at_length;
            [reflexivity | rewrite length_app; cbn; lia] |].
    cbn [span_name end_calls attributes].
    split; [reflexivity |]. split; [reflexivity |].
    split; [by rewrite lookup_insert_ne, lookup_insert_eq |].
    split; [apply lookup_insert_eq | lia].
Qed.

Lemma run_demo_total_messages_witness :
  (exists total w',
     LangfuseDemo.run_demo 5 ([Line "hi"; Line "more"] ++ Line "quit" :: []) "m1" "s1"
       env_down new_session = (Return (Some ("s1", total)), w') /\
     2 <= total <= 4) /\
  (exists total w' sp,
     OpikDemo.run_demo 5 ([Line "hi"; Line "clear"; Line "more"] ++ CtrlC :: []) "m1" "s1"
       (env_up false) new_session = (Return (Some tt), w') /\
     spans w' !! 0%nat = Some sp /\
     attributes sp !! "session.total_messages" = Some (AInt total) /\
     1 <= total <= 2).
Proof.
  split.
  - exact (proj1 run_demo_total_messages [Line "hi"; Line "more"] (Line "quit") []
                 5%nat "m1" "s1" env_down new_session eq_refl eq_refl
                 (le_S _ _ (le_S _ _ (le_n 3)))).
  - destruct (proj2 run_demo_total_messages [Line "hi"; Line "clear"; Line "more"]
                CtrlC [] 5%nat "m1" "s1" (env_up false) new_session eq_refl eq_refl
                (le_S _ _ (le_n 4)))
      as (total & w' & sp & Hrun & Hsp & _ & _ & _ & Hattr & Hn).
    exists total, w', sp. exact (conj Hrun (conj Hsp (conj Hattr Hn))).
Defined.

(** X12: the Langfuse [run_demo] reports exactly [2 * n] messages when the
    backend answers every request, and exactly [n], the user messages of the
    failed turns, when it refuses every request. *)
Theorem langfuse_total_messages_exact :
  forall pre x post fuel model sid env w,
    forallb (fun k => negb (ends_demo k)) pre = true ->
    ends_demo x = true ->
    (length pre < fuel)%nat ->
    (answers env ->
     exists w',
       LangfuseDemo.run_demo fuel (pre ++ x :: post) model sid env w =
         (Return (Some (sid, 2 * Z.of_nat (said_since_clear (pre ++ x :: post) 0))), w')) /\
    (refuses env ->
     exists w',
       LangfuseDemo.run_demo fuel (pre ++ x :: post) model sid env w =
         (Return (Some (sid, Z.of_nat (said_since_clear (pre ++ x :: post) 0))), w')).
Proof.
  intros pre x post fuel model sid env w Hpre Hx Hf.
  unfold LangfuseDemo.run_demo.
  rewrite (bind_run (Langfuse.__init__ model) _ env w
             (Langfuse.mkBot model (length (heap w)))
             (set_heap (fun h => h ++ [[]]) w) eq_refl).
  set (bot := Langfuse.mkBot model (length (heap w))).
  set (w0 := set_heap (fun h => h ++ [[]]) w).
  destruct (proj2 (demo_loop_ends Langfuse.chat Langfuse.clear_history
              Langfuse.get_history pre x post fuel bot sid env w0 Hpre Hx Hf))
    as (bot' & w1 & Hloop).
  rewrite (bind_run _ _ _ _ _ _ Hloop).
  split; intros Henv.
  - destruct (demo_loop_history Langfuse.chat Langfuse.clear_history Langfuse.get_history
                Langfuse.conversation_history env 2 2
                (fun bot m sid w h => langfuse_demo_turn_answered env bot m sid w h Henv)
                (langfuse_demo_clear env)
                (fun _ => eq_refl) fuel (pre ++ x :: post) bot sid w0 [] 0%nat
                bot' w1 (lookup_at_length _ _ _) ltac:(cbn; lia) Hloop)
      as (h' & extra & Hh' & Hn & _).
    exists w1. unfold Langfuse.get_history, bind, ret, list_read. rewrite Hh'.
    cbn [default from_option id].
    by replace (Z.of_nat (length h'))
      with (2 * Z.of_nat (said_since_clear (pre ++ x :: post) 0)) by lia.
  - destruct (demo_loop_history Langfuse.chat Langfuse.clear_history Langfuse.get_history
                Langfuse.conversation_history env 1 1
                (fun bot m sid w h => langfuse_demo_turn_refused env bot m sid w h Henv)
                (langfuse_demo_clear env)
                (fun _ => eq_refl) fuel (pre ++ x :: post) bot sid w0 [] 0%nat
                bot' w1 (lookup_at_length _ _ _) ltac:(cbn; lia) Hloop)
      as (h' & extra & Hh' & Hn & _).
    exists w1. unfold Langfuse.get_history, bind, ret, list_read. rewrite Hh'.
    cbn [default from_option id].
    by replace (Z.of_nat (length h'))
      with (Z.of_nat (said_since_clear (pre ++ x :: post) 0)) by lia.
Qed.

Lemma env_up_answers : answers (env_up false).
Proof. intros n model messages. by exists hello, "hello". Defined.

Lemma env_down_refuses : refuses env_down.
Proof. intros n model messages. by exists boom. Defined.

Lemma langfuse_total_messages_exact_witness :
  (exists w',
     LangfuseDemo.run_demo 9 ([Line "hi"; Line ""; Line "more"] ++ Line "exit" :: [])
       "m1" "s1" (env_up false) new_session = (Return (Some ("s1", 4)), w')) /\
  (exists w',
     LangfuseDemo.run_demo 9 ([Line "hi"; Line "more"] ++ CtrlC :: [])
       "m1" "s1" env_down new_session = (Return (Some ("s1", 2)), w')).
Proof.
  split.
  - exact (proj1 (langfuse_total_messages_exact [Line "hi"; Line ""; Line "more"]
                    (Line "exit") [] 9%nat "m1" "s1" (env_up false) new_session
                    eq_refl eq_refl
                    (le_S _ _ (le_S _ _ (le_S _ _ (le_S _ _ (le_S _ _ (le_n 4)))))))
                 env_up_answers).
  - exact (proj2 (langfuse_total_messages_exact [Line "hi"; Line "more"] CtrlC []
                    9%nat "m1" "s1" env_down new_session eq_refl eq_refl
                    (le_S _ _ (le_S _ _ (le_S _ _ (le_S _ _ (le_S _ _
                       (le_S _ _ (le_n 3))))))))
                 env_down_refuses).
Defined.

(** * The agent of the OpenAI client demo *)

Section AgentChat.
Variables (env : Env) (w : World) (self : OpenaiAgent.LLMObservabilityAgent).
Variables (prompt model : string).

Let messages := [("system", "You are a helpful assistant."); ("user", prompt)].
Let lbls (st : string) :=
  [("model", model); ("status", st); ("service", OpenaiAgent.service_name self)].

Ltac agent_run :=
  unfold OpenaiAgent.chat, Openllmetry.track_llm_call, Openllmetry.report_request,
    OpenaiAgent.completions_create, OpenaiAgent.first_choice,
    OpenaiAgent.usage_total_tokens, OpenaiAgent.report_response,
    OpenaiAgent.report_usage.

Lemma agent_chat_answered response choice rest u :
  OpenaiAgent.client self model messages = inr response ->
  OpenaiAgent.choices response = choice :: rest ->
  OpenaiAgent.usage response = Some u ->
  let duration := time_time_at env (S (clock_reads w)) - time_time_at env (clock_reads w) in
  exists w' sp,
    OpenaiAgent.chat self prompt model env w =
      (Return (Some (OpenaiAgent.mkReply (OpenaiAgent.choice_content choice) duration
                       (OpenaiAgent.total_tokens u) model)), w') /\
    metrics w' = metrics w ++
      [mkSample llm_request_counter 1 (lbls "success");
       mkSample llm_latency_histogram duration
         [("model", model); ("service", OpenaiAgent.service_name self)];
       mkSample llm_token_counter (OpenaiAgent.total_tokens u)
         [("model", model); ("type", "total");
          ("service", OpenaiAgent.service_name self)]] /\
    spans w' = spans w ++ [sp] /\ end_calls sp = 1%nat /\
    heap w' = heap w.
Proof.
  subst messages lbls. intros Hc Hch Hu duration. subst duration.
  destruct w as [hp sp me bl cr]. agent_run. py_run. rewrite Hc. py_run.
  rewrite Hch, Hu. py_run. rewrite <- ?app_assoc. do 2 eexists. by repeat split.
Qed.

Lemma agent_chat_no_usage response choice rest :
  OpenaiAgent.client self model messages = inr response ->
  OpenaiAgent.choices response = choice :: rest ->
  OpenaiAgent.usage response = None ->
  let duration := time_time_at env (S (clock_reads w)) - time_time_at env (clock_reads w) in
  exists w' sp,
    OpenaiAgent.chat self prompt model env w = (Return None, w') /\
    metrics w' = metrics w ++
      [mkSample llm_request_counter 1 (lbls "success");
       mkSample llm_latency_histogram duration
         [("model", model); ("service", OpenaiAgent.service_name self)];
       mkSample llm_request_counter 1 (lbls "error")] /\
    spans w' = spans w ++ [sp] /\ end_calls sp = 1%nat /\
    attributes sp !! "error.message" =
      Some (AStr "'NoneType' object has no attribute 'total_tokens'") /\
    heap w' = heap w.
Proof.
  subst messages lbls. intros Hc Hch Hu duration. subst duration.
  destruct w as [hp sp me bl cr]. agent_run. py_run. rewrite Hc. py_run.
  rewrite Hch, Hu. py_run. rewrite <- ?app_assoc. do 2 eexists. by repeat split.
Qed.

Lemma agent_chat_no_choice response :
  OpenaiAgent.client self model messages = inr response ->
  OpenaiAgent.choices response = [] ->
  exists w' sp,
    OpenaiAgent.chat self prompt model env w = (Return None, w') /\
    metrics w' = metrics w ++ [mkSample llm_request_counter 1 (lbls "error")] /\
    spans w' = spans w ++ [sp] /\ end_calls sp = 1%nat /\
    attributes sp !! "error.message" = Some (AStr "list index out of range") /\
    heap w' = heap w.
Proof.
  subst messages lbls. intros Hc Hch.
  destruct w as [hp sp me bl cr]. agent_run. py_run. rewrite Hc. py_run.
  rewrite Hch. py_run. rewrite <- ?app_assoc. do 2 eexists. by repeat split.
Qed.

Lemma agent_chat_refused e :
  OpenaiAgent.client self model messages = inl e ->
  exists w' sp,
    OpenaiAgent.chat self prompt model env w = (Return None, w') /\
    metrics w' = metrics w ++ [mkSample llm_request_counter 1 (lbls "error")] /\
    spans w' = spans w ++ [sp] /\ end_calls sp = 1%nat /\
    attributes sp !! "error.message" = Some (AStr (exn_message e)) /\
    heap w' = heap w.
Proof.
  subst messages lbls. intros Hc.
  destruct w as [hp sp me bl cr]. agent_run. py_run. rewrite Hc. py_run.
  do 2 eexists. by repeat split.
Qed.
End AgentChat.

(** X13: [chat] of the agent never raises, whatever the client does: it
    returns a dict or [None], its span is ended once, it keeps no history, and
    it returns [None] exactly when it has handed a request sample with status
    "error" to the meter. *)
Theorem agent_chat_never_raises self prompt model env w :
  exists r w' sp,
    OpenaiAgent.chat self prompt model env w = (Return r, w') /\
    spans w' = spans w ++ [sp] /\ end_calls sp = 1%nat /\
    heap w' = heap w /\
    count (is_request "error") (produced w w') =
      match r with Some _ => 0%nat | None => 1%nat end.
Proof.
  destruct (OpenaiAgent.client self model
              [("system", "You are a helpful assistant."); ("user", prompt)])
    as [e|response] eqn:Hc.
  - destruct (agent_chat_refused env w self prompt model e Hc)
      as (w' & sp & Hrun & Hm & Hs & He & _ & Hh).
    exists None, w', sp. by rewrite (produced_app _ _ _ Hm).
  - destruct (OpenaiAgent.choices response) as [|choice rest] eqn:Hch.
    + destruct (agent_chat_no_choice env w self prompt model response Hc Hch)
        as (w' & sp & Hrun & Hm & Hs & He & _ & Hh).
      exists None, w', sp. by rewrite (produced_app _ _ _ Hm).
    + destruct (OpenaiAgent.usage response) as [u|] eqn:Hu.
      * destruct (agent_chat_answered env w self prompt model response choice rest u
                    Hc Hch Hu) as (w' & sp & Hrun & Hm & Hs & He & Hh).
        eexists (Some _), w', sp. by rewrite (produced_app _ _ _ Hm).
      * destruct (agent_chat_no_usage env w self prompt model response choice rest
                    Hc Hch Hu) as (w' & sp & Hrun & Hm & Hs & He & _ & Hh).
        exists None, w', sp. by rewrite (produced_app _ _ _ Hm).
Qed.

(** X14: when the completion has a choice and a usage, [chat] returns the
    content of the first choice, the total token count of the usage and the
    model it was asked for, and hands to the meter one request sample with
    status "success", one latency observation and one token sample, of type
    "total", with that count, in this order. *)
Theorem agent_chat_result self prompt model env w response choice rest u :
  OpenaiAgent.client self model
    [("system", "You are a helpful assistant."); ("user", prompt)] = inr response ->
  OpenaiAgent.choices response = choice :: rest ->
  OpenaiAgent.usage response = Some u ->
  exists reply w',
    OpenaiAgent.chat self prompt model env w = (Return (Some reply), w') /\
    OpenaiAgent.content reply = OpenaiAgent.choice_content choice /\
    OpenaiAgent.tokens reply = OpenaiAgent.total_tokens u /\
    OpenaiAgent.model reply = model /\
    map instrument (produced w w') =
      [llm_request_counter; llm_latency_histogram; llm_token_counter] /\
    count (is_request "success") (produced w w') = 1%nat /\
    value <$> List.filter (is_token "total") (produced w w') =
      [OpenaiAgent.total_tokens u].
Proof.
  intros Hc Hch Hu.
  destruct (agent_chat_answered env w self prompt model response choice rest u
              Hc Hch Hu) as (w' & sp & Hrun & Hm & _).
  do 2 eexists. split; [exact Hrun |]. by rewrite (produced_app _ _ _ Hm).
Qed.

Lemma agent_chat_result_witness :
  exists reply w',
    OpenaiAgent.chat (agent_of (inr one_choice)) "hi" "m1" (env_up false) new_session =
      (Return (Some reply), w') /\
    OpenaiAgent.content reply = "hello" /\ OpenaiAgent.tokens reply = 4.
Proof.
  destruct (agent_chat_result (agent_of (inr one_choice)) "hi" "m1" (env_up false)
              new_session one_choice (OpenaiAgent.mkChoice "hello" "stop") []
              (OpenaiAgent.mkUsage 3 1 4) eq_refl eq_refl eq_refl)
    as (reply & w' & Hrun & Hcontent & Htokens & _).
  by exists reply, w'.
Defined.

(** X15: when the completion has a choice but its [usage] is [None], the
    request is counted twice: the samples with status "success" and the
    latency are already recorded when [response.usage.total_tokens] raises
    [AttributeError]; the handler adds a sample with status "error" and
    [chat] returns [None], the content is lost. *)
Theorem agent_chat_without_usage self prompt model env w response choice rest :
  OpenaiAgent.client self model
    [("system", "You are a helpful assistant."); ("user", prompt)] = inr response ->
  OpenaiAgent.choices response = choice :: rest ->
  OpenaiAgent.usage response = None ->
  exists w',
    OpenaiAgent.chat self prompt model env w = (Return None, w') /\
    map instrument (produced w w') =
      [llm_request_counter; llm_latency_histogram; llm_request_counter] /\
    count (is_request "success") (produced w w') = 1%nat /\
    count (is_request "error") (produced w w') = 1%nat.
Proof.
  intros Hc Hch Hu.
  destruct (agent_chat_no_usage env w self prompt model response choice rest
              Hc Hch Hu) as (w' & sp & Hrun & Hm & _).
  eexists. split; [exact Hrun |]. by rewrite (produced_app _ _ _ Hm).
Qed.

Lemma agent_chat_without_usage_witness :
  exists w',
    OpenaiAgent.chat (agent_of (inr no_usage)) "hi" "m1" (env_up false) new_session =
      (Return None, w') /\
    count (is_request "success") (produced new_session w') = 1%nat /\
    count (is_request "error") (produced new_session w') = 1%nat.
Proof.
  destruct (agent_chat_without_usage (agent_of (inr no_usage)) "hi" "m1" (env_up false)
              new_session no_usage (OpenaiAgent.mkChoice "hello" "stop") []
              eq_refl eq_refl eq_refl) as (w' & Hrun & _ & Hs & He).
  by exists w'.
Defined.

(** X16: when the client raises, or the completion has no choice, [chat]
    returns [None] and hands to the meter one request sample with status
    "error" and nothing else: no latency and no token sample. *)
Theorem agent_chat_failed self prompt model env w :
  (forall e,
     OpenaiAgent.client self model
       [("system", "You are a helpful assistant."); ("user", prompt)] = inl e ->
     exists w',
       OpenaiAgent.chat self prompt model env w = (Return None, w') /\
       produced w w' =
         [mkSample llm_request_counter 1
            [("model", model); ("status", "error");
             ("service", OpenaiAgent.service_name self)]]) /\
  (forall response,
     OpenaiAgent.client self model
       [("system", "You are a helpful assistant."); ("user", prompt)] = inr response ->
     OpenaiAgent.choices response = [] ->
     exists w',
       OpenaiAgent.chat self prompt model env w = (Return None, w') /\
       produced w w' =
         [mkSample llm_request_counter 1
            [("model", model); ("status", "error");
             ("service", OpenaiAgent.service_name self)]]).
Proof.
  split.
  - intros e Hc.
    destruct (agent_chat_refused env w self prompt model e Hc) as (w' & sp & Hrun & Hm & _).
    eexists. split; [exact Hrun |]. by apply produced_app.
  - intros response Hc Hch.
    destruct (agent_chat_no_choice env w self prompt model response Hc Hch)
      as (w' & sp & Hrun & Hm & _).
    eexists. split; [exact Hrun |]. by apply produced_app.
Qed.

Lemma agent_chat_failed_witness :
  (exists w', OpenaiAgent.chat (agent_of (inl boom)) "hi" "m1" env_down new_session =
                (Return None, w')) /\
  (exists w', OpenaiAgent.chat (agent_of (inr no_choice)) "hi" "m1" env_down new_session =
                (Return None, w')).
Proof.
  split.
  - destruct (proj1 (agent_chat_failed (agent_of (inl boom)) "hi" "m1" env_down
                       new_session) boom eq_refl) as (w' & Hrun & _).
    by exists w'.
  - destruct (proj2 (agent_chat_failed (agent_of (inr no_choice)) "hi" "m1" env_down
                       new_session) no_choice eq_refl eq_refl) as (w' & Hrun & _).
    by exists w'.
Defined.

(** * More on the turns of the four demos *)

(** X17: when the backend call raises [e], a turn of the Langfuse or of the
    Opik chatbot adds two spans, "llm_chat_request" and "ollama_api"; both are
    ended once with status [ERROR], and each holds the exception twice: once
    from the [record_exception] of the handler, once from leaving the [with]
    block. *)
Theorem failed_turn_spans :
  (forall env w (self : Langfuse.ObservableChatbot) h user_message session_id e,
     heap w !! Langfuse.conversation_history self = Some h ->
     ollama_chat_reply env (length (backend_log w)) (Langfuse.model self)
       (h ++ [mkMessage user user_message]) = inl e ->
     exists w' chat_span api_span,
       Langfuse.chat self user_message session_id env w = (Raise e, w') /\
       spans w' = spans w ++ [chat_span; api_span] /\
       failed_span "llm_chat_request" (exn_type e) chat_span /\
       failed_span "ollama_api" (exn_type e) api_span) /\
  (forall env w (self : Opik.OpikObservableChatbot) h user_message session_id e,
     heap w !! Opik.conversation_history self = Some h ->
     ollama_chat_reply env (length (backend_log w)) (Opik.model self)
       (h ++ [mkMessage user user_message]) = inl e ->
     exists w' chat_span api_span,
       Opik.chat self user_message session_id env w = (Raise e, w') /\
       spans w' = spans w ++ [chat_span; api_span] /\
       failed_span "llm_chat_request" (exn_type e) chat_span /\
       failed_span "ollama_api" (exn_type e) api_span).
Proof.
  split; intros env w self h user_message session_id e Hh Hb.
  - rewrite (langfuse_chat_raise env w self h user_message session_id Hh e Hb).
    do 3 eexists. split; [reflexivity |]. split; [reflexivity |]. by split.
  - rewrite (opik_chat_raise env w self h user_message session_id Hh e Hb).
    do 3 eexists. split; [reflexivity |]. split; [reflexivity |]. by split.
Qed.

Lemma failed_turn_spans_witness :
  (exists w' chat_span api_span,
     Langfuse.chat langfuse_bot "hi" (Some "s1") env_down new_session = (Raise boom, w') /\
     spans w' = [chat_span; api_span] /\
     failed_span "llm_chat_request" "ConnectionError" chat_span /\
     failed_span "ollama_api" "ConnectionError" api_span) /\
  (exists w' chat_span api_span,
     Opik.chat opik_bot "hi" None env_down new_session = (Raise boom, w') /\
     spans w' = [chat_span; api_span] /\
     failed_span "llm_chat_request" "ConnectionError" chat_span /\
     failed_span "ollama_api" "ConnectionError" api_span).
Proof.
  split.
  - exact (proj1 failed_turn_spans env_down new_session langfuse_bot [] "hi" (Some "s1")
                 boom eq_refl eq_refl).
  - exact (proj2 failed_turn_spans env_down new_session opik_bot [] "hi" None
                 boom eq_refl eq_refl).
Defined.

(** X18: when the reply has no message, the turn raises [KeyError] and the
    user message stays in the history; the Langfuse chatbot has by then handed
    the prompt and completion token samples of the reply to the meter, the
    Opik chatbot hands it no token sample.  Both count one error and one
    request with status "error". *)
Theorem malformed_reply_samples :
  (forall env w (self : Langfuse.ObservableChatbot) h user_message session_id r,
     heap w !! Langfuse.conversation_history self = Some h ->
     ollama_chat_reply env (length (backend_log w)) (Langfuse.model self)
       (h ++ [mkMessage user user_message]) = inr r ->
     resp_message_content r = None ->
     exists w',
       Langfuse.chat self user_message session_id env w =
         (Raise (mkExn "KeyError" "'message'"), w') /\
       history_at w' (Langfuse.conversation_history self) =
         h ++ [mkMessage user user_message] /\
       value <$> List.filter (on llm_token_counter) (produced w w') =
         [get_or_0 (resp_prompt_eval_count r); get_or_0 (resp_eval_count r)] /\
       count (is_request "error") (produced w w') = 1%nat /\
       count (on llm_error_counter) (produced w w') = 1%nat) /\
  (forall env w (self : Opik.OpikObservableChatbot) h user_message session_id r,
     heap w !! Opik.conversation_history self = Some h ->
     ollama_chat_reply env (length (backend_log w)) (Opik.model self)
       (h ++ [mkMessage user user_message]) = inr r ->
     resp_message_content r = None ->
     exists w',
       Opik.chat self user_message session_id env w =
         (Raise (mkExn "KeyError" "'message'"), w') /\
       history_at w' (Opik.conversation_history self) =
         h ++ [mkMessage user user_message] /\
       List.filter (on llm_token_counter) (produced w w') = [] /\
       count (is_request "error") (produced w w') = 1%nat /\
       count (on llm_error_counter) (produced w w') = 1%nat).
Proof.
  split; intros env w self h user_message session_id r Hh Hb Hc.
  - rewrite (langfuse_chat_malformed env w self h user_message session_id Hh r Hb Hc).
    eexists. split; [reflexivity |].
    split; [by eapply history_at_insert |].
    erewrite produced_app by reflexivity. by repeat split.
  - rewrite (opik_chat_malformed env w self h user_message session_id Hh r Hb Hc).
    eexists. split; [reflexivity |].
    split; [by eapply history_at_insert |].
    erewrite produced_app by reflexivity. by repeat split.
Qed.

Lemma malformed_reply_samples_witness :
  (exists w',
     Langfuse.chat langfuse_bot "hi" None env_malformed new_session =
       (Raise (mkExn "KeyError" "'message'"), w') /\
     value <$> List.filter (on llm_token_counter) (produced new_session w') = [3; 1]) /\
  (exists w',
     Opik.chat opik_bot "hi" None env_malformed new_session =
       (Raise (mkExn "KeyError" "'message'"), w') /\
     List.filter (on llm_token_counter) (produced new_session w') = []).
Proof.
  split.
  - destruct (proj1 malformed_reply_samples env_malformed new_session langfuse_bot []
                "hi" None no_message eq_refl eq_refl eq_refl)
      as (w' & Hrun & _ & Htok & _).
    exists w'. exact (conj Hrun Htok).
  - destruct (proj2 malformed_reply_samples env_malformed new_session opik_bot []
                "hi" None no_message eq_refl eq_refl eq_refl)
      as (w' & Hrun & _ & Htok & _).
    exists w'. exact (conj Hrun Htok).
Defined.

Lemma lookup_first_new {A} (l : list A) x y : (l ++ [x; y]) !! length l = Some x.
Proof. by rewrite lookup_app_r, Nat.sub_diag. Qed.

Lemma session_attribute_opened (truthy : option string -> bool) session_id
    (rest : gmap string AttrValue) :
  (forall s, truthy s =
     match s with Some s => negb (String.eqb s "") | None => false end) ->
  rest !! "session.id" = None ->
  (if truthy session_id then insert "session.id" (AStr (default "" session_id))
   else fun attrs => attrs) rest !! "session.id" = session_attribute session_id.
Proof.
  intros Ht Hrest. rewrite Ht. destruct session_id as [s|]; cbn; [| exact Hrest].
  destruct (String.eqb s ""); cbn; [exact Hrest | apply lookup_insert_eq].
Qed.

(** X19: whether the turn is answered or fails, its span "llm_chat_request"
    holds the attribute "session.id" exactly when a session id that is not
    empty was passed, and then with that value; the dict of an answered turn
    returns the session id as it was passed, [None] and "" included. *)
Theorem session_id_attribute :
  (forall env w (self : Langfuse.ObservableChatbot) h user_message session_id,
     heap w !! Langfuse.conversation_history self = Some h ->
     exists o w' chat_span,
       Langfuse.chat self user_message session_id env w = (o, w') /\
       spans w' !! length (spans w) = Some chat_span /\
       span_name chat_span = "llm_chat_request" /\
       attributes chat_span !! "session.id" = session_attribute session_id /\
       forall result, o = Return result ->
                      Langfuse.metadata_session_id result = session_id) /\
  (forall env w (self : Opik.OpikObservableChatbot) h user_message session_id,
     heap w !! Opik.conversation_history self = Some h ->
     exists o w' chat_span,
       Opik.chat self user_message session_id env w = (o, w') /\
       spans w' !! length (spans w) = Some chat_span /\
       span_name chat_span = "llm_chat_request" /\
       attributes chat_span !! "session.id" = session_attribute session_id /\
       forall result, o = Return result ->
                      Opik.metadata_session_id result = session_id).
Proof.
  split; intros env w self h user_message session_id Hh.
  - destruct (ollama_chat_reply env (length (backend_log w)) (Langfuse.model self)
                (h ++ [mkMessage user user_message])) as [e|r] eqn:Hb;
      [| destruct (resp_message_content r) as [c|] eqn:Hc].
    + rewrite (langfuse_chat_raise env w self h user_message session_id Hh e Hb).
      do 3 eexists. split; [reflexivity |]. cbn [spans]. split; [apply lookup_first_new |].
      cbn [span_name attributes]. split; [reflexivity |]. split; [| discriminate].
      repeat (rewrite lookup_insert_ne by done).
      by apply session_attribute_opened.
    + rewrite (langfuse_chat_ok env w self h user_message session_id Hh r c Hb Hc).
      do 3 eexists. split; [reflexivity |]. cbn [spans]. split; [apply lookup_first_new |].
      cbn [span_name attributes]. split; [reflexivity |].
      split; [| by intros result [= <-]].
      repeat (rewrite lookup_insert_ne by done).
      by apply session_attribute_opened.
    + rewrite (langfuse_chat_malformed env w self h user_message session_id Hh r Hb Hc).
      do 3 eexists. split; [reflexivity |]. cbn [spans]. split; [apply lookup_first_new |].
      cbn [span_name attributes]. split; [reflexivity |]. split; [| discriminate].
      repeat (rewrite lookup_insert_ne by done).
      by apply session_attribute_opened.
  - destruct (ollama_chat_reply env (length (backend_log w)) (Opik.model self)
                (h ++ [mkMessage user user_message])) as [e|r] eqn:Hb;
      [| destruct (resp_message_content r) as [c|] eqn:Hc].
    + rewrite (opik_chat_raise env w self h user_message session_id Hh e Hb).
      do 3 eexists. split; [reflexivity |]. cbn [spans]. split; [apply lookup_first_new |].
      cbn [span_name attributes]. split; [reflexivity |]. split; [| discriminate].
      repeat (rewrite lookup_insert_ne by done).
      by apply session_attribute_opened.
    + rewrite (opik_chat_ok env w self h user_message session_id Hh r c Hb Hc).
      do 3 eexists. split; [reflexivity |]. cbn [spans]. split; [apply lookup_first_new |].
      cbn [span_name attributes]. split; [reflexivity |].
      split; [| by intros result [= <-]].
      repeat (rewrite lookup_insert_ne by done).
      by apply session_attribute_opened.
    + rewrite (opik_chat_malformed env w self h user_message session_id Hh r Hb Hc).
      do 3 eexists. split; [reflexivity |]. cbn [spans]. split; [apply lookup_first_new |].
      cbn [span_name attributes]. split; [reflexivity |]. split; [| discriminate].
      repeat (rewrite lookup_insert_ne by done).
      by apply session_attribute_opened.
Qed.

Lemma session_id_attribute_witness :
  (exists o w' chat_span,
     Langfuse.chat langfuse_bot "hi" (Some "") (env_up false) new_session = (o, w') /\
     spans w' !! 0%nat = Some chat_span /\
     attributes chat_span !! "session.id" = None /\
     forall result, o = Return result ->
                    Langfuse.metadata_session_id result = Some "") /\
  (exists o w' chat_span,
     Opik.chat opik_bot "hi" (Some "s1") env_down new_session = (o, w') /\
     spans w' !! 0%nat = Some chat_span /\
     attributes chat_span !! "session.id" = Some (AStr "s1")).
Proof.
  split.
  - destruct (proj1 session_id_attribute (env_up false) new_session langfuse_bot []
                "hi" (Some "") eq_refl) as (o & w' & sp & Hrun & Hsp & _ & Hattr & Hres).
    exists o, w', sp. exact (conj Hrun (conj Hsp (conj Hattr Hres))).
  - destruct (proj2 session_id_attribute env_down new_session opik_bot []
                "hi" (Some "s1") eq_refl) as (o & w' & sp & Hrun & Hsp & _ & Hattr & _).
    exists o, w', sp. exact (conj Hrun (conj Hsp Hattr)).
Defined.

Lemma history_at_other w w' (l l' : nat) h h' :
  heap w !! l = Some h ->
  l <> l' ->
  heap w' = <[l' := h']> (heap w) ->
  history_at w' l = h.
Proof.
  intros Hh Hne Hw. unfold history_at. rewrite Hw.
  rewrite list_lookup_insert_ne by done. exact (f_equal (default []) Hh).
Qed.

(** X20: [get_history] hands out the list object of the chatbot, not a
    copy: a later turn makes the list handed out longer.  [clear_history]
    binds the chatbot to a new list and leaves the one handed out as it was,
    and so do the turns after it. *)
Theorem get_history_is_the_list :
  (forall env w (self : Langfuse.ObservableChatbot) h,
     heap w !! Langfuse.conversation_history self = Some h ->
     exists handed,
       Langfuse.get_history self env w = (Return handed, w) /\
       (forall user_message session_id,
          exists o w',
            Langfuse.chat self user_message session_id env w = (o, w') /\
            (length h < length (history_at w' handed))%nat) /\
       exists self' w1,
         Langfuse.clear_history self env w = (Return self', w1) /\
         history_at w1 handed = h /\
         forall user_message session_id,
           exists o w2,
             Langfuse.chat self' user_message session_id env w1 = (o, w2) /\
             history_at w2 handed = h) /\
  (forall env w (self : Opik.OpikObservableChatbot) h,
     heap w !! Opik.conversation_history self = Some h ->
     exists handed,
       Opik.get_history self env w = (Return handed, w) /\
       (forall user_message session_id,
          exists o w',
            Opik.chat self user_message session_id env w = (o, w') /\
            (length h < length (history_at w' handed))%nat) /\
       exists self' w1,
         Opik.clear_history self env w = (Return self', w1) /\
         history_at w1 handed = h /\
         forall user_message session_id,
           exists o w2,
             Opik.chat self' user_message session_id env w1 = (o, w2) /\
             history_at w2 handed = h).
Proof.
  split; intros env w self h Hh.
  - exists (Langfuse.conversation_history self). split; [reflexivity |]. split.
    + intros user_message session_id.
      destruct (langfuse_demo_turn env self user_message session_id w h Hh)
        as (o & w' & h' & extra & Hrun & Hheap & Hlen & _).
      exists o, w'. split; [exact Hrun |].
      rewrite (history_at_inserted w w' _ h h' Hh Hheap). lia.
    + pose proof (lookup_lt_Some _ _ _ Hh) as Hlt.
      set (w1 := set_heap (fun hp => hp ++ [[]]) w).
      assert (Hold : heap w1 !! Langfuse.conversation_history self = Some h).
      { subst w1. cbn [heap set_heap]. by rewrite lookup_app_l. }
      assert (Hnew : heap w1 !! length (heap w) = Some []) by apply lookup_at_length.
      exists (Langfuse.mkBot (Langfuse.model self) (length (heap w))), w1.
      split; [reflexivity |]. split; [unfold history_at; by rewrite Hold |].
      intros user_message session_id.
      destruct (langfuse_demo_turn env
                  (Langfuse.mkBot (Langfuse.model self) (length (heap w)))
                  user_message session_id w1 [] Hnew)
        as (o & w2 & h' & extra & Hrun & Hheap & _).
      exists o, w2. split; [exact Hrun |].
      apply (history_at_other w1 w2 _ (length (heap w)) h h' Hold);
        [exact (Nat.lt_neq _ _ Hlt) | exact Hheap].
  - exists (Opik.conversation_history self). split; [reflexivity |]. split.
    + intros user_message session_id.
      destruct (opik_demo_turn env self user_message session_id w h Hh)
        as (o & w' & h' & extra & Hrun & Hheap & Hlen & _).
      exists o, w'. split; [exact Hrun |].
      rewrite (history_at_inserted w w' _ h h' Hh Hheap). lia.
    + pose proof (lookup_lt_Some _ _ _ Hh) as Hlt.
      set (w1 := set_heap (fun hp => hp ++ [[]]) w).
      assert (Hold : heap w1 !! Opik.conversation_history self = Some h).
      { subst w1. cbn [heap set_heap]. by rewrite lookup_app_l. }
      assert (Hnew : heap w1 !! length (heap w) = Some []) by apply lookup_at_length.
      exists (Opik.mkBot (Opik.model self) (length (heap w))), w1.
      split; [reflexivity |]. split; [unfold history_at; by rewrite Hold |].
      intros user_message session_id.
      destruct (opik_demo_turn env
                  (Opik.mkBot (Opik.model self) (length (heap w)))
                  user_message session_id w1 [] Hnew)
        as (o & w2 & h' & extra & Hrun & Hheap & _).
      exists o, w2. split; [exact Hrun |].
      apply (history_at_other w1 w2 _ (length (heap w)) h h' Hold);
        [exact (Nat.lt_neq _ _ Hlt) | exact Hheap].
Qed.

Lemma get_history_is_the_list_witness :
  (exists self' w1,
     Langfuse.clear_history langfuse_bot (env_up false) second_session =
       (Return self', w1) /\
     history_at w1 session_list = first_turn /\
     exists o w2,
       Langfuse.chat self' "again" None (env_up false) w1 = (o, w2) /\
       history_at w2 session_list = first_turn) /\
  (exists o w',
     Opik.chat opik_bot "again" None env_down second_session = (o, w') /\
     (length first_turn < length (history_at w' session_list))%nat).
Proof.
  split.
  - destruct (proj1 get_history_is_the_list (env_up false) second_session langfuse_bot
                first_turn eq_refl)
      as (handed & [= <-] & _ & self' & w1 & Hc & Hold & Hturn).
    exists self', w1. split; [exact Hc |]. split; [exact Hold |].
    exact (Hturn "again" None).
  - destruct (proj2 get_history_is_the_list env_down second_session opik_bot
                first_turn eq_refl) as (handed & [= <-] & Hlive & _).
    exact (Hlive "again" None).
Defined.

(** X21: a turn of the Langtrace or of the OpenLLMetry demo whose backend
    call raises returns the error text and leaves its user message in the
    history without an answer; the request of the next turn on that list
    carries both user messages, one after the other. *)
Theorem failed_turn_then_next_turn :
  (forall env w l h message e next,
     heap w !! l = Some h ->
     ollama_chat_reply env (length (backend_log w)) Langtrace.MODEL
       (h ++ [mkMessage user message]) = inl e ->
     exists w1 o w2,
       Langtrace.chat message (Some l) env w = (Return (error_text e), w1) /\
       history_at w1 l = h ++ [mkMessage user message] /\
       Langtrace.chat next (Some l) env w1 = (o, w2) /\
       sends w1 w2 (mkCall Langtrace.MODEL
                      (h ++ [mkMessage user message; mkMessage user next]) false)) /\
  (forall env w l h message e next,
     heap w !! l = Some h ->
     ollama_chat_reply env (length (backend_log w)) Openllmetry.MODEL
       (h ++ [mkMessage user message]) = inl e ->
     exists w1 o w2,
       Openllmetry.chat message (Some l) env w = (Return (error_text e), w1) /\
       history_at w1 l = h ++ [mkMessage user message] /\
       Openllmetry.chat next (Some l) env w1 = (o, w2) /\
       sends w1 w2 (mkCall Openllmetry.MODEL
                      (h ++ [mkMessage user message; mkMessage user next]) false)).
Proof.
  split; intros env w l h message e next Hh Hb.
  - rewrite (langtrace_chat_raise env w l h message Hh e Hb).
    eexists.
    assert (Hh1 : heap (set_heap (insert l (h ++ [mkMessage user message])) w) !! l
                  = Some (h ++ [mkMessage user message])).
    { cbn [heap set_heap]. by eapply lookup_insert_known. }
    match goal with |- context [(Return (error_text e), ?w0) = (_, _)] =>
      destruct (langtrace_chat_sends env w0 l _ next Hh1) as (o & w2 & Hrun & Hsend) end.
    exists o, w2. split; [reflexivity |].
    split; [unfold history_at; cbn [heap set_backend_log]; by rewrite Hh1 |].
    split; [exact Hrun |]. by rewrite <- app_assoc in Hsend.
  - rewrite (openllmetry_chat_raise env w l h message Hh e Hb).
    eexists.
    assert (Hh1 : heap (set_heap (insert l (h ++ [mkMessage user message])) w) !! l
                  = Some (h ++ [mkMessage user message])).
    { cbn [heap set_heap]. by eapply lookup_insert_known. }
    match goal with |- context [(Return (error_text e), ?w0) = (_, _)] =>
      destruct (openllmetry_chat_sends env w0 l _ next Hh1) as (o & w2 & Hrun & Hsend) end.
    exists o, w2. split; [reflexivity |].
    split; [unfold history_at; cbn [heap set_backend_log set_spans]; by rewrite Hh1 |].
    split; [exact Hrun |]. by rewrite <- app_assoc in Hsend.
Qed.

Lemma failed_turn_then_next_turn_witness :
  (exists w1 o w2,
     Langtrace.chat "hi" (Some session_list) env_down new_session =
       (Return "Error: connection refused", w1) /\
     Langtrace.chat "again" (Some session_list) env_down w1 = (o, w2) /\
     backend_log w2 =
       backend_log w1 ++
       [mkCall Langtrace.MODEL [mkMessage user "hi"; mkMessage user "again"] false]) /\
  (exists w1 o w2,
     Openllmetry.chat "hi" (Some session_list) env_down new_session =
       (Return "Error: connection refused", w1) /\
     Openllmetry.chat "again" (Some session_list) env_down w1 = (o, w2) /\
     backend_log w2 =
       backend_log w1 ++
       [mkCall Openllmetry.MODEL [mkMessage user "hi"; mkMessage user "again"] false]).
Proof.
  split.
  - destruct (proj1 failed_turn_then_next_turn env_down new_session session_list []
                "hi" boom "again" eq_refl eq_refl)
      as (w1 & o & w2 & Hrun1 & _ & Hrun2 & Hsend).
    exists w1, o, w2. exact (conj Hrun1 (conj Hrun2 Hsend)).
  - destruct (proj2 failed_turn_then_next_turn env_down new_session session_list []
                "hi" boom "again" eq_refl eq_refl)
      as (w1 & o & w2 & Hrun1 & _ & Hrun2 & Hsend).
    exists w1, o, w2. exact (conj Hrun1 (conj Hrun2 Hsend)).
Defined.
